(** * Instant Translator extension: backend selection, fallback and coordinator

    A shallow embedding of the decision logic of the extension:
    - [backends/ollama.js]: model selection ([getDefaultModel],
      [getFallbackModel], [getPreferredModel]), prompt formatting
      ([formatPrompt]), the generation call with its response cleaning
      ([callOllamaApi]) and the one-shot fallback of [translate];
    - [background.js]: the configuration load ([loadAndProcessConfig]), the
      start-up sequence ([initialize]), the message dispatcher
      ([onMessageReceived]) and [handleTranslateRequest].

    JavaScript strings are sequences of UTF-16 code units; they are modelled as
    lists of [N].  Values that may be missing are modelled by [jsval]. *)

From Stdlib Require Import List NArith PeanoNat Bool Lia String Ascii.
From Stdlib Require DecimalString.
Import ListNotations.
Open Scope N_scope.
Open Scope list_scope.

Set Implicit Arguments.

(* ------------------------------------------------------------------ *)
(** ** JavaScript strings and the string primitives the code uses *)

Module JS.

(** A string is its sequence of UTF-16 code units. *)
Definition jsstring := list N.

(** An ASCII literal as a JavaScript string. *)
Definition lit (s : string) : jsstring :=
  map N_of_ascii (list_ascii_of_string s).

(** A value read from a request, a JSON document or an argument list: the
    code only ever tests such values for truthiness, compares them with [===]
    or converts them to a string.  The positions modelled with [jsval] hold
    strings in a well-formed request or configuration; a field that is
    missing reads as [undefined].  Numbers, booleans and objects in these
    positions are not modelled. *)
Inductive jsval : Type :=
| JUndefined
| JNull
| JString (s : jsstring).

Definition jsstring_eqb (a b : jsstring) : bool :=
  if list_eq_dec N.eq_dec a b then true else false.

(** [a === b] *)
Definition strict_eq (a b : jsval) : bool :=
  match a, b with
  | JUndefined, JUndefined => true
  | JNull, JNull => true
  | JString x, JString y => jsstring_eqb x y
  | _, _ => false
  end.

(** ToBoolean: [undefined], [null] and the empty string are falsy. *)
Definition truthy (v : jsval) : bool :=
  match v with
  | JString (_ :: _) => true
  | _ => false
  end.

(** [a || b] *)
Definition js_or (a b : jsval) : jsval := if truthy a then a else b.

(** ToString, as applied by template literals and by [String.prototype.replace]
    to its replacement argument. *)
Definition to_string (v : jsval) : jsstring :=
  match v with
  | JUndefined => lit "undefined"
  | JNull => lit "null"
  | JString s => s
  end.

(** Decimal rendering of a number (an HTTP status in a template literal). *)
Definition N_to_string (n : N) : jsstring :=
  lit (DecimalString.NilEmpty.string_of_uint (N.to_uint n)).

(** *** Searching *)

Fixpoint prefixb (p s : jsstring) : bool :=
  match p, s with
  | [], _ => true
  | _ :: _, [] => false
  | a :: p', b :: s' => (a =? b) && prefixb p' s'
  end.

(** The text before and after the first occurrence of [pat] in [s]. *)
Fixpoint split_first (pat s : jsstring) : option (jsstring * jsstring) :=
  if prefixb pat s then Some ([], skipn (List.length pat) s)
  else match s with
       | [] => None
       | c :: s' =>
           match split_first pat s' with
           | Some (before, after) => Some (c :: before, after)
           | None => None
           end
       end.

(** [s.includes(pat)] *)
Definition includes (s pat : jsstring) : bool :=
  match split_first pat s with Some _ => true | None => false end.

(** *** [String.prototype.replace] with a string pattern

    The replacement text is not inserted verbatim: GetSubstitution expands
    [$$] to [$], [$&] to the matched text, [$`] to the text before the match
    and [$'] to the text after it.  A string pattern has no capture groups, so
    [$1] .. [$99] and [$<] stay as they are. *)
Definition dollar : N := 36.
Definition dquote : N := 34.

Fixpoint getSubstitution (matched before after repl : jsstring) : jsstring :=
  match repl with
  | [] => []
  | c :: r =>
      if c =? dollar then
        match r with
        | [] => [dollar]
        | d :: r' =>
            if d =? dollar then dollar :: getSubstitution matched before after r'
            else if d =? 38 then matched ++ getSubstitution matched before after r'
            else if d =? 96 then before ++ getSubstitution matched before after r'
            else if d =? 39 then after ++ getSubstitution matched before after r'
            else dollar :: getSubstitution matched before after r
        end
      else c :: getSubstitution matched before after r
  end.

(** [s.replace(pat, repl)]: only the first occurrence is replaced. *)
Definition replace (s pat repl : jsstring) : jsstring :=
  match split_first pat s with
  | None => s
  | Some (before, after) =>
      before ++ getSubstitution pat before after repl ++ after
  end.

(** *** [String.prototype.trim]

    WhiteSpace and LineTerminator code units of ECMAScript. *)
Definition isWhiteSpace (c : N) : bool :=
  (c =? 9) || (c =? 10) || (c =? 11) || (c =? 12) || (c =? 13) || (c =? 32)
  || (c =? 160) || (c =? 5760) || ((8192 <=? c) && (c <=? 8202))
  || (c =? 8232) || (c =? 8233) || (c =? 8239) || (c =? 8287)
  || (c =? 12288) || (c =? 65279).

Fixpoint trimStart (s : jsstring) : jsstring :=
  match s with
  | c :: s' => if isWhiteSpace c then trimStart s' else s
  | [] => []
  end.

Definition trimEnd (s : jsstring) : jsstring := List.rev (trimStart (List.rev s)).

Definition trim (s : jsstring) : jsstring := trimEnd (trimStart s).

(** *** Case-insensitive matching of an ASCII pattern (regular expression flag [i])

    Without the [u] flag Canonicalize maps a code unit to its upper case,
    except that a code unit of 128 or more is never mapped below 128.  Every
    pattern character used here is ASCII, so a code unit of 128 or more never
    matches and below 128 only [a]..[z] change. *)
Definition canonicalize (c : N) : N :=
  if (97 <=? c) && (c <=? 122) then c - 32 else c.

Fixpoint ci_prefixb (p s : jsstring) : bool :=
  match p, s with
  | [], _ => true
  | _ :: _, [] => false
  | a :: p', b :: s' => (canonicalize a =? canonicalize b) && ci_prefixb p' s'
  end.

(** *** Members every object inherits

    Reading [object[key]] on a plain object (an object literal, or one made
    by [JSON.parse]) finds an own property first and then the members of
    [Object.prototype].  These are functions, and for [__proto__] the
    prototype object itself: truthy values that are not strings.  The list
    is the one of the Chrome runtime the extension is written for. *)
Definition objectPrototypeNames : list jsstring :=
  [ lit "constructor"; lit "toString"; lit "toLocaleString"; lit "valueOf";
    lit "hasOwnProperty"; lit "isPrototypeOf"; lit "propertyIsEnumerable";
    lit "__proto__"; lit "__defineGetter__"; lit "__defineSetter__";
    lit "__lookupGetter__"; lit "__lookupSetter__" ].

Definition inherited (key : jsstring) : bool :=
  existsb (jsstring_eqb key) objectPrototypeNames.

End JS.

(* ------------------------------------------------------------------ *)
(** ** backends/ollama.js *)

Module Ollama.
Import JS.

(** *** Configuration of the backend ([ollamaConfig])

    Only the fields the code reads are kept.  [default] records whether the
    entry has [default === true]; [promptTemplates] maps a style name to a
    template and is [None] when the model has no such object. *)
Record Model : Type := {
  id : jsstring;
  endpoint : jsstring;
  default : bool;
  promptTemplates : option (list (jsstring * jsstring))
}.

Record LanguagePair : Type := {
  source : jsval;
  target : jsval;
  preferredModel : jsval
}.

(** [models] and [languagePairs] are [None] when the settings object lacks
    them (the code reads both through [?.]). *)
Record OllamaConfig : Type := {
  models : option (list Model);
  languagePairs : option (list LanguagePair);
  fallbackModelId : jsval
}.

(** [xs?.find(f)] *)
Definition opt_find {A} (f : A -> bool) (xs : option (list A)) : option A :=
  match xs with
  | Some l => find f l
  | None => None
  end.

Definition getDefaultModel (ollamaConfig : OllamaConfig) : option Model :=
  match opt_find (fun m => default m) (models ollamaConfig) with
  | Some defaultModel => Some defaultModel
  | None =>
      match models ollamaConfig with
      | Some (m0 :: _) => Some m0
      | _ => None
      end
  end.

Definition getFallbackModel (ollamaConfig : OllamaConfig) : option Model :=
  if negb (truthy (fallbackModelId ollamaConfig)) then getDefaultModel ollamaConfig
  else
    match opt_find (fun m => strict_eq (JString (id m)) (fallbackModelId ollamaConfig))
                   (models ollamaConfig) with
    | Some fallback => Some fallback
    | None => getDefaultModel ollamaConfig
    end.

Definition getPreferredModel (ollamaConfig : OllamaConfig)
    (sourceLangCode targetLangCode : jsval) : option Model :=
  if negb (truthy sourceLangCode) || strict_eq sourceLangCode (JString (lit "auto"))
  then getDefaultModel ollamaConfig
  else
    let pair :=
      opt_find (fun p => strict_eq (source p) sourceLangCode
                         && strict_eq (target p) targetLangCode)
               (languagePairs ollamaConfig) in
    match pair with
    | Some p =>
        if truthy (preferredModel p) then
          match opt_find (fun m => strict_eq (JString (id m)) (preferredModel p))
                         (models ollamaConfig) with
          | Some model => Some model
          | None => getDefaultModel ollamaConfig
          end
        else getDefaultModel ollamaConfig
    | None => getDefaultModel ollamaConfig
    end.

(** *** Prompt formatting *)

(** A call settles either way: it returns, or it throws; for a promise, it
    is fulfilled or rejected.  A rejection carries the [message] of the
    error thrown. *)
Inductive settled (A : Type) : Type :=
| Fulfilled (a : A)
| Rejected (message : jsstring).
Arguments Rejected {A} message.

(** The own property [key] of the templates object, [undefined] when the
    object has no such key of its own; an object has each of its keys
    once. *)
Fixpoint lookup_template (key : jsstring) (templates : list (jsstring * jsstring))
  : jsval :=
  match templates with
  | [] => JUndefined
  | (k, v) :: rest => if jsstring_eqb k key then JString v else lookup_template key rest
  end.

(** What the variable [template] of [formatPrompt] holds: a value found in
    the configuration ([null] or [undefined] when there is none), or a member
    that the templates object inherits from [Object.prototype]. *)
Inductive template : Type :=
| Own (v : jsval)
| Inherited.

(** [templates[key]]: an own property shadows an inherited member. *)
Definition getTemplate (templates : list (jsstring * jsstring)) (key : jsstring)
  : template :=
  match lookup_template key templates with
  | JUndefined => if inherited key then Inherited else Own JUndefined
  | v => Own v
  end.

(** Whether [template] is truthy, the negation of the test [!template]; an
    inherited member (a function or an object) is. *)
Definition hasTemplate (t : template) : bool :=
  match t with
  | Own v => truthy v
  | Inherited => true
  end.

Definition basic_template : jsstring :=
  lit "Translate from {sourceLanguage} to {targetLanguage}: "
  ++ [dquote] ++ lit "{text}" ++ [dquote].

(** The head of [formatPrompt]: the template of the style, else the
    "natural" one, else the basic default. *)
Definition chooseTemplate (model : Model) (style : jsval) : template :=
  let actualStyle := to_string (js_or style (JString (lit "natural"))) in
  let template :=
    match promptTemplates model with
    | Some t => getTemplate t actualStyle
    | None => Own JNull
    end in
  let template :=
    if hasTemplate template then template
    else match promptTemplates model with
         | Some t => getTemplate t (lit "natural")
         | None => Own JNull
         end in
  if hasTemplate template then template else Own (JString basic_template).

(** [template.replace(...)] is a call of [undefined] when the template is an
    inherited member: neither a function nor [Object.prototype] has a
    [replace] method, and the call throws a TypeError. *)
Definition formatPrompt (model : Model)
    (sourceLanguage targetLanguage text style : jsval) : settled jsstring :=
  let template := chooseTemplate model style in
  let displaySourceLang :=
    if strict_eq sourceLanguage (JString (lit "Auto-detect"))
       || strict_eq sourceLanguage (JString (lit "auto"))
    then JString (lit "the source language")
    else sourceLanguage in
  match template with
  | Own template =>
      Fulfilled
        (replace
           (replace
              (replace (to_string template)
                       (lit "{sourceLanguage}") (to_string displaySourceLang))
              (lit "{targetLanguage}") (to_string targetLanguage))
           (lit "{text}") (to_string text))
  | Inherited => Rejected (lit "template.replace is not a function")
  end.

(** *** Response cleaning (in [callOllamaApi]) *)

(** The alternatives of
    [/^(Here's the translation:|The translation is:|Translated text:|Translation:)/i],
    in the order the expression tries them. *)
Definition preambles : list jsstring :=
  [ lit "Here's the translation:"; lit "The translation is:";
    lit "Translated text:"; lit "Translation:" ].

(** [s.replace(/^(p1|...|pn)/i, '')]: the expression is anchored and has no
    [g] flag, so at most the one match at index 0 is removed. *)
Fixpoint stripPreamble_alts (alts : list jsstring) (s : jsstring) : jsstring :=
  match alts with
  | [] => s
  | p :: alts' =>
      if ci_prefixb p s then skipn (List.length p) s
      else stripPreamble_alts alts' s
  end.

Definition stripPreamble (s : jsstring) : jsstring := stripPreamble_alts preambles s.

(** The character class of the quote expression: a double quote (34) or an
    apostrophe (39). *)
Definition isQuote (c : N) : bool := (c =? dquote) || (c =? 39).

(** Removes the last code unit when it is a quote (the alternative anchored
    at the end). *)
Fixpoint stripTrailingQuote (s : jsstring) : jsstring :=
  match s with
  | [] => []
  | [c] => if isQuote c then [] else [c]
  | c :: s' => c :: stripTrailingQuote s'
  end.

(** The second [replace] of the cleaning: a quote at the start or a quote at
    the end, with the [g] flag, so every match goes: the one at index 0 and,
    among the code units after it, the one at the end. *)
Definition stripQuotes (s : jsstring) : jsstring :=
  match s with
  | [] => []
  | c :: s' => if isQuote c then stripTrailingQuote s' else stripTrailingQuote s
  end.

Definition cleanResponse (response : jsval) : jsstring :=
  let translation := to_string (js_or response (JString [])) in
  let translation := trim (stripPreamble translation) in
  stripQuotes translation.

(** *** The generation endpoint and asynchronous calls *)

(** What the code reads of a [fetch] response.  [json] is the [response]
    field of the parsed body. *)
Record Response : Type := {
  ok : bool;
  status : N;
  statusText : jsstring;
  text : settled jsstring;
  json : settled jsval
}.

(** The body of the POST request: [model], [prompt] (and [stream: false]). *)
Record Request : Type := {
  req_endpoint : jsstring;
  req_model : jsstring;
  req_prompt : jsstring
}.

(** The outside world: the outcome of the [n]-th [fetch] issued (counted from
    0), given the request. *)
Definition Network : Type := nat -> Request -> settled Response.

(** An asynchronous computation threads the log of requests issued so far. *)
Definition Async (A : Type) : Type := list Request -> settled A * list Request.

Definition ret {A} (a : A) : Async A := fun log => (Fulfilled a, log).

Definition throw {A} (message : jsstring) : Async A :=
  fun log => (Rejected message, log).

Definition bind {A B} (c : Async A) (k : A -> Async B) : Async B :=
  fun log =>
    match c log with
    | (Fulfilled a, log') => k a log'
    | (Rejected e, log') => (Rejected e, log')
    end.

(** [try { c } catch (error) { handler(error.message) }] *)
Definition try_catch {A} (c : Async A) (handler : jsstring -> Async A) : Async A :=
  fun log =>
    match c log with
    | (Fulfilled a, log') => (Fulfilled a, log')
    | (Rejected e, log') => handler e log'
    end.

Definition await {A} (p : settled A) : Async A :=
  fun log => (p, log).

(** A synchronous call inside an asynchronous function: what it throws
    rejects the promise of the function. *)
Definition sync {A} (r : settled A) : Async A :=
  fun log => (r, log).

Notation "x <- c ;; k" := (bind c (fun x => k))
  (at level 61, c at next level, right associativity).

Inductive TranslateResult : Type :=
| Success (translation : jsstring) (usedFallback : bool) (modelUsed : jsstring)
| Failure (error : jsstring).

Section WithNetwork.

Variable net : Network.

Definition fetch (req : Request) : Async Response :=
  fun log => (net (List.length log) req, log ++ [req]).

Definition callOllamaApi (modelId endpoint prompt : jsstring) : Async jsstring :=
  try_catch
    (response <- fetch {| req_endpoint := endpoint; req_model := modelId;
                          req_prompt := prompt |} ;;
     if negb (ok response) then
       _errorBody <- await (text response) ;;
       throw (lit "API error " ++ N_to_string (status response) ++ lit ": "
              ++ statusText response)
     else
       data_response <- await (json response) ;;
       let translation := cleanResponse data_response in
       if negb (truthy (JString translation)) then
         throw (lit "Received empty translation from Ollama.")
       else ret translation)
    (fun error => throw error).

Definition modelsMissing (ollamaConfig : OllamaConfig) : bool :=
  match models ollamaConfig with
  | Some (_ :: _) => false
  | _ => true
  end.

(** The [catch (preferredError)] block of [translate]: the retry with the
    fallback model.  [formatPrompt] is called before the inner [try], so
    what it throws leaves [translate]. *)
Definition onPreferredError (preferredModel : Model) (fallbackModel : option Model)
    (actualSourceLang targetLangCode text style : jsval) (preferredError : jsstring)
  : Async TranslateResult :=
  let noFallback :=
    ret (Failure (lit "Translation failed with model " ++ id preferredModel
                  ++ lit ". Error: " ++ preferredError)) in
  match fallbackModel with
  | Some fallbackModel =>
      if negb (jsstring_eqb (id fallbackModel) (id preferredModel)) then
        fallbackPrompt <-
          sync (formatPrompt fallbackModel actualSourceLang targetLangCode text style) ;;
        try_catch
          (fallbackTranslation <-
             callOllamaApi (id fallbackModel) (endpoint fallbackModel) fallbackPrompt ;;
           ret (Success fallbackTranslation true (id fallbackModel)))
          (fun _fallbackError =>
             ret (Failure
                    (lit "Translation failed with both preferred ("
                     ++ id preferredModel ++ lit ") and fallback ("
                     ++ id fallbackModel ++ lit ") models.")))
      else noFallback
  | None => noFallback
  end.

(** The prompt of the preferred model is formatted before the [try]: what
    [formatPrompt] throws there leaves [translate] as well. *)
Definition translate (ollamaConfig : OllamaConfig)
    (text sourceLangCode targetLangCode style : jsval) : Async TranslateResult :=
  if modelsMissing ollamaConfig then
    ret (Failure (lit "Ollama backend not properly initialized or no models configured."))
  else
    match getPreferredModel ollamaConfig sourceLangCode targetLangCode with
    | None => ret (Failure (lit "No suitable Ollama model found for this language pair."))
    | Some preferredModel =>
        let fallbackModel := getFallbackModel ollamaConfig in
        let actualSourceLang :=
          if strict_eq sourceLangCode (JString (lit "auto"))
          then JString (lit "Auto-detect") else sourceLangCode in
        prompt <-
          sync (formatPrompt preferredModel actualSourceLang targetLangCode text style) ;;
        try_catch
          (translation <- callOllamaApi (id preferredModel) (endpoint preferredModel) prompt ;;
           ret (Success translation false (id preferredModel)))
          (onPreferredError preferredModel fallbackModel
                            actualSourceLang targetLangCode text style)
    end.

End WithNetwork.

(** *** [initialize]

    [settings] is [config.backendSettings.ollama] when the guard of the
    function finds it, [None] otherwise.  The first component is the new
    value of the module variable [ollamaConfig]; it is assigned before the
    line that logs [ollamaConfig.models.map(...)], which throws when the
    settings have no [models]. *)
Definition minimalConfig : OllamaConfig :=
  {| models := Some []; languagePairs := Some []; fallbackModelId := JNull |}.

Definition initialize (settings : option OllamaConfig) : OllamaConfig * settled unit :=
  let ollamaConfig :=
    match settings with Some c => c | None => minimalConfig end in
  match models ollamaConfig with
  | Some _ => (ollamaConfig, Fulfilled tt)
  | None =>
      (ollamaConfig, Rejected (lit "Cannot read properties of undefined (reading 'map')"))
  end.

End Ollama.

(* ------------------------------------------------------------------ *)
(** ** The earlier copy of backends/ollama.js

    The repository also keeps an earlier copy of the module, without
    [initialize], whose [callOllamaApi] has the [throw] on an empty
    translation commented out and no [try]/[catch] of its own.  The
    properties below are about the current module; this copy is modelled
    only to record where it differs. *)

Module OllamaLegacy.
Import JS Ollama.

Definition callOllamaApi (net : Network) (modelId endpoint prompt : jsstring)
  : Async jsstring :=
  response <- fetch net {| req_endpoint := endpoint; req_model := modelId;
                           req_prompt := prompt |} ;;
  if negb (ok response) then
    _errorBody <- await (text response) ;;
    throw (lit "API error " ++ N_to_string (status response) ++ lit ": "
           ++ statusText response)
  else
    data_response <- await (json response) ;;
    ret (cleanResponse data_response).

End OllamaLegacy.

(* ------------------------------------------------------------------ *)
(** ** background.js *)

Module Background.
Import JS.

(** An entry of [supportedLanguages] or [disabledLanguages]; [enabled] is
    [None] when the entry has no such field. *)
Record Language : Type := {
  code : jsval;
  name : jsval;
  enabled : option bool
}.

Record ChromeApiConfig : Type := {
  detectOnly : bool
}.

Record BackendSettings : Type := {
  ollama : option Ollama.OllamaConfig;
  chromeApi : option ChromeApiConfig
}.

(** The configuration object.  A list-valued or object-valued field is [None]
    when it is missing or [null]. *)
Record Config : Type := {
  version : jsval;
  defaultTargetLanguage : jsval;
  defaultSourceLanguage : jsval;
  defaultTranslationStyle : jsval;
  supportedLanguages : option (list Language);
  disabledLanguages : option (list Language);
  activeBackend : jsval;
  backendSettings : option BackendSettings
}.

(** The parsed [config.json]: each key may be absent ([None]). *)
Record LoadedConfig : Type := {
  l_version : option jsval;
  l_defaultTargetLanguage : option jsval;
  l_defaultSourceLanguage : option jsval;
  l_defaultTranslationStyle : option jsval;
  l_supportedLanguages : option (option (list Language));
  l_disabledLanguages : option (option (list Language));
  l_activeBackend : option jsval;
  l_backendSettings : option (option BackendSettings)
}.

Definition language (c n : string) : Language :=
  {| code := JString (lit c); name := JString (lit n); enabled := Some true |}.

Definition defaultConfig : Config := {|
  version := JString (lit "1.0");
  defaultTargetLanguage := JString (lit "English");
  defaultSourceLanguage := JString (lit "Auto-detect");
  defaultTranslationStyle := JString (lit "natural");
  supportedLanguages :=
    Some [ language "auto" "Auto-detect"; language "en" "English";
           language "ja" "Japanese"; language "es" "Spanish" ];
  disabledLanguages := Some [];
  activeBackend := JString (lit "ollama");
  backendSettings :=
    Some {| ollama :=
              Some {| Ollama.models :=
                        Some [ {| Ollama.id := lit "gemma3:1b";
                                  Ollama.endpoint := lit "http://localhost:11434/api/generate";
                                  Ollama.default := true;
                                  Ollama.promptTemplates := None |} ];
                      Ollama.languagePairs := None;
                      Ollama.fallbackModelId := JString (lit "gemma3:1b") |};
            chromeApi := Some {| detectOnly := false |} |}
|}.

(** A key of the second object wins when it is present
    ([{ ...defaultConfig, ...loadedConfig }]). *)
Definition spread {A} (d : A) (l : option A) : A :=
  match l with Some v => v | None => d end.

Definition mergeConfig (d : Config) (l : LoadedConfig) : Config := {|
  version := spread (version d) (l_version l);
  defaultTargetLanguage := spread (defaultTargetLanguage d) (l_defaultTargetLanguage l);
  defaultSourceLanguage := spread (defaultSourceLanguage d) (l_defaultSourceLanguage l);
  defaultTranslationStyle :=
    spread (defaultTranslationStyle d) (l_defaultTranslationStyle l);
  supportedLanguages := spread (supportedLanguages d) (l_supportedLanguages l);
  disabledLanguages := spread (disabledLanguages d) (l_disabledLanguages l);
  activeBackend := spread (activeBackend d) (l_activeBackend l);
  backendSettings := spread (backendSettings d) (l_backendSettings l)
|}.

(** *** The combined language list

    The block that three functions repeat: copy [supportedLanguages], then
    push every disabled entry whose code no entry of the list has yet, with
    [enabled: false]. *)
Definition hasCode (acc : list Language) (lang : Language) : bool :=
  existsb (fun l => strict_eq (code l) (code lang)) acc.

(** [{ ...lang, enabled: false }] *)
Definition asDisabled (lang : Language) : Language :=
  {| code := code lang; name := name lang; enabled := Some false |}.

Definition pushDisabled (acc : list Language) (lang : Language) : list Language :=
  if negb (hasCode acc lang) then acc ++ [asDisabled lang] else acc.

Definition combineLanguages (config : Config) : list Language :=
  let supportedLanguagesList :=
    match supportedLanguages config with Some l => l | None => [] end in
  match disabledLanguages config with
  | Some disabled => fold_left pushDisabled disabled supportedLanguagesList
  | None => supportedLanguagesList
  end.

(** *** Global state *)

(** The keys of [backendModules]. *)
Inductive BackendModule : Type := OllamaBackend | ChromeApiBackend.

Definition backendModules (backendName : jsval) : option BackendModule :=
  if strict_eq backendName (JString (lit "ollama")) then Some OllamaBackend
  else if strict_eq backendName (JString (lit "chromeApi")) then Some ChromeApiBackend
  else None.

(** [config], [activeBackendModule] and [supportedLanguagesList] are the
    globals of the script; [ollamaConfig] is the global of the Ollama module;
    [listening] records whether [setupListeners] has registered
    [onMessageReceived]. *)
Record State : Type := {
  config : option Config;
  activeBackendModule : option BackendModule;
  supportedLanguagesList : list Language;
  ollamaConfig : Ollama.OllamaConfig;
  listening : bool
}.

(** [let ollamaConfig = {}] *)
Definition emptyOllamaConfig : Ollama.OllamaConfig :=
  {| Ollama.models := None; Ollama.languagePairs := None;
     Ollama.fallbackModelId := JUndefined |}.

Definition initialState : State := {|
  config := None;
  activeBackendModule := None;
  supportedLanguagesList := [];
  ollamaConfig := emptyOllamaConfig;
  listening := false
|}.

Definition with_config (st : State) (c : Config) (langs : list Language) : State :=
  {| config := Some c; activeBackendModule := activeBackendModule st;
     supportedLanguagesList := langs; ollamaConfig := ollamaConfig st;
     listening := listening st |}.

Definition with_backend (st : State) (b : BackendModule) (oc : Ollama.OllamaConfig)
  : State :=
  {| config := config st; activeBackendModule := Some b;
     supportedLanguagesList := supportedLanguagesList st; ollamaConfig := oc;
     listening := listening st |}.

Definition setupListeners (st : State) : State :=
  {| config := config st; activeBackendModule := activeBackendModule st;
     supportedLanguagesList := supportedLanguagesList st;
     ollamaConfig := ollamaConfig st; listening := true |}.

(** *** Start-up *)

(** [load] is the outcome of fetching and parsing [config.json]: rejected
    when [fetch] fails, the status is not ok or [JSON.parse] throws.  The
    second component tells whether the function returned or re-threw. *)
Definition loadAndProcessConfig (load : Ollama.settled LoadedConfig) (st : State)
  : State * Ollama.settled unit :=
  match load with
  | Ollama.Fulfilled loadedConfig =>
      let c := mergeConfig defaultConfig loadedConfig in
      (with_config st c (combineLanguages c), Ollama.Fulfilled tt)
  | Ollama.Rejected error =>
      let c := defaultConfig in
      (with_config st c (combineLanguages c), Ollama.Rejected error)
  end.

(** [config && config.backendSettings && config.backendSettings.ollama] *)
Definition ollamaSettings (c : Config) : option Ollama.OllamaConfig :=
  match backendSettings c with
  | Some bs => ollama bs
  | None => None
  end.

(** Neither module exports [cleanup]; only the Ollama module's [initialize]
    can throw. *)
Definition loadActiveBackend (st : State) : State * Ollama.settled unit :=
  match config st with
  | None => (st, Ollama.Rejected (lit "Configuration or activeBackend not defined."))
  | Some c =>
      if negb (truthy (activeBackend c)) then
        (st, Ollama.Rejected (lit "Configuration or activeBackend not defined."))
      else
        match backendModules (activeBackend c) with
        | None =>
            (st, Ollama.Rejected
                   (lit "Backend module " ++ [dquote] ++ to_string (activeBackend c)
                    ++ [dquote] ++ lit " is not registered or failed to import."))
        | Some OllamaBackend =>
            let (oc, r) := Ollama.initialize (ollamaSettings c) in
            (with_backend st OllamaBackend oc, r)
        | Some ChromeApiBackend =>
            (with_backend st ChromeApiBackend (ollamaConfig st), Ollama.Fulfilled tt)
        end
  end.

(** The [catch] block of [initialize]. *)
Definition recover (st : State) : State :=
  let st :=
    match config st with
    | Some _ => st
    | None => with_config st defaultConfig (supportedLanguagesList st)
    end in
  match activeBackendModule st, config st with
  | None, Some c =>
      if truthy (activeBackend c) then
        match loadActiveBackend st with
        | (st', Ollama.Fulfilled _) => setupListeners st'
        | (st', Ollama.Rejected _) => st'
        end
      else st
  | None, None => st
  | Some _, _ => setupListeners st
  end.

(** The states the globals go through during [initialize], at the points
    where the function is suspended ([await]) or has returned: before the
    load, after [loadAndProcessConfig], and at the end. *)
Definition initialize_states (load : Ollama.settled LoadedConfig) : list State :=
  let st0 := initialState in
  match loadAndProcessConfig load st0 with
  | (st1, Ollama.Fulfilled _) =>
      match loadActiveBackend st1 with
      | (st2, Ollama.Fulfilled _) => [st0; st1; setupListeners st2]
      | (st2, Ollama.Rejected _) => [st0; st1; st2; recover st2]
      end
  | (st1, Ollama.Rejected _) => [st0; st1; recover st1]
  end.

Definition initialize (load : Ollama.settled LoadedConfig) : State :=
  last (initialize_states load) initialState.

(** *** Messages *)

Record TranslateRequest : Type := {
  r_text : jsval;
  r_sourceLang : jsval;
  r_targetLang : jsval;
  r_style : jsval
}.

Inductive Message : Type :=
| MsgTranslate (request : TranslateRequest)
| MsgCheckStatus
| MsgGetConfig
| MsgUpdateConfig
| MsgResetConfig
| MsgSwitchBackend
| MsgCheckModelStatus
| MsgUnknown.

(** What [sendResponse] is given. [BackendReply] passes the result of the
    backend on unchanged. *)
Inductive Reply (R : Type) : Type :=
| ConfigReply (config : option Config) (supportedLanguages : list Language)
| ErrorReply (error : jsstring)
| BackendReply (result : R).
Arguments ConfigReply {R} config supportedLanguages.
Arguments ErrorReply {R} error.

(** The synchronous part of [onMessageReceived]: either the response is sent
    at once, or the request goes to an asynchronous handler. *)
Inductive Dispatch (R : Type) : Type :=
| Answered (reply : Reply R)
| Handler (request : Message).
Arguments Handler {R} request.

Definition onMessageReceived {R} (st : State) (request : Message) : Dispatch R :=
  match request with
  | MsgGetConfig => Answered (ConfigReply (config st) (supportedLanguagesList st))
  | MsgUnknown => Answered (ErrorReply (lit "Unknown action"))
  | _ => Handler request
  end.

(** The arguments of [activeBackendModule.translate]. *)
Record TranslateArgs : Type := {
  a_text : jsval;
  a_sourceLangCode : jsval;
  a_targetLangCode : jsval;
  a_style : jsval
}.

Section Handlers.

Variable R : Type.

(** The outcome of awaiting the [translate] of a backend module. *)
Variable backendTranslate : BackendModule -> TranslateArgs -> Ollama.settled R.

(** [request.style || config.defaultTranslationStyle || 'natural']: reading
    a property of [config] throws when [config] is [null]. *)
Definition styleArgument (st : State) (request : TranslateRequest)
  : Ollama.settled jsval :=
  if truthy (r_style request) then Ollama.Fulfilled (r_style request)
  else
    match config st with
    | None =>
        Ollama.Rejected
          (lit "Cannot read properties of null (reading 'defaultTranslationStyle')")
    | Some c =>
        Ollama.Fulfilled (js_or (defaultTranslationStyle c) (JString (lit "natural")))
    end.

(** The response sent, and the calls made to backend modules. *)
Definition handleTranslateRequest (st : State) (request : TranslateRequest)
  : Reply R * list (BackendModule * TranslateArgs) :=
  match activeBackendModule st with
  | None => (ErrorReply (lit "No active translation backend available"), [])
  | Some backend =>
      match styleArgument st request with
      | Ollama.Rejected error => (ErrorReply (lit "Translation failed: " ++ error), [])
      | Ollama.Fulfilled style =>
          let args :=
            {| a_text := r_text request;
               a_sourceLangCode := js_or (r_sourceLang request) (JString (lit "auto"));
               a_targetLangCode := r_targetLang request;
               a_style := style |} in
          match backendTranslate backend args with
          | Ollama.Fulfilled result => (BackendReply result, [(backend, args)])
          | Ollama.Rejected error =>
              (ErrorReply (lit "Translation failed: " ++ error), [(backend, args)])
          end
      end
  end.

End Handlers.

End Background.

(* ------------------------------------------------------------------ *)
(** ** Vocabulary of the statements, and sample data *)

Module Spec.
Import JS.

(** [x] is the first element of [l] that satisfies [P]. *)
Definition first_such {A} (P : A -> Prop) (l : list A) (x : A) : Prop :=
  exists l1 l2, l = l1 ++ x :: l2 /\ P x /\ forall y, In y l1 -> ~ P y.

(** [sub] occurs in [s]. *)
Definition contains (s sub : jsstring) : Prop :=
  exists before after, s = before ++ sub ++ after.

(** A language pair entry is for the pair ([s], [t]). *)
Definition pair_for (s t : jsval) (p : Ollama.LanguagePair) : Prop :=
  Ollama.source p = s /\ Ollama.target p = t.

(** The number of places at which [pat] occurs in [s]. *)
Fixpoint occurrences (pat s : jsstring) : nat :=
  ((if prefixb pat s then 1 else 0)
   + match s with
     | [] => 0
     | _ :: s' => occurrences pat s'
     end)%nat.

(** *** Templates as text with holes *)

Inductive placeholder : Type := PSource | PTarget | PText.

Definition placeholder_name (k : placeholder) : jsstring :=
  match k with
  | PSource => lit "{sourceLanguage}"
  | PTarget => lit "{targetLanguage}"
  | PText => lit "{text}"
  end.

Definition placeholder_eqb (a b : placeholder) : bool :=
  match a, b with
  | PSource, PSource | PTarget, PTarget | PText, PText => true
  | _, _ => false
  end.

Inductive piece : Type :=
| Lit (s : jsstring)
| Hole (k : placeholder).

(** The template text of a sequence of pieces. *)
Fixpoint render (ps : list piece) : jsstring :=
  match ps with
  | [] => []
  | Lit s :: rest => s ++ render rest
  | Hole k :: rest => placeholder_name k ++ render rest
  end.

(** The first hole for [k] filled with [v]. *)
Fixpoint fill (k : placeholder) (v : jsstring) (ps : list piece) : list piece :=
  match ps with
  | [] => []
  | Lit s :: rest => Lit s :: fill k v rest
  | Hole k' :: rest =>
      if placeholder_eqb k k' then Lit v :: rest else Hole k' :: fill k v rest
  end.

(** Every hole replaced by its value, the literal text as it is. *)
Fixpoint substitute (value : placeholder -> jsstring) (ps : list piece) : jsstring :=
  match ps with
  | [] => []
  | Lit s :: rest => s ++ substitute value rest
  | Hole k :: rest => value k ++ substitute value rest
  end.

Fixpoint holes (ps : list piece) : list placeholder :=
  match ps with
  | [] => []
  | Lit _ :: rest => holes rest
  | Hole k :: rest => k :: holes rest
  end.

(** No opening brace (code unit 123). *)
Definition brace_free (s : jsstring) : Prop := Forall (fun c => c <> 123) s.

(** No dollar sign. *)
Definition dollar_free (s : jsstring) : Prop := Forall (fun c => c <> dollar) s.

(** The literal text between the holes has no opening brace. *)
Fixpoint plain (ps : list piece) : Prop :=
  match ps with
  | [] => True
  | Lit s :: rest => brace_free s /\ plain rest
  | Hole _ :: rest => plain rest
  end.

(** [p'] is [p] up to the case of ASCII letters. *)
Definition ci_equal (p p' : jsstring) : Prop :=
  Forall2 (fun a b => canonicalize a = canonicalize b) p p'.

(** Only white space. *)
Definition blank (ws : jsstring) : Prop :=
  Forall (fun c => isWhiteSpace c = true) ws.

(** Nothing, or one quote character. *)
Definition at_most_one_quote (q : jsstring) : Prop :=
  q = [] \/ exists c, Ollama.isQuote c = true /\ q = [c].

Definition starts_with_quote (s : jsstring) : Prop :=
  exists c rest, s = c :: rest /\ Ollama.isQuote c = true.

Definition ends_with_quote (s : jsstring) : Prop :=
  exists body c, s = body ++ [c] /\ Ollama.isQuote c = true.

(** [raw] starts with one of the preamble phrases, in any case. *)
Definition starts_with_preamble (raw : jsstring) : Prop :=
  exists p p' rest, In p Ollama.preambles /\ ci_equal p p' /\ raw = p' ++ rest.

(** The reading of C5 as stated, for the quotes: the cleaning removes a pair
    of quote characters, one at each end, or (read leniently) none at all. *)
Definition strips_a_pair_or_nothing (trimmed cleaned : jsstring) : Prop :=
  trimmed = cleaned
  \/ exists q1 q2, Ollama.isQuote q1 = true /\ Ollama.isQuote q2 = true
                   /\ trimmed = q1 :: cleaned ++ [q2].

(** [sourceLangCode === 'auto' ? 'Auto-detect' : sourceLangCode], the source
    language that [translate] hands to [formatPrompt]. *)
Definition actualSourceLang (sourceLangCode : jsval) : jsval :=
  if strict_eq sourceLangCode (JString (lit "auto"))
  then JString (lit "Auto-detect") else sourceLangCode.

(** The request of a translation attempt with [model]: its endpoint, its id
    and the prompt formatted from its own templates.  There is no request
    when [formatPrompt] throws. *)
Definition attempt (model : Ollama.Model)
    (sourceLangCode targetLangCode text style : jsval)
  : Ollama.settled Ollama.Request :=
  match Ollama.formatPrompt model (actualSourceLang sourceLangCode)
                            targetLangCode text style with
  | Ollama.Fulfilled prompt =>
      Ollama.Fulfilled {| Ollama.req_endpoint := Ollama.endpoint model;
                          Ollama.req_model := Ollama.id model;
                          Ollama.req_prompt := prompt |}
  | Ollama.Rejected error => Ollama.Rejected error
  end.

(** [callOllamaApi] on the request [r]. *)
Definition call (net : Ollama.Network) (r : Ollama.Request) : Ollama.Async jsstring :=
  Ollama.callOllamaApi net (Ollama.req_model r) (Ollama.req_endpoint r)
                       (Ollama.req_prompt r).

(** [k] is [l] with some entries left out, the others in their order. *)
Inductive subsequence {A} : list A -> list A -> Prop :=
| subsequence_nil : subsequence [] []
| subsequence_keep x k l : subsequence k l -> subsequence (x :: k) (x :: l)
| subsequence_drop x k l : subsequence k l -> subsequence k (x :: l).

(** Following the words of the specification (duplicates by code are
    rejected, the first occurrence wins): the entries of [l] whose code is
    neither in [seen] nor carried by an earlier entry of [l]. *)
Fixpoint first_occurrences (seen : list jsval) (l : list Background.Language)
  : list Background.Language :=
  match l with
  | [] => []
  | x :: rest =>
      if existsb (fun c => strict_eq c (Background.code x)) seen
      then first_occurrences seen rest
      else x :: first_occurrences (seen ++ [Background.code x]) rest
  end.

(** A field that is missing ([undefined]), [null] or the empty string. *)
Definition absent (v : jsval) : Prop :=
  v = JUndefined \/ v = JNull \/ v = JString [].

(** Every field of the configuration is there: the scalar fields hold a
    non-empty string, the lists and the settings object are not missing. *)
Definition complete (c : Background.Config) : Prop :=
  truthy (Background.version c) = true
  /\ truthy (Background.defaultTargetLanguage c) = true
  /\ truthy (Background.defaultSourceLanguage c) = true
  /\ truthy (Background.defaultTranslationStyle c) = true
  /\ Background.supportedLanguages c <> None
  /\ Background.disabledLanguages c <> None
  /\ truthy (Background.activeBackend c) = true
  /\ Background.backendSettings c <> None.

(** The property names that every object inherits from [Object.prototype].
    For one of these names [promptTemplates[style]] finds an inherited
    member where the templates object has no key of its own, and so does
    [backendModules[name]], which is embedded as a lookup among the
    registry's own keys.  The further properties are stated for the other
    names. *)
Definition inheritedNames : list jsstring := objectPrototypeNames.

Definition plainName (v : jsval) : bool :=
  negb (existsb (jsstring_eqb (to_string v)) inheritedNames).

End Spec.

Module Sample.
Import JS.

Definition generateUrl : jsstring := lit "http://localhost:11434/api/generate".

Definition gemma : Ollama.Model :=
  {| Ollama.id := lit "gemma3:1b"; Ollama.endpoint := generateUrl;
     Ollama.default := true; Ollama.promptTemplates := None |}.

Definition jpn : Ollama.Model :=
  {| Ollama.id := lit "gemma-2-jpn"; Ollama.endpoint := generateUrl;
     Ollama.default := false;
     Ollama.promptTemplates :=
       Some [ (lit "natural",
               lit "Translate this text from {sourceLanguage} to {targetLanguage}: {text}") ] |}.

Definition en : jsval := JString (lit "en").
Definition ja : jsval := JString (lit "ja").

Definition pair (s t : jsval) (m : string) : Ollama.LanguagePair :=
  {| Ollama.source := s; Ollama.target := t; Ollama.preferredModel := JString (lit m) |}.

(** One entry per pair. *)
Definition settings : Ollama.OllamaConfig :=
  {| Ollama.models := Some [gemma; jpn];
     Ollama.languagePairs := Some [pair en ja "gemma-2-jpn"; pair ja en "gemma-2-jpn"];
     Ollama.fallbackModelId := JString (lit "gemma3:1b") |}.

(** Two entries for the pair en -> ja; the first names a model that is not
    configured. *)
Definition settings_two_entries : Ollama.OllamaConfig :=
  {| Ollama.models := Some [gemma; jpn];
     Ollama.languagePairs := Some [pair en ja "ghost"; pair en ja "gemma-2-jpn"];
     Ollama.fallbackModelId := JString (lit "gemma3:1b") |}.

(** A 200 response whose parsed body has [body] as its [response] field. *)
Definition answer (body : jsval) : Ollama.settled Ollama.Response :=
  Ollama.Fulfilled
    {| Ollama.ok := true; Ollama.status := 200; Ollama.statusText := lit "OK";
       Ollama.text := Ollama.Fulfilled []; Ollama.json := Ollama.Fulfilled body |}.

Definition hello : jsval :=
  JString (lit "Translation: " ++ [dquote] ++ lit "konnichiwa" ++ [dquote]).

(** The first request fails at the network; every later one is answered
    with a quoted translation after a preamble. *)
Definition net_first_down : Ollama.Network :=
  fun n _ =>
    match n with
    | O => Ollama.Rejected (lit "Failed to fetch")
    | S _ => answer hello
    end.

(** Every request fails with status 500. *)
Definition net_down : Ollama.Network :=
  fun _ _ =>
    Ollama.Fulfilled
      {| Ollama.ok := false; Ollama.status := 500;
         Ollama.statusText := lit "Internal Server Error";
         Ollama.text := Ollama.Fulfilled []; Ollama.json := Ollama.Rejected [] |}.

(** The first request is answered with nothing but a preamble and quotes. *)
Definition net_first_empty : Ollama.Network :=
  fun n _ =>
    match n with
    | O => answer (JString (lit "Translation: " ++ [dquote; dquote]))
    | S _ => answer hello
    end.

(** Settings whose fallback is the model preferred for en -> ja. *)
Definition settings_same_fallback : Ollama.OllamaConfig :=
  {| Ollama.models := Some [gemma; jpn];
     Ollama.languagePairs := Some [pair en ja "gemma-2-jpn"];
     Ollama.fallbackModelId := JString (lit "gemma-2-jpn") |}.

(** The default model has no templates; the fallback model has. *)
Definition settings_templated_fallback : Ollama.OllamaConfig :=
  {| Ollama.models := Some [gemma; jpn];
     Ollama.languagePairs := Some [];
     Ollama.fallbackModelId := JString (lit "gemma-2-jpn") |}.

Definition helloText : jsval := JString (lit "Hello").
Definition natural : jsval := JString (lit "natural").

End Sample.

(* ------------------------------------------------------------------ *)
(** ** backends/ollama.js: the status checks *)

Module OllamaStatus.
Import JS Ollama.

(** [{ status: 'running', message }] or [{ status: 'error', message }]. *)
Inductive Status : Type :=
| Running (message : jsstring)
| StatusError (message : jsstring).

Definition defaultEndpoint : jsstring := lit "http://localhost:11434/api/generate".

Definition ping : jsstring := lit "Ping".

Section WithNetwork.

Variable net : Network.

Definition checkStatus (ollamaConfig : OllamaConfig) : Async Status :=
  if modelsMissing ollamaConfig then
    ret (StatusError
           (lit "Ollama backend not properly initialized or no models configured."))
  else
    match getDefaultModel ollamaConfig with
    | None => ret (StatusError (lit "No default Ollama model configured for status check."))
    | Some modelToCheck =>
        try_catch
          (_response <- callOllamaApi net (id modelToCheck) (endpoint modelToCheck) ping ;;
           ret (Running (lit "Ollama is running with model " ++ id modelToCheck)))
          (fun _error =>
             ret (StatusError
                    (lit "Failed to connect to Ollama. Ensure Ollama is running and the model "
                     ++ id modelToCheck ++ lit " exists.")))
    end.

(** [modelId] is the value of the request; the request of the call carries
    it as given, and [model.endpoint || "http://localhost:11434/api/generate"]. *)
Definition checkModelStatus (ollamaConfig : OllamaConfig) (modelId : jsval)
  : Async Status :=
  match opt_find (fun m => strict_eq (JString (id m)) modelId) (models ollamaConfig) with
  | None =>
      ret (StatusError (lit "Model " ++ to_string modelId
                        ++ lit " not found in configuration."))
  | Some model =>
      try_catch
        (_response <-
           callOllamaApi net (to_string modelId)
             (to_string (js_or (JString (endpoint model)) (JString defaultEndpoint)))
             ping ;;
         ret (Running (lit "Model " ++ to_string modelId ++ lit " is available")))
        (fun error =>
           ret (StatusError (lit "Model " ++ to_string modelId
                             ++ lit " is not available: " ++ error)))
  end.

End WithNetwork.

End OllamaStatus.

(* ------------------------------------------------------------------ *)
(** ** backends/chromeApi.js *)

Module ChromeApi.
Import JS.

(** An entry of [result.languages]; percentages are whole numbers. *)
Record DetectedLanguage : Type := {
  language : jsstring;
  percentage : N
}.

(** What [chrome.i18n.detectLanguage] hands to its callback: either
    [chrome.runtime.lastError] is set, or a result whose [languages] are
    [None] when the result or the field is missing. *)
Inductive DetectOutcome : Type :=
| LastError (message : jsstring)
| Detected (languages : option (list DetectedLanguage)).

(** [languages.sort((a, b) => b.percentage - a.percentage)]: descending by
    percentage; the sort is stable, so entries with one percentage keep
    their order. *)
Fixpoint insertByPercentage (x : DetectedLanguage) (sorted : list DetectedLanguage)
  : list DetectedLanguage :=
  match sorted with
  | [] => [x]
  | y :: rest =>
      if percentage x <? percentage y then y :: insertByPercentage x rest
      else x :: sorted
  end.

Fixpoint sortByPercentage (l : list DetectedLanguage) : list DetectedLanguage :=
  match l with
  | [] => []
  | x :: rest => insertByPercentage x (sortByPercentage rest)
  end.

(** The promise of [detectLanguage]: the detected language and its
    confidence. *)
Definition detectLanguage (outcome : DetectOutcome) : Ollama.settled (jsstring * N) :=
  match outcome with
  | LastError message => Ollama.Rejected message
  | Detected (Some (l0 :: ls)) =>
      let topLanguage := hd l0 (sortByPercentage (l0 :: ls)) in
      Ollama.Fulfilled (language topLanguage, percentage topLanguage)
  | Detected _ => Ollama.Fulfilled (lit "en", 0)
  end.

(** [v === 'c'] *)
Definition same (v : jsval) (c : string) : bool := strict_eq v (JString (lit c)).

(** The placeholder translation: it always resolves. *)
Definition translateText (text sourceLang targetLang : jsval) : jsstring :=
  if same sourceLang "en" && same targetLang "es" then
    lit "[Chrome API] " ++ to_string text ++ lit " (translated to Spanish)"
  else if same sourceLang "en" && same targetLang "ja" then
    lit "[Chrome API] " ++ to_string text ++ lit " (translated to Japanese)"
  else if same sourceLang "ja" && same targetLang "en" then
    lit "[Chrome API] " ++ to_string text ++ lit " (translated from Japanese to English)"
  else
    lit "[Chrome API] " ++ to_string text ++ lit " (translated from "
    ++ to_string sourceLang ++ lit " to " ++ to_string targetLang ++ lit ")".

(** The three shapes of the result of [translate]: the two successes (a
    translation, or the text returned as it is in detect-only mode) and the
    failure of the detection step.  The [catch] around [translateText] is
    never entered, since [translateText] always resolves. *)
Inductive Result : Type :=
| Translated (translation : jsstring) (detectedSourceLang : jsval) (modelUsed : jsstring)
| DetectOnly (translation : jsval) (detectedSourceLang : jsval) (message : jsstring)
| Failed (error : jsstring).

(** [detect] is [chrome.i18n.detectLanguage] as a function of the text. *)
Definition translate (chromeApiConfig : Background.ChromeApiConfig)
    (detect : jsval -> DetectOutcome)
    (text sourceLangCode targetLangCode style : jsval) : Result :=
  let detection :=
    if strict_eq sourceLangCode (JString (lit "auto")) then
      match detectLanguage (detect text) with
      | Ollama.Fulfilled (detectedLanguage, _) => Ollama.Fulfilled (JString detectedLanguage)
      | Ollama.Rejected message => Ollama.Rejected message
      end
    else Ollama.Fulfilled sourceLangCode in
  match detection with
  | Ollama.Rejected message => Failed (lit "Language detection failed: " ++ message)
  | Ollama.Fulfilled detectedSourceLang =>
      if Background.detectOnly chromeApiConfig then
        DetectOnly text detectedSourceLang
                   (lit "Chrome API in detect-only mode, no translation performed")
      else
        Translated (translateText text detectedSourceLang targetLangCode)
                   (if negb (strict_eq detectedSourceLang (JString (lit "auto")))
                    then detectedSourceLang else JUndefined)
                   (lit "chrome-translate")
  end.

(** [checkStatus] detects the language of a fixed text. *)
Definition checkStatus (detect : jsval -> DetectOutcome) : OllamaStatus.Status :=
  match detectLanguage (detect (JString (lit "Hello world"))) with
  | Ollama.Fulfilled _ => OllamaStatus.Running (lit "Chrome Translation API is available")
  | Ollama.Rejected message =>
      OllamaStatus.StatusError (lit "Chrome Translation API is not available: " ++ message)
  end.

Definition checkModelStatus : OllamaStatus.Status :=
  OllamaStatus.Running (lit "Chrome Translation API is available").

End ChromeApi.

(* ------------------------------------------------------------------ *)
(** ** background.js: the remaining handlers and the context menu *)

Module Handlers.
Import JS Background.

(** [{ success: true }], with a message for a backend switch, or
    [{ success: false, error }]. *)
Inductive Ack : Type :=
| Done (message : option jsstring)
| Refused (error : jsstring).

Definition set_config (st : State) (c : option Config) : State :=
  {| config := c; activeBackendModule := activeBackendModule st;
     supportedLanguagesList := supportedLanguagesList st;
     ollamaConfig := ollamaConfig st; listening := listening st |}.

Definition set_languages (st : State) (langs : list Language) : State :=
  {| config := config st; activeBackendModule := activeBackendModule st;
     supportedLanguagesList := langs;
     ollamaConfig := ollamaConfig st; listening := listening st |}.

Definition set_ollamaConfig (st : State) (oc : Ollama.OllamaConfig) : State :=
  {| config := config st; activeBackendModule := activeBackendModule st;
     supportedLanguagesList := supportedLanguagesList st;
     ollamaConfig := oc; listening := listening st |}.

(** [config.activeBackend = newBackend] *)
Definition set_activeBackend (c : Config) (newBackend : jsval) : Config :=
  {| version := version c;
     defaultTargetLanguage := defaultTargetLanguage c;
     defaultSourceLanguage := defaultSourceLanguage c;
     defaultTranslationStyle := defaultTranslationStyle c;
     supportedLanguages := supportedLanguages c;
     disabledLanguages := disabledLanguages c;
     activeBackend := newBackend;
     backendSettings := backendSettings c |}.

(** [storageSet] is the outcome of [chrome.storage.local.set]. *)
Definition handleBackendSwitch (storageSet : Ollama.settled unit) (newBackend : jsval)
    (st : State) : State * Ack :=
  match backendModules newBackend with
  | None =>
      (st, Refused (lit "Backend " ++ [dquote] ++ to_string newBackend ++ [dquote]
                    ++ lit " not found"))
  | Some _ =>
      match config st with
      | None =>
          (st, Refused (lit "Cannot set properties of null (setting 'activeBackend')"))
      | Some c =>
          let st1 := set_config st (Some (set_activeBackend c newBackend)) in
          match storageSet with
          | Ollama.Rejected error => (st1, Refused error)
          | Ollama.Fulfilled _ =>
              match loadActiveBackend st1 with
              | (st2, Ollama.Fulfilled _) =>
                  (st2, Done (Some (lit "Switched to " ++ to_string newBackend
                                    ++ lit " backend successfully")))
              | (st2, Ollama.Rejected error) => (st2, Refused error)
              end
          end
      end
  end.

(** [await activeBackendModule.initialize(config)] on the module that is
    active. *)
Definition reinitialize (st : State) (c : Config) : State * Ollama.settled unit :=
  match activeBackendModule st with
  | Some OllamaBackend =>
      let (oc, r) := Ollama.initialize (ollamaSettings c) in
      (set_ollamaConfig st oc, r)
  | _ => (st, Ollama.Fulfilled tt)
  end.

(** [newConfig] is [request.config], [None] when the request has none. *)
Definition handleConfigUpdate (storageSet : Ollama.settled unit)
    (newConfig : option Config) (st : State) : State * Ack :=
  match config st with
  | None =>
      (st, Refused (lit "Cannot read properties of null (reading 'activeBackend')"))
  | Some old =>
      let oldBackend := activeBackend old in
      let st1 := set_config st newConfig in
      match storageSet with
      | Ollama.Rejected error => (st1, Refused error)
      | Ollama.Fulfilled _ =>
          match newConfig with
          | None =>
              (st1, Refused
                      (lit "Cannot read properties of undefined (reading 'activeBackend')"))
          | Some c =>
              let (st2, r) :=
                if negb (strict_eq oldBackend (activeBackend c))
                then loadActiveBackend st1
                else reinitialize st1 c in
              match r with
              | Ollama.Rejected error => (st2, Refused error)
              | Ollama.Fulfilled _ =>
                  (set_languages st2 (combineLanguages c), Done None)
              end
          end
      end
  end.

(** [load] is the outcome of fetching and parsing [config.json] again. *)
Definition handleConfigReset (load : Ollama.settled LoadedConfig) (st : State)
  : State * Ack :=
  match loadAndProcessConfig load st with
  | (st1, Ollama.Rejected error) => (st1, Refused error)
  | (st1, Ollama.Fulfilled _) =>
      match loadActiveBackend st1 with
      | (st2, Ollama.Rejected error) => (st2, Refused error)
      | (st2, Ollama.Fulfilled _) => (st2, Done None)
      end
  end.

(** Both backend modules, in their current copies, export
    [checkModelStatus]. *)
Definition handleModelStatusCheck (net : Ollama.Network) (st : State) (modelId : jsval)
  : Ollama.Async OllamaStatus.Status :=
  match activeBackendModule st with
  | None =>
      Ollama.ret (OllamaStatus.StatusError
                    (lit "Active backend does not support model status checks"))
  | Some OllamaBackend => OllamaStatus.checkModelStatus net (ollamaConfig st) modelId
  | Some ChromeApiBackend => Ollama.ret ChromeApi.checkModelStatus
  end.

(** *** The context menu *)

(** The argument of a [chrome.contextMenus.create] call. *)
Record MenuItem : Type := {
  item_id : jsstring;
  item_parentId : option jsstring;
  item_title : jsstring
}.

Definition menuPrefix : jsstring := lit "translate-to-".

(** [lang.enabled && lang.code !== 'auto'] *)
Definition inMenu (lang : Language) : bool :=
  match enabled lang with
  | Some true => negb (strict_eq (code lang) (JString (lit "auto")))
  | _ => false
  end.

Definition languageItem (lang : Language) : MenuItem :=
  {| item_id := menuPrefix ++ to_string (code lang);
     item_parentId := Some (lit "translate");
     item_title := lit "to " ++ to_string (name lang) |}.

(** The items [setupContextMenu] asks Chrome to create, in order. *)
Definition setupContextMenu (supportedLanguagesList : list Language) : list MenuItem :=
  {| item_id := lit "translate"; item_parentId := None;
     item_title := lit "Translate Selection" |}
  :: map languageItem (filter inMenu supportedLanguagesList).

(** The message sent to the tab by the click listener that
    [setupContextMenu] adds: the target language, or nothing. *)
Definition clickedTarget (menuItemId : jsstring) : option jsstring :=
  if prefixb menuPrefix menuItemId
  then Some (replace menuItemId menuPrefix [])
  else None.

(** Whether [onContextMenuClicked] sends its message (a tab being there). *)
Definition onContextMenuClicked (menuItemId : jsstring) : bool :=
  jsstring_eqb menuItemId (lit "translateSelectedText").

(** The globals agree with each other: a configuration is loaded, the
    active module is the one registered under its [activeBackend], and the
    language list is the one derived from it. *)
Definition ready (st : State) : Prop :=
  exists c b,
    config st = Some c
    /\ activeBackendModule st = Some b
    /\ backendModules (activeBackend c) = Some b
    /\ supportedLanguagesList st = combineLanguages c.

(** The configuration that a load leaves behind. *)
Definition loadedOrDefault (load : Ollama.settled LoadedConfig) : Config :=
  match load with
  | Ollama.Fulfilled loadedConfig => mergeConfig defaultConfig loadedConfig
  | Ollama.Rejected _ => defaultConfig
  end.

End Handlers.

(* ================================================================== *)
(** * Properties *)

Import JS.

(* ------------------------------------------------------------------ *)
(** ** Model selection *)

Section Selection.
Import Ollama.

Lemma jsstring_eqb_eq (a b : jsstring) : jsstring_eqb a b = true <-> a = b.
Proof.
  unfold jsstring_eqb. destruct (list_eq_dec N.eq_dec a b); split; congruence.
Qed.

Lemma jsstring_eqb_refl (a : jsstring) : jsstring_eqb a a = true.
Proof. now apply jsstring_eqb_eq. Qed.

Lemma jsstring_eqb_neq (a b : jsstring) : jsstring_eqb a b = false <-> a <> b.
Proof.
  unfold jsstring_eqb. destruct (list_eq_dec N.eq_dec a b); split; congruence.
Qed.

Lemma strict_eq_eq (a b : jsval) : strict_eq a b = true <-> a = b.
Proof.
  destruct a, b; simpl; try (split; congruence).
  rewrite jsstring_eqb_eq. split; congruence.
Qed.

Lemma strict_eq_refl (a : jsval) : strict_eq a a = true.
Proof. now apply strict_eq_eq. Qed.

(** A model is found by [getDefaultModel] exactly when the list has one. *)
Lemma getDefaultModel_None (cfg : OllamaConfig) :
  getDefaultModel cfg = None <-> modelsMissing cfg = true.
Proof.
  unfold getDefaultModel, modelsMissing, opt_find.
  destruct (models cfg) as [[|m l]|]; simpl; try tauto.
  destruct (default m); [split; discriminate|].
  destruct (find _ l); split; discriminate.
Qed.

Lemma opt_find_Some_models {A} (f : A -> bool) xs x :
  opt_find f xs = Some x -> exists l, xs = Some l /\ In x l /\ f x = true.
Proof.
  destruct xs as [l|]; simpl; [|discriminate].
  intros H. apply find_some in H. exists l. tauto.
Qed.

Lemma getDefaultModel_In (cfg : OllamaConfig) m :
  getDefaultModel cfg = Some m -> exists l, models cfg = Some l /\ In m l.
Proof.
  unfold getDefaultModel.
  destruct (opt_find _ (models cfg)) eqn:E.
  - intros [= <-]. apply opt_find_Some_models in E as (l & ? & ? & _). eauto.
  - destruct (models cfg) as [[|m0 l]|]; try discriminate.
    intros [= <-]. exists (m0 :: l). simpl. auto.
Qed.

Lemma getFallbackModel_In (cfg : OllamaConfig) m :
  getFallbackModel cfg = Some m -> exists l, models cfg = Some l /\ In m l.
Proof.
  unfold getFallbackModel.
  destruct (negb _); [apply getDefaultModel_In|].
  destruct (opt_find _ (models cfg)) eqn:E; [|apply getDefaultModel_In].
  intros [= <-]. apply opt_find_Some_models in E as (l & ? & ? & _). eauto.
Qed.

Lemma getPreferredModel_In (cfg : OllamaConfig) s t m :
  getPreferredModel cfg s t = Some m -> exists l, models cfg = Some l /\ In m l.
Proof.
  unfold getPreferredModel.
  destruct (_ || _); [apply getDefaultModel_In|].
  destruct (opt_find _ (languagePairs cfg)) as [p|]; [|apply getDefaultModel_In].
  destruct (truthy _); [|apply getDefaultModel_In].
  destruct (opt_find _ (models cfg)) eqn:E; [|apply getDefaultModel_In].
  intros [= <-]. apply opt_find_Some_models in E as (ms & ? & ? & _). eauto.
Qed.

Lemma In_models_not_missing (cfg : OllamaConfig) l (m : Model) :
  models cfg = Some l -> In m l -> modelsMissing cfg = false.
Proof.
  unfold modelsMissing. intros -> H. destruct l; [contradiction|reflexivity].
Qed.

(** With at least one model configured every selector finds a model. *)
Lemma getFallbackModel_total (cfg : OllamaConfig) :
  modelsMissing cfg = false -> exists m, getFallbackModel cfg = Some m.
Proof.
  intros H. destruct (getFallbackModel cfg) eqn:E; [eauto|].
  unfold getFallbackModel in E.
  assert (getDefaultModel cfg = None) as D.
  { destruct (negb _); [exact E|]. destruct (opt_find _ _); [discriminate|exact E]. }
  apply getDefaultModel_None in D. congruence.
Qed.

End Selection.

Section PreferredModel.
Import Ollama Spec.

Lemma find_first_such {A} (f : A -> bool) (P : A -> Prop) (l : list A) (x : A) :
  (forall y, f y = true <-> P y) -> first_such P l x -> find f l = Some x.
Proof.
  intros HfP (l1 & l2 & -> & Hx & Hl1).
  induction l1 as [|y l1 IH]; simpl.
  - apply HfP in Hx. now rewrite Hx.
  - destruct (f y) eqn:E.
    + apply HfP in E. exfalso. apply (Hl1 y); simpl; auto.
    + apply IH. intros z Hz. apply Hl1. simpl; auto.
Qed.

Lemma first_such_find {A} (f : A -> bool) (P : A -> Prop) (l : list A) (x : A) :
  (forall y, f y = true <-> P y) -> find f l = Some x -> first_such P l x.
Proof.
  intros HfP. induction l as [|y l IH]; simpl; [discriminate|].
  destruct (f y) eqn:E.
  - intros [= ->]. exists [], l. simpl. repeat split; [now apply HfP|contradiction].
  - intros H. destruct (IH H) as (l1 & l2 & -> & Hx & Hl1).
    exists (y :: l1), l2. simpl. repeat split; auto.
    intros z [<-|Hz]; [|auto]. intros Hy. apply HfP in Hy. congruence.
Qed.

Lemma find_none_iff {A} (f : A -> bool) (l : list A) :
  find f l = None <-> forall y, In y l -> f y = false.
Proof.
  split; [apply find_none|].
  induction l as [|y l IH]; simpl; [reflexivity|].
  intros H. rewrite (H y) by auto. apply IH. auto.
Qed.

Lemma pair_test_iff s t p :
  strict_eq (source p) s && strict_eq (target p) t = true <-> pair_for s t p.
Proof.
  unfold pair_for. rewrite andb_true_iff, !strict_eq_eq. tauto.
Qed.

Lemma id_test_iff pid (m : Model) :
  strict_eq (JString (id m)) (JString pid) = true <-> id m = pid.
Proof. simpl. apply jsstring_eqb_eq. Qed.

Lemma source_unknown_iff (s : jsval) :
  negb (truthy s) || strict_eq s (JString (lit "auto")) = true
  <-> truthy s = false \/ s = JString (lit "auto").
Proof.
  rewrite orb_true_iff, negb_true_iff, strict_eq_eq. tauto.
Qed.

(** C1 (as amended).  When [sourceLangCode] is present and is not "auto", and
    the first entry of the preference list that is for the pair
    (source, target) names, by a non-empty id, a model of the models list,
    [getPreferredModel] returns the first model with that id.  When
    [sourceLangCode] is "auto" or absent (undefined, null or empty) it
    returns the default model.  The default model is the first model with
    [default = true], else the first model of the list, else none. *)
Theorem getPreferredModel_first_entry
    (cfg : OllamaConfig) (sourceLangCode targetLangCode : jsval) :
  (forall pairs p ms pid m,
      truthy sourceLangCode = true ->
      sourceLangCode <> JString (lit "auto") ->
      languagePairs cfg = Some pairs ->
      first_such (pair_for sourceLangCode targetLangCode) pairs p ->
      preferredModel p = JString pid -> pid <> [] ->
      models cfg = Some ms ->
      first_such (fun m => id m = pid) ms m ->
      getPreferredModel cfg sourceLangCode targetLangCode = Some m)
  /\ (truthy sourceLangCode = false \/ sourceLangCode = JString (lit "auto") ->
      getPreferredModel cfg sourceLangCode targetLangCode = getDefaultModel cfg)
  /\ (forall m,
      getDefaultModel cfg = Some m <->
      exists ms, models cfg = Some ms /\
        (first_such (fun m => default m = true) ms m
         \/ ((forall y, In y ms -> default y = false) /\ hd_error ms = Some m)))
  /\ (getDefaultModel cfg = None <-> models cfg = None \/ models cfg = Some []).
Proof.
  repeat split.
  - intros pairs p ms pid m Ht Hauto Hpairs Hp Hpid Hne Hms Hm.
    unfold getPreferredModel.
    destruct (negb (truthy sourceLangCode) || _) eqn:E.
    { apply source_unknown_iff in E as [E|E]; congruence. }
    rewrite Hpairs, Hms. cbn [opt_find].
    rewrite (find_first_such _ (pair_test_iff sourceLangCode targetLangCode) Hp).
    rewrite Hpid.
    assert (truthy (JString pid) = true) as -> by (destruct pid; simpl; congruence).
    now rewrite (find_first_such _ (id_test_iff pid) Hm).
  - intros H. unfold getPreferredModel.
    apply source_unknown_iff in H. now rewrite H.
  - unfold getDefaultModel, opt_find.
    destruct (models cfg) as [ms|]; [|discriminate].
    intros H. exists ms. split; [reflexivity|].
    destruct (find _ ms) eqn:E.
    + injection H as ->. left.
      apply (first_such_find (fun m => default m)); [tauto|exact E].
    + right. split; [now apply find_none_iff|].
      destruct ms; [discriminate|exact H].
  - intros (ms & Hms & H). unfold getDefaultModel, opt_find. rewrite Hms.
    destruct H as [H|[Hnone Hhd]].
    + erewrite find_first_such; [reflexivity| |exact H]. intros y; simpl; tauto.
    + rewrite (proj2 (find_none_iff (fun m => default m) ms) Hnone).
      destruct ms; [discriminate|exact Hhd].
  - intros H. apply getDefaultModel_None in H. unfold modelsMissing in H.
    destruct (models cfg) as [[|? ?]|]; auto; discriminate.
  - intros H. apply getDefaultModel_None. unfold modelsMissing.
    destruct H as [-> | ->]; reflexivity.
Qed.

End PreferredModel.

Section PreferredModelExamples.
Import Ollama Spec.

(** The theorem at the sample settings: en -> ja has one entry, naming the
    second model; "auto" gives the default model. *)
Lemma getPreferredModel_first_entry_witness :
  getPreferredModel Sample.settings Sample.en Sample.ja = Some Sample.jpn
  /\ getPreferredModel Sample.settings (JString (lit "auto")) Sample.ja
     = Some Sample.gemma.
Proof.
  split.
  - apply (proj1 (getPreferredModel_first_entry Sample.settings Sample.en Sample.ja))
      with (pairs := [Sample.pair Sample.en Sample.ja "gemma-2-jpn";
                      Sample.pair Sample.ja Sample.en "gemma-2-jpn"])
           (p := Sample.pair Sample.en Sample.ja "gemma-2-jpn")
           (ms := [Sample.gemma; Sample.jpn])
           (pid := lit "gemma-2-jpn").
    + reflexivity.
    + discriminate.
    + reflexivity.
    + exists [], [Sample.pair Sample.ja Sample.en "gemma-2-jpn"].
      repeat split. intros y [].
    + reflexivity.
    + discriminate.
    + reflexivity.
    + exists [Sample.gemma], []. repeat split.
      intros y [<-|[]]. discriminate.
  - rewrite (proj1 (proj2 (getPreferredModel_first_entry
                             Sample.settings (JString (lit "auto")) Sample.ja))
               (or_intror eq_refl)).
    reflexivity.
Defined.

(** C1 as stated fails when the pair has more than one entry: en -> ja has
    an explicit entry whose id resolves to a configured model, yet the
    default model is returned, because only the first entry for the pair is
    looked at and it names a model that does not exist. *)
Lemma getPreferredModel_later_entry_ignored :
  let cfg := Sample.settings_two_entries in
  let entry := Sample.pair Sample.en Sample.ja "gemma-2-jpn" in
  (exists pairs, languagePairs cfg = Some pairs /\ In entry pairs)
  /\ pair_for Sample.en Sample.ja entry
  /\ (exists ms, models cfg = Some ms
                 /\ first_such (fun m => JString (id m) = preferredModel entry)
                               ms Sample.jpn)
  /\ getPreferredModel cfg Sample.en Sample.ja = Some Sample.gemma
  /\ Sample.gemma <> Sample.jpn.
Proof.
  repeat split.
  - eexists. split; [reflexivity|]. simpl. auto.
  - eexists. split; [reflexivity|].
    exists [Sample.gemma], []. repeat split.
    intros y [<-|[]]. discriminate.
  - discriminate.
Qed.

End PreferredModelExamples.

(* ------------------------------------------------------------------ *)
(** ** The fallback policy of [translate] *)

Section Fallback.
Import Ollama Spec.

Variable net : Network.

(** Every call issues exactly one request, whatever its outcome. *)
Lemma callOllamaApi_log modelId endpoint prompt log :
  snd (callOllamaApi net modelId endpoint prompt log)
  = log ++ [{| req_endpoint := endpoint; req_model := modelId; req_prompt := prompt |}].
Proof.
  unfold callOllamaApi, try_catch, bind, fetch, await, throw, ret.
  destruct (net _ _) as [response|e]; [|reflexivity].
  destruct (ok response); simpl.
  - destruct (json response) as [d|]; [|reflexivity].
    destruct (cleanResponse d); reflexivity.
  - destruct (text response); reflexivity.
Qed.

Lemma call_log r log : snd (call net r log) = log ++ [r].
Proof. unfold call. rewrite callOllamaApi_log. now destruct r. Qed.

(** The outcome and the log of a call. *)
Lemma call_split r log : call net r log = (fst (call net r log), log ++ [r]).
Proof. rewrite <- call_log. now destruct (call net r log). Qed.

(** A call that is fulfilled returns a non-empty text. *)
Lemma callOllamaApi_nonempty modelId endpoint prompt log translation :
  fst (callOllamaApi net modelId endpoint prompt log) = Fulfilled translation ->
  translation <> [].
Proof.
  unfold callOllamaApi, try_catch, bind, fetch, await, throw, ret.
  destruct (net _ _) as [response|e]; [|discriminate].
  destruct (ok response); simpl.
  - destruct (json response) as [d|]; [|discriminate].
    destruct (cleanResponse d) eqn:E; simpl; [discriminate|].
    intros [= <-]. discriminate.
  - destruct (text response); discriminate.
Qed.

(** A response that is empty after the cleaning makes the call throw. *)
Lemma callOllamaApi_empty modelId endpoint prompt log response data :
  net (List.length log)
      {| req_endpoint := endpoint; req_model := modelId; req_prompt := prompt |}
  = Fulfilled response ->
  ok response = true ->
  json response = Fulfilled data ->
  cleanResponse data = [] ->
  fst (callOllamaApi net modelId endpoint prompt log)
  = Rejected (lit "Received empty translation from Ollama.").
Proof.
  intros Hnet Hok Hjson Hclean.
  unfold callOllamaApi, try_catch, bind, fetch, await, throw, ret.
  rewrite Hnet, Hok. cbn [negb]. rewrite Hjson, Hclean. reflexivity.
Qed.

(** The request of an attempt carries the model's id and endpoint. *)
Lemma attempt_request model src tgt text style r :
  attempt model src tgt text style = Fulfilled r ->
  req_model r = id model /\ req_endpoint r = endpoint model
  /\ formatPrompt model (actualSourceLang src) tgt text style = Fulfilled (req_prompt r).
Proof.
  unfold attempt.
  destruct (formatPrompt model _ tgt text style) as [prompt|e]; [|discriminate].
  intros [= <-]. auto.
Qed.

(** The [catch] block of [translate], by cases. *)
Lemma onPreferredError_run preferred fallbackModel src tgt text style preferredError log1 :
  onPreferredError net preferred fallbackModel (actualSourceLang src) tgt text style
                   preferredError log1 =
  let noFallback :=
    (Fulfilled (Failure (lit "Translation failed with model " ++ id preferred
                         ++ lit ". Error: " ++ preferredError)), log1) in
  match fallbackModel with
  | Some fallback =>
      if jsstring_eqb (id fallback) (id preferred) then noFallback
      else
        match attempt fallback src tgt text style with
        | Rejected error => (Rejected error, log1)
        | Fulfilled retry =>
            match call net retry log1 with
            | (Fulfilled fallbackTranslation, log2) =>
                (Fulfilled (Success fallbackTranslation true (id fallback)), log2)
            | (Rejected _, log2) =>
                (Fulfilled (Failure (lit "Translation failed with both preferred ("
                                     ++ id preferred ++ lit ") and fallback ("
                                     ++ id fallback ++ lit ") models.")), log2)
            end
        end
  | None => noFallback
  end.
Proof.
  unfold onPreferredError. cbv zeta.
  destruct fallbackModel as [fallback|]; [|reflexivity].
  destruct (jsstring_eqb (id fallback) (id preferred)); [reflexivity|].
  cbn [negb]. unfold attempt, bind at 1, sync.
  destruct (formatPrompt fallback _ tgt text style) as [prompt|e]; [|reflexivity].
  unfold call, try_catch, bind. cbn [req_model req_endpoint req_prompt].
  destruct (callOllamaApi net (id fallback) _ _ log1) as [[t|e'] log2]; reflexivity.
Qed.

(** The ways [translate] ends once a preferred model is found. *)
Lemma translate_run cfg text src tgt style log preferred :
  getPreferredModel cfg src tgt = Some preferred ->
  translate net cfg text src tgt style log =
  match attempt preferred src tgt text style with
  | Rejected error => (Rejected error, log)
  | Fulfilled first =>
      match call net first log with
      | (Fulfilled translation, log1) =>
          (Fulfilled (Success translation false (id preferred)), log1)
      | (Rejected preferredError, log1) =>
          onPreferredError net preferred (getFallbackModel cfg)
                           (actualSourceLang src) tgt text style preferredError log1
      end
  end.
Proof.
  intros Hp. unfold translate.
  destruct (getPreferredModel_In _ _ _ Hp) as (ms & Hms & Hin).
  rewrite (@In_models_not_missing cfg ms preferred Hms Hin), Hp.
  cbv zeta. fold (actualSourceLang src).
  unfold attempt, bind at 1, sync.
  destruct (formatPrompt preferred _ tgt text style) as [prompt|e]; [|reflexivity].
  unfold call, try_catch at 1, bind at 1. cbn [req_model req_endpoint req_prompt].
  destruct (callOllamaApi net (id preferred) _ _ log) as [[t|e] log1]; reflexivity.
Qed.

End Fallback.

Section PlainStyles.
Import Ollama Spec.

(** A name that is not inherited is looked up among the own keys only. *)
Lemma getTemplate_own (templates : list (jsstring * jsstring)) (key : jsstring) :
  inherited key = false ->
  getTemplate templates key = Own (lookup_template key templates).
Proof.
  intros H. unfold getTemplate. rewrite H.
  now destruct (lookup_template key templates).
Qed.

Lemma plainName_actualStyle (style : jsval) :
  plainName style = true ->
  inherited (to_string (js_or style (JString (lit "natural")))) = false.
Proof.
  unfold plainName, inheritedNames, js_or, inherited. intros H.
  destruct (truthy style); [|reflexivity].
  now apply negb_true_iff in H.
Qed.

(** For such a style the template is a text: the own template of the style,
    else the own "natural" one, else the basic default. *)
Lemma chooseTemplate_plain (model : Model) (style : jsval) :
  plainName style = true ->
  chooseTemplate model style
  = Own (JString
      (match promptTemplates model with
       | Some t =>
           let actualStyle := to_string (js_or style (JString (lit "natural"))) in
           if truthy (lookup_template actualStyle t)
           then to_string (lookup_template actualStyle t)
           else if truthy (lookup_template (lit "natural") t)
                then to_string (lookup_template (lit "natural") t)
                else basic_template
       | None => basic_template
       end)).
Proof.
  intros H. apply plainName_actualStyle in H. unfold chooseTemplate. cbv zeta.
  destruct (promptTemplates model) as [t|]; [|reflexivity].
  rewrite (getTemplate_own t _ H), (getTemplate_own t (lit "natural") eq_refl).
  cbn [hasTemplate].
  destruct (lookup_template _ t) as [| |[|c s]]; cbn [truthy hasTemplate];
    try reflexivity;
    destruct (lookup_template (lit "natural") t) as [| |[|c' s']]; reflexivity.
Qed.

Lemma formatPrompt_plain (model : Model) (sourceLanguage targetLanguage text style : jsval) :
  plainName style = true ->
  exists prompt,
    formatPrompt model sourceLanguage targetLanguage text style = Fulfilled prompt.
Proof.
  intros H. unfold formatPrompt. rewrite (chooseTemplate_plain model style H).
  eexists. reflexivity.
Qed.

Lemma attempt_plain (model : Model) (src tgt text style : jsval) :
  plainName style = true ->
  exists r, attempt model src tgt text style = Fulfilled r.
Proof.
  intros H. unfold attempt.
  destruct (formatPrompt_plain model (actualSourceLang src) tgt text style H) as [p ->].
  eexists. reflexivity.
Qed.

End PlainStyles.

Section FallbackPolicy.
Import Ollama Spec.

Variable net : Network.
Variable cfg : OllamaConfig.
Variables text src tgt style : jsval.
Variable log : list Request.

Let run := translate net cfg text src tgt style log.

(** The run of [translate] when the first attempt fails and the retry with a
    fallback model of another id is made. *)
Lemma translate_fallback_path preferred fallback first retry preferredError :
  getPreferredModel cfg src tgt = Some preferred ->
  getFallbackModel cfg = Some fallback ->
  id fallback <> id preferred ->
  attempt preferred src tgt text style = Fulfilled first ->
  fst (call net first log) = Rejected preferredError ->
  attempt fallback src tgt text style = Fulfilled retry ->
  run =
  (match fst (call net retry (log ++ [first])) with
   | Fulfilled fallbackTranslation =>
       Fulfilled (Success fallbackTranslation true (id fallback))
   | Rejected _ =>
       Fulfilled (Failure (lit "Translation failed with both preferred ("
                           ++ id preferred ++ lit ") and fallback ("
                           ++ id fallback ++ lit ") models."))
   end,
   log ++ [first; retry]).
Proof.
  intros Hp Hf Hid Ha1 Hfail Ha2. subst run.
  rewrite (translate_run net cfg text src tgt style log Hp), Ha1.
  rewrite call_split, Hfail, onPreferredError_run. cbv zeta. rewrite Hf.
  apply jsstring_eqb_neq in Hid. rewrite Hid, Ha2.
  rewrite call_split.
  destruct (fst (call net retry _)) as [t|e]; now rewrite <- app_assoc.
Qed.

(** X22.  The one-shot fallback.  When the request of the preferred model
    fails, the fallback model has another id and [formatPrompt] returns a
    prompt for it, [translate] issues exactly two requests: the one of the
    preferred model, then one retry with the fallback model, to the
    fallback's endpoint and with the prompt formatted afresh from the
    fallback's own templates.  When that retry succeeds the result is a
    success with [usedFallback = true] and [modelUsed] the fallback's id. *)
Theorem translate_retries_once_with_fallback
    preferred fallback first retry preferredError :
  getPreferredModel cfg src tgt = Some preferred ->
  getFallbackModel cfg = Some fallback ->
  id fallback <> id preferred ->
  attempt preferred src tgt text style = Fulfilled first ->
  fst (call net first log) = Rejected preferredError ->
  attempt fallback src tgt text style = Fulfilled retry ->
  snd run = log ++ [first; retry]
  /\ forall fallbackTranslation,
      fst (call net retry (log ++ [first])) = Fulfilled fallbackTranslation ->
      fst run = Fulfilled (Success fallbackTranslation true (id fallback)).
Proof.
  intros Hp Hf Hid Ha1 Hfail Ha2.
  rewrite (translate_fallback_path Hp Hf Hid Ha1 Hfail Ha2). cbn [fst snd].
  split; [reflexivity|]. now intros t ->.
Qed.

(** X23.  No duplicate retry.  When the preferred model and the fallback
    model have the same id and [formatPrompt] returns a prompt for it,
    [translate] issues exactly one request.  When that request fails the
    result is one failure, carrying the message of the error; when it
    succeeds the result is the success of the preferred model. *)
Theorem translate_same_model_one_attempt preferred fallback first :
  getPreferredModel cfg src tgt = Some preferred ->
  getFallbackModel cfg = Some fallback ->
  id fallback = id preferred ->
  attempt preferred src tgt text style = Fulfilled first ->
  snd run = log ++ [first]
  /\ (forall preferredError,
        fst (call net first log) = Rejected preferredError ->
        fst run = Fulfilled (Failure (lit "Translation failed with model "
                                      ++ id preferred ++ lit ". Error: "
                                      ++ preferredError)))
  /\ (forall translation,
        fst (call net first log) = Fulfilled translation ->
        fst run = Fulfilled (Success translation false (id preferred))).
Proof.
  intros Hp Hf Hid Ha. subst run.
  rewrite (translate_run net cfg text src tgt style log Hp), Ha.
  rewrite call_split.
  destruct (fst (call net first log)) as [t|e].
  - cbn [fst snd]. repeat split; try discriminate. now intros ? [= <-].
  - rewrite onPreferredError_run. cbv zeta. rewrite Hf.
    apply jsstring_eqb_eq in Hid. rewrite Hid. cbn [fst snd].
    repeat split; try discriminate. now intros ? [= <-].
Qed.

(** C4.  When the attempt with the preferred model and the retry with a
    fallback model of another id are both made and both fail, the result is
    one failure whose message contains the id of the preferred model and the
    id of the fallback model; exactly the two requests were issued. *)
Theorem translate_both_fail_names_both
    preferred fallback first retry preferredError fallbackError :
  getPreferredModel cfg src tgt = Some preferred ->
  getFallbackModel cfg = Some fallback ->
  id fallback <> id preferred ->
  attempt preferred src tgt text style = Fulfilled first ->
  fst (call net first log) = Rejected preferredError ->
  attempt fallback src tgt text style = Fulfilled retry ->
  fst (call net retry (log ++ [first])) = Rejected fallbackError ->
  exists error,
    run = (Fulfilled (Failure error), log ++ [first; retry])
    /\ contains error (id preferred)
    /\ contains error (id fallback).
Proof.
  intros Hp Hf Hid Ha1 Hfail1 Ha2 Hfail2.
  rewrite (translate_fallback_path Hp Hf Hid Ha1 Hfail1 Ha2), Hfail2.
  eexists. split; [reflexivity|]. split.
  - exists (lit "Translation failed with both preferred ("),
           (lit ") and fallback (" ++ id fallback ++ lit ") models.").
    reflexivity.
  - exists (lit "Translation failed with both preferred (" ++ id preferred
            ++ lit ") and fallback ("), (lit ") models.").
    now rewrite <- !app_assoc.
Qed.

(** No success of [translate] carries an empty translation. *)
Lemma translate_success_nonempty translation usedFallback modelUsed :
  fst run = Fulfilled (Success translation usedFallback modelUsed) ->
  translation <> [].
Proof.
  subst run.
  destruct (getPreferredModel cfg src tgt) as [preferred|] eqn:Hp.
  - rewrite (translate_run net cfg text src tgt style log Hp).
    destruct (attempt preferred src tgt text style) as [first|e0]; [|discriminate].
    destruct (call net first log) as [[t|e] log1] eqn:E1.
    + intros [= <- _ _]. apply (f_equal fst) in E1.
      now apply callOllamaApi_nonempty in E1.
    + rewrite onPreferredError_run. cbv zeta.
      destruct (getFallbackModel cfg) as [fallback|]; [|discriminate].
      destruct (jsstring_eqb _ _); [discriminate|].
      destruct (attempt fallback src tgt text style) as [retry|e1]; [|discriminate].
      destruct (call net retry log1) as [[t|e'] log2] eqn:E2; [|discriminate].
      intros [= <- _ _]. apply (f_equal fst) in E2.
      now apply callOllamaApi_nonempty in E2.
  - unfold translate. rewrite Hp. destruct (modelsMissing cfg); discriminate.
Qed.

(** C6.  An attempt whose response is empty after the cleaning is rejected
    with the empty-translation error; no success of [translate] carries an
    empty translation; an empty first response sends [translate] into its
    [catch] block, the fallback policy, exactly as a failed call does; and
    with a fallback model of another id the retry is then made. *)
Theorem empty_translation_is_failure :
  (forall modelId endpoint prompt response data,
      net (List.length log)
          {| req_endpoint := endpoint; req_model := modelId; req_prompt := prompt |}
      = Fulfilled response ->
      ok response = true ->
      json response = Fulfilled data ->
      cleanResponse data = [] ->
      fst (callOllamaApi net modelId endpoint prompt log)
      = Rejected (lit "Received empty translation from Ollama."))
  /\ (forall translation usedFallback modelUsed,
        fst run = Fulfilled (Success translation usedFallback modelUsed) ->
        translation <> [])
  /\ (forall preferred first response data,
        getPreferredModel cfg src tgt = Some preferred ->
        attempt preferred src tgt text style = Fulfilled first ->
        net (List.length log) first = Fulfilled response ->
        ok response = true ->
        json response = Fulfilled data ->
        cleanResponse data = [] ->
        run = onPreferredError net preferred (getFallbackModel cfg)
                               (actualSourceLang src) tgt text style
                               (lit "Received empty translation from Ollama.")
                               (log ++ [first])
        /\ forall fallback retry,
            getFallbackModel cfg = Some fallback ->
            id fallback <> id preferred ->
            attempt fallback src tgt text style = Fulfilled retry ->
            snd run = log ++ [first; retry]).
Proof.
  split; [intros; eapply callOllamaApi_empty; eauto|].
  split; [exact translate_success_nonempty|].
  intros preferred first response data Hp Ha Hnet Hok Hjson Hclean.
  assert (fst (call net first log)
          = Rejected (lit "Received empty translation from Ollama.")) as Hfail.
  { unfold call. eapply callOllamaApi_empty; eauto. now destruct first. }
  split.
  - subst run. rewrite (translate_run net cfg text src tgt style log Hp), Ha.
    now rewrite call_split, Hfail.
  - intros fallback retry Hf Hid Ha2.
    now rewrite (translate_fallback_path Hp Hf Hid Ha Hfail Ha2).
Qed.

End FallbackPolicy.

Section FallbackExamples.
Import Ollama Spec.

(** en -> ja prefers the second model; the network fails once; the retry
    with the fallback model answers. *)
Lemma translate_retries_once_with_fallback_witness :
  exists first retry,
    attempt Sample.jpn Sample.en Sample.ja Sample.helloText Sample.natural
    = Fulfilled first
    /\ attempt Sample.gemma Sample.en Sample.ja Sample.helloText Sample.natural
       = Fulfilled retry
    /\ translate Sample.net_first_down Sample.settings
                 Sample.helloText Sample.en Sample.ja Sample.natural []
       = (Fulfilled (Success (lit "konnichiwa") true (lit "gemma3:1b")),
          [first; retry]).
Proof.
  eexists. eexists. split; [reflexivity|]. split; [reflexivity|].
  destruct (@translate_retries_once_with_fallback
              Sample.net_first_down Sample.settings
              Sample.helloText Sample.en Sample.ja Sample.natural []
              Sample.jpn Sample.gemma _ _ (lit "Failed to fetch")
              eq_refl eq_refl ltac:(discriminate) eq_refl eq_refl eq_refl)
    as [Hlog Hres].
  specialize (Hres (lit "konnichiwa") eq_refl).
  rewrite (surjective_pairing (translate _ _ _ _ _ _ _)).
  now rewrite Hlog, Hres.
Defined.

(** The fallback is the preferred model itself and the endpoint answers 500:
    one request, one failure. *)
Lemma translate_same_model_one_attempt_witness :
  exists first,
    attempt Sample.jpn Sample.en Sample.ja Sample.helloText Sample.natural
    = Fulfilled first
    /\ translate Sample.net_down Sample.settings_same_fallback
                 Sample.helloText Sample.en Sample.ja Sample.natural []
       = (Fulfilled
            (Failure (lit "Translation failed with model gemma-2-jpn. Error: API error 500: Internal Server Error")),
          [first]).
Proof.
  eexists. split; [reflexivity|].
  destruct (@translate_same_model_one_attempt
              Sample.net_down Sample.settings_same_fallback
              Sample.helloText Sample.en Sample.ja Sample.natural []
              Sample.jpn Sample.jpn _ eq_refl eq_refl eq_refl eq_refl)
    as (Hlog & Hfail & _).
  specialize (Hfail (lit "API error 500: Internal Server Error") eq_refl).
  rewrite (surjective_pairing (translate _ _ _ _ _ _ _)).
  now rewrite Hlog, Hfail.
Defined.

(** Both models fail: the message names both ids. *)
Lemma translate_both_fail_names_both_witness :
  exists error,
    fst (translate Sample.net_down Sample.settings
                   Sample.helloText Sample.en Sample.ja Sample.natural [])
    = Fulfilled (Failure error)
    /\ contains error (lit "gemma-2-jpn")
    /\ contains error (lit "gemma3:1b").
Proof.
  destruct (@translate_both_fail_names_both
              Sample.net_down Sample.settings
              Sample.helloText Sample.en Sample.ja Sample.natural []
              Sample.jpn Sample.gemma _ _
              (lit "API error 500: Internal Server Error")
              (lit "API error 500: Internal Server Error")
              eq_refl eq_refl ltac:(discriminate) eq_refl eq_refl eq_refl eq_refl)
    as (error & Hrun & H1 & H2).
  exists error. rewrite Hrun. auto.
Defined.

(** The first answer is a preamble and a pair of quotes, nothing else: the
    call is rejected and the fallback model is asked. *)
Lemma empty_translation_is_failure_witness :
  fst (callOllamaApi Sample.net_first_empty (lit "gemma-2-jpn") Sample.generateUrl
                     (lit "Ping") [])
  = Rejected (lit "Received empty translation from Ollama.")
  /\ exists first retry,
      attempt Sample.jpn Sample.en Sample.ja Sample.helloText Sample.natural
      = Fulfilled first
      /\ attempt Sample.gemma Sample.en Sample.ja Sample.helloText Sample.natural
         = Fulfilled retry
      /\ snd (translate Sample.net_first_empty Sample.settings
                        Sample.helloText Sample.en Sample.ja Sample.natural [])
         = [first; retry].
Proof.
  destruct (@empty_translation_is_failure
              Sample.net_first_empty Sample.settings
              Sample.helloText Sample.en Sample.ja Sample.natural [])
    as (Hcall & _ & Hpath).
  split.
  - eapply Hcall; reflexivity.
  - eexists. eexists. split; [reflexivity|]. split; [reflexivity|].
    eapply (Hpath Sample.jpn); try reflexivity. discriminate.
Defined.

(** The earlier copy of the module returns the empty text instead. *)
Lemma legacy_callOllamaApi_returns_empty :
  fst (OllamaLegacy.callOllamaApi Sample.net_first_empty (lit "gemma-2-jpn")
                                  Sample.generateUrl (lit "Ping") [])
  = Fulfilled [].
Proof. reflexivity. Qed.

(** C2 fails on the code.  The style is the name of a member that every
    object inherits, and the fallback model has templates: the request of
    the preferred model fails, the fallback model has another id, and yet no
    retry is made.  [formatPrompt] throws on the fallback's templates inside
    the [catch] block, and [translate] is rejected after the one request,
    although the network would have answered the retry.  With the style
    "literal", for which the fallback model has no template either, the
    retry is made. *)
Lemma translate_inherited_style_no_retry :
  let cfg := Sample.settings_templated_fallback in
  let style := JString (lit "toString") in
  exists first,
    getPreferredModel cfg Sample.ja Sample.en = Some Sample.gemma
    /\ getFallbackModel cfg = Some Sample.jpn
    /\ id Sample.jpn <> id Sample.gemma
    /\ attempt Sample.gemma Sample.ja Sample.en Sample.helloText style = Fulfilled first
    /\ fst (call Sample.net_first_down first []) = Rejected (lit "Failed to fetch")
    /\ translate Sample.net_first_down cfg Sample.helloText Sample.ja Sample.en style []
       = (Rejected (lit "template.replace is not a function"), [first])
    /\ List.length
         (snd (translate Sample.net_first_down cfg Sample.helloText Sample.ja Sample.en
                         (JString (lit "literal")) []))
       = 2%nat.
Proof.
  cbv zeta. eexists. repeat split; try reflexivity. discriminate.
Qed.

(** C3 fails on the code.  The preferred model and the fallback model are
    the same model, it has templates, and the style is the name of an
    inherited member: [formatPrompt] throws before the [try], so whatever
    the network does no request is issued and [translate] is rejected
    instead of returning a failure.  With the style "literal" the one
    request is issued. *)
Lemma translate_inherited_style_no_attempt :
  let cfg := Sample.settings_same_fallback in
  let style := JString (lit "toString") in
  getPreferredModel cfg Sample.en Sample.ja = Some Sample.jpn
  /\ getFallbackModel cfg = Some Sample.jpn
  /\ (forall net,
        translate net cfg Sample.helloText Sample.en Sample.ja style []
        = (Rejected (lit "template.replace is not a function"), []))
  /\ List.length
       (snd (translate Sample.net_down cfg Sample.helloText Sample.en Sample.ja
                       (JString (lit "literal")) []))
     = 1%nat.
Proof.
  cbv zeta. repeat split; reflexivity.
Qed.

End FallbackExamples.

(* ------------------------------------------------------------------ *)
(** ** Response cleaning *)

Section Cleaning.
Import Ollama Spec.

Lemma cleanResponse_string (raw : jsstring) :
  cleanResponse (JString raw) = stripQuotes (trim (stripPreamble raw)).
Proof. unfold cleanResponse, js_or. now destruct raw. Qed.

(** *** The preamble *)

Lemma ci_prefixb_split (p s : jsstring) :
  ci_prefixb p s = true ->
  exists p', s = p' ++ skipn (List.length p) s /\ ci_equal p p'.
Proof.
  revert s. induction p as [|a p IH]; intros s; simpl.
  - intros _. exists []. split; [reflexivity|constructor].
  - destruct s as [|b s]; [discriminate|].
    rewrite andb_true_iff, N.eqb_eq. intros [Hab Hps].
    destruct (IH s Hps) as (p' & Hs & Hci).
    exists (b :: p'). split; [simpl; congruence|now constructor].
Qed.

Lemma ci_prefixb_complete (p p' rest : jsstring) :
  ci_equal p p' -> ci_prefixb p (p' ++ rest) = true.
Proof.
  induction 1 as [|a b p p' Hab _ IH]; simpl; [reflexivity|].
  now rewrite IH, Hab, N.eqb_refl.
Qed.

Lemma stripPreamble_alts_cases (alts : list jsstring) (s : jsstring) :
  (exists p p', In p alts /\ ci_equal p p' /\ s = p' ++ stripPreamble_alts alts s)
  \/ ((forall p, In p alts -> ci_prefixb p s = false) /\ stripPreamble_alts alts s = s).
Proof.
  induction alts as [|p alts IH]; simpl.
  - right. split; [intros p []|reflexivity].
  - destruct (ci_prefixb p s) eqn:E.
    + left. destruct (ci_prefixb_split p s E) as (p' & Hs & Hci).
      exists p, p'. auto.
    + destruct IH as [(q & q' & Hin & Hci & Hs)|[Hnone Hs]].
      * left. exists q, q'. auto.
      * right. split; [|exact Hs]. intros q [<-|Hq]; auto.
Qed.

(** *** Trimming *)

Lemma trimStart_split (s : jsstring) :
  exists ws, s = ws ++ trimStart s /\ blank ws.
Proof.
  induction s as [|c s (ws & Hs & Hws)]; simpl.
  - exists []. split; [reflexivity|constructor].
  - destruct (isWhiteSpace c) eqn:E.
    + exists (c :: ws). split; [simpl; congruence|now constructor].
    + exists []. split; [reflexivity|constructor].
Qed.

Lemma blank_rev (ws : jsstring) : blank ws -> blank (List.rev ws).
Proof.
  unfold blank. rewrite !Forall_forall. intros H c Hc. apply H.
  now apply in_rev.
Qed.

Lemma trimEnd_split (s : jsstring) :
  exists ws, s = trimEnd s ++ ws /\ blank ws.
Proof.
  unfold trimEnd. destruct (trimStart_split (List.rev s)) as (ws & Hs & Hws).
  exists (List.rev ws). split; [|now apply blank_rev].
  rewrite <- rev_app_distr, <- Hs. now rewrite rev_involutive.
Qed.

Lemma trim_split (s : jsstring) :
  exists ws1 ws2, s = ws1 ++ trim s ++ ws2 /\ blank ws1 /\ blank ws2.
Proof.
  unfold trim. destruct (trimStart_split s) as (ws1 & Hs1 & Hws1).
  destruct (trimEnd_split (trimStart s)) as (ws2 & Hs2 & Hws2).
  exists ws1, ws2. repeat split; auto. congruence.
Qed.

(** *** The quotes *)

Lemma stripTrailingQuote_cons (c : N) (s : jsstring) :
  s <> [] -> stripTrailingQuote (c :: s) = c :: stripTrailingQuote s.
Proof. destruct s; [congruence|reflexivity]. Qed.

Lemma stripTrailingQuote_split (s : jsstring) :
  exists tq, s = stripTrailingQuote s ++ tq /\ at_most_one_quote tq
             /\ (tq = [] -> ~ ends_with_quote s).
Proof.
  induction s as [|c s (tq & Hs & Htq & Hend)].
  - exists []. repeat split; [now left|].
    intros _ (body & q & H & _). now destruct body.
  - destruct s as [|d s].
    + simpl. destruct (isQuote c) eqn:E.
      * exists [c]. repeat split; [right; eauto|discriminate].
      * exists []. repeat split; [now left|].
        intros _ (body & q & H & Hq).
        destruct body as [|b [|? ?]]; simpl in H; try discriminate.
        injection H as <-. congruence.
    + rewrite stripTrailingQuote_cons by discriminate.
      exists tq. repeat split;
        [rewrite <- app_comm_cons; f_equal; exact Hs|exact Htq|].
      intros Hnil (body & q & H & Hq). apply (Hend Hnil).
      destruct body as [|b body]; [discriminate|].
      injection H as _ H. exists body, q. auto.
Qed.

Lemma stripQuotes_split (t : jsstring) :
  exists lq tq,
    t = lq ++ stripQuotes t ++ tq
    /\ at_most_one_quote lq /\ at_most_one_quote tq
    /\ (lq = [] -> ~ starts_with_quote t)
    /\ (tq = [] -> ~ ends_with_quote (skipn (List.length lq) t)).
Proof.
  destruct t as [|c s].
  - exists [], []. repeat split; try now left.
    + intros _ (c & rest & H & _). discriminate.
    + intros _ (body & q & H & _). now destruct body.
  - unfold stripQuotes. destruct (isQuote c) eqn:E.
    + destruct (stripTrailingQuote_split s) as (tq & Hs & Htq & Hend).
      exists [c], tq. repeat split; auto.
      * simpl. congruence.
      * right. eauto.
      * discriminate.
    + destruct (stripTrailingQuote_split (c :: s)) as (tq & Hs & Htq & Hend).
      exists [], tq. repeat split; auto.
      * now left.
      * intros _ (q & rest & [= <- <-] & Hq). congruence.
Qed.

End Cleaning.

Section CleaningClaims.
Import Ollama Spec.

(** C5 (as amended).  The cleaning of a raw response removes at most one
    preamble phrase: exactly one, whatever its case, when the response
    starts with one of the four phrases, and nothing otherwise.  It then
    trims white space at both ends, and then removes at most one quote
    character at the start and at most one at the end, each on its own: the
    quote at one end goes whether or not the other end has one.  Nothing
    else is removed. *)
Theorem cleanResponse_strips_at_most_one (raw : jsstring) :
  let stripped := stripPreamble raw in
  let trimmed := trim stripped in
  let cleaned := cleanResponse (JString raw) in
  ((exists p p', In p preambles /\ ci_equal p p' /\ raw = p' ++ stripped)
   \/ (~ starts_with_preamble raw /\ stripped = raw))
  /\ (exists ws1 ws2, stripped = ws1 ++ trimmed ++ ws2 /\ blank ws1 /\ blank ws2)
  /\ (exists lq tq,
        trimmed = lq ++ cleaned ++ tq
        /\ at_most_one_quote lq /\ at_most_one_quote tq
        /\ (lq = [] -> ~ starts_with_quote trimmed)
        /\ (tq = [] -> ~ ends_with_quote (skipn (List.length lq) trimmed))).
Proof.
  cbv zeta. rewrite cleanResponse_string. split; [|split].
  - unfold stripPreamble.
    destruct (stripPreamble_alts_cases preambles raw) as [H|[Hnone Hsame]];
      [left; exact H|right].
    split; [|exact Hsame].
    intros (p & p' & rest & Hin & Hci & ->).
    specialize (Hnone p Hin). rewrite (ci_prefixb_complete rest Hci) in Hnone.
    discriminate.
  - apply trim_split.
  - apply stripQuotes_split.
Qed.

(** A second preamble and a second quote at either end stay. *)
Lemma cleanResponse_strips_once :
  cleanResponse (JString (lit "TRANSLATION: translation: 'hi'"))
  = lit "translation: 'hi"
  /\ cleanResponse (JString (lit "Here's the translation: ''hi''")) = lit "'hi'".
Proof. split; reflexivity. Qed.

(** C5 as stated fails on a response with a quote at one end only: the
    quote is removed although there is no pair. *)
Lemma cleanResponse_strips_lone_quote :
  let raw := dquote :: lit "abc" in
  trim (stripPreamble raw) = raw
  /\ cleanResponse (JString raw) = lit "abc"
  /\ ~ strips_a_pair_or_nothing (trim (stripPreamble raw)) (cleanResponse (JString raw)).
Proof.
  cbv zeta. split; [reflexivity|]. split; [reflexivity|].
  intros [H|(q1 & q2 & _ & _ & H)]; vm_compute in H; discriminate.
Qed.

End CleaningClaims.

(* ------------------------------------------------------------------ *)
(** ** The combined language list *)

Section Catalog.
Import Background Spec.

Lemma seen_iff (seen : list jsval) (x : jsval) :
  existsb (fun c => strict_eq c x) seen = true <-> In x seen.
Proof.
  rewrite existsb_exists. split.
  - intros (c & Hc & E). apply strict_eq_eq in E. congruence.
  - intros H. exists x. split; [exact H|apply strict_eq_refl].
Qed.

Lemma hasCode_seen (acc : list Language) (lang : Language) :
  hasCode acc lang = existsb (fun c => strict_eq c (code lang)) (map code acc).
Proof.
  unfold hasCode. induction acc as [|l acc IH]; simpl; [reflexivity|].
  now rewrite IH.
Qed.

(** The loop of the code against the function that follows the
    specification. *)
Lemma fold_pushDisabled (disabled acc : list Language) :
  fold_left pushDisabled disabled acc
  = acc ++ map asDisabled (first_occurrences (map code acc) disabled).
Proof.
  revert acc. induction disabled as [|d rest IH]; intros acc; simpl.
  - now rewrite app_nil_r.
  - unfold pushDisabled at 2. rewrite hasCode_seen.
    destruct (existsb _ (map code acc)); simpl.
    + apply IH.
    + rewrite IH, map_app, <- app_assoc. reflexivity.
Qed.

Lemma first_occurrences_subsequence (l : list Language) :
  forall seen, subsequence (first_occurrences seen l) l.
Proof.
  induction l as [|x l IH]; intros seen; simpl; [constructor|].
  destruct (existsb _ seen); constructor; apply IH.
Qed.

Lemma first_occurrences_fresh (l : list Language) :
  forall seen d, In d (first_occurrences seen l) -> ~ In (code d) seen.
Proof.
  induction l as [|x l IH]; intros seen d; simpl; [contradiction|].
  destruct (existsb _ seen) eqn:E; [apply IH|].
  intros [<-|H].
  - intros Hin. apply seen_iff in Hin. congruence.
  - intros Hin. apply (IH _ _ H). apply in_or_app. now left.
Qed.

Lemma first_occurrences_NoDup (l : list Language) :
  forall seen, NoDup (map code (first_occurrences seen l)).
Proof.
  induction l as [|x l IH]; intros seen; simpl; [constructor|].
  destruct (existsb _ seen); [apply IH|].
  simpl. constructor; [|apply IH].
  intros Hin. apply in_map_iff in Hin as (d & Hd & Hin).
  apply first_occurrences_fresh in Hin. apply Hin.
  apply in_or_app. right. simpl. auto.
Qed.

Lemma first_occurrences_first (l : list Language) :
  forall seen l1 d l2,
    l = l1 ++ d :: l2 ->
    ~ In (code d) (seen ++ map code l1) ->
    In d (first_occurrences seen l).
Proof.
  induction l as [|x l IH]; intros seen l1 d l2 Hl Hfresh.
  - now destruct l1.
  - destruct l1 as [|y l1]; simpl in Hl; injection Hl as -> ->; simpl.
    + rewrite app_nil_r in Hfresh.
      destruct (existsb _ seen) eqn:E; [|now left].
      apply seen_iff in E. contradiction.
    + destruct (existsb _ seen) eqn:E.
      * apply (IH seen l1 d l2 eq_refl).
        intros H. apply Hfresh. simpl.
        apply in_app_or in H as [H|H]; apply in_or_app; simpl; auto.
      * right. apply (IH _ l1 d l2 eq_refl).
        intros H. apply Hfresh. simpl. rewrite <- app_assoc in H. exact H.
Qed.

Lemma first_occurrences_cover (l : list Language) :
  forall seen d, In d l -> In (code d) (seen ++ map code (first_occurrences seen l)).
Proof.
  induction l as [|x l IH]; intros seen d; simpl; [contradiction|].
  destruct (existsb _ seen) eqn:E.
  - intros [<-|H]; [|now apply IH].
    apply seen_iff in E. apply in_or_app. now left.
  - intros [<-|H].
    + apply in_or_app. right. simpl. now left.
    + specialize (IH (seen ++ [code x]) d H).
      rewrite <- app_assoc in IH. exact IH.
Qed.

(** C9 (as amended).  The combined list is the supported entries, unchanged
    and in their order, whether or not two of them have one code, followed
    by disabled entries marked [enabled = false].  Duplicates by code are
    rejected among the entries appended: the disabled entries appended are
    those whose code no supported entry and no earlier disabled entry has.
    They keep their order, their codes are pairwise different and differ
    from every supported code, the first disabled entry with a new code is
    always among them, and the code of every disabled entry is in the
    combined list. *)
Theorem combineLanguages_catalog (config : Config) :
  let supported := match supportedLanguages config with Some l => l | None => [] end in
  let disabled := match disabledLanguages config with Some l => l | None => [] end in
  exists kept,
    combineLanguages config = supported ++ map asDisabled kept
    /\ kept = first_occurrences (map code supported) disabled
    /\ subsequence kept disabled
    /\ (forall x, In x (map asDisabled kept) -> enabled x = Some false)
    /\ NoDup (map code kept)
    /\ (forall d, In d kept -> ~ In (code d) (map code supported))
    /\ (forall l1 d l2,
          disabled = l1 ++ d :: l2 ->
          ~ In (code d) (map code (supported ++ l1)) ->
          In d kept)
    /\ (forall d, In d disabled -> In (code d) (map code (combineLanguages config))).
Proof.
  cbv zeta.
  set (supported := match supportedLanguages config with Some l => l | None => [] end).
  set (disabled := match disabledLanguages config with Some l => l | None => [] end).
  assert (combineLanguages config
          = supported ++ map asDisabled (first_occurrences (map code supported) disabled))
    as Hc.
  { unfold combineLanguages. fold supported. subst disabled.
    destruct (disabledLanguages config) as [dis|].
    - apply fold_pushDisabled.
    - simpl. now rewrite app_nil_r. }
  exists (first_occurrences (map code supported) disabled).
  split; [exact Hc|]. split; [reflexivity|].
  split; [apply first_occurrences_subsequence|].
  split.
  { intros x Hx. apply in_map_iff in Hx as (d & <- & _). reflexivity. }
  split; [apply first_occurrences_NoDup|].
  split; [intros d; apply first_occurrences_fresh|].
  split.
  - intros l1 d l2 Hd Hfresh. eapply first_occurrences_first; [exact Hd|].
    now rewrite map_app in Hfresh.
  - intros d Hd. rewrite Hc, map_app, map_map. simpl.
    change (map (fun x => code x) ?l) with (map code l).
    now apply first_occurrences_cover.
Qed.

(** The packaged [config.json] shape: a disabled entry whose code a
    supported entry has is left out, and so is a repeated disabled entry. *)
Lemma combineLanguages_example :
  let fr := {| code := JString (lit "fr"); name := JString (lit "French");
               enabled := None |} in
  let es := {| code := JString (lit "es"); name := JString (lit "Castilian");
               enabled := None |} in
  combineLanguages
    {| version := JNull; defaultTargetLanguage := JNull;
       defaultSourceLanguage := JNull; defaultTranslationStyle := JNull;
       supportedLanguages := supportedLanguages defaultConfig;
       disabledLanguages := Some [fr; es; fr];
       activeBackend := JNull; backendSettings := None |}
  = [ language "auto" "Auto-detect"; language "en" "English";
      language "ja" "Japanese"; language "es" "Spanish"; asDisabled fr ].
Proof. reflexivity. Qed.

(** C9 as stated fails: among the supported entries duplicates by code are
    not rejected.  The supported entries are copied as they are, so two of
    them with one code both stay, where the catalog of the claim, the first
    occurrence of each code in the two sequences, has one entry; only the
    disabled entries are checked against the list. *)
Lemma combineLanguages_keeps_supported :
  let supported := [language "en" "English"; language "en" "Anglais"] in
  let config :=
    {| version := JNull; defaultTargetLanguage := JNull;
       defaultSourceLanguage := JNull; defaultTranslationStyle := JNull;
       supportedLanguages := Some supported;
       disabledLanguages := Some [];
       activeBackend := JNull; backendSettings := None |} in
  combineLanguages config = [language "en" "English"; language "en" "Anglais"]
  /\ ~ NoDup (map code (combineLanguages config))
  /\ first_occurrences [] (supported ++ map asDisabled []) = [language "en" "English"]
  /\ combineLanguages config <> first_occurrences [] (supported ++ map asDisabled []).
Proof.
  cbv zeta. split; [reflexivity|]. split; [|split; [reflexivity|discriminate]].
  intros H. inversion H as [|x l Hin _]; subst. apply Hin. now left.
Qed.

End Catalog.

(* ------------------------------------------------------------------ *)
(** ** The coordinator *)

Section TranslateRequests.
Import Background Spec.

Variable R : Type.
Variable backendTranslate : BackendModule -> TranslateArgs -> Ollama.settled R.

Lemma truthy_false_iff (v : jsval) : truthy v = false <-> absent v.
Proof.
  unfold absent. destruct v as [| |[|c s]]; simpl; split; auto; try discriminate.
  all: intros [H|[H|H]]; discriminate.
Qed.

Lemma truthy_true_iff (v : jsval) : truthy v = true <-> ~ absent v.
Proof.
  rewrite <- truthy_false_iff. destruct (truthy v); split; congruence.
Qed.

Lemma js_or_absent (v d : jsval) : absent v -> js_or v d = d.
Proof. intros H. apply truthy_false_iff in H. unfold js_or. now rewrite H. Qed.

Lemma js_or_present (v d : jsval) : ~ absent v -> js_or v d = v.
Proof. intros H. apply truthy_true_iff in H. unfold js_or. now rewrite H. Qed.

(** C10.  Every call that [handleTranslateRequest] makes goes to the active
    backend module, with [text] and [targetLang] as they are in the request,
    with "auto" in place of a missing or empty [sourceLang], and with, in
    place of a missing or empty [style], the [defaultTranslationStyle] of
    the configuration, or "natural" when that is missing or empty too.  The
    call is made, once, whenever a backend module is active and the style
    can be determined (the request has one, or the configuration is
    loaded). *)
Theorem handleTranslateRequest_arguments (st : State) (request : TranslateRequest) :
  (forall backend args,
      In (backend, args) (snd (handleTranslateRequest backendTranslate st request)) ->
      activeBackendModule st = Some backend
      /\ a_text args = r_text request
      /\ a_targetLangCode args = r_targetLang request
      /\ (absent (r_sourceLang request) -> a_sourceLangCode args = JString (lit "auto"))
      /\ (~ absent (r_sourceLang request) -> a_sourceLangCode args = r_sourceLang request)
      /\ (~ absent (r_style request) -> a_style args = r_style request)
      /\ (absent (r_style request) ->
          exists c, config st = Some c
            /\ (~ absent (defaultTranslationStyle c) ->
                a_style args = defaultTranslationStyle c)
            /\ (absent (defaultTranslationStyle c) ->
                a_style args = JString (lit "natural"))))
  /\ (forall backend,
      activeBackendModule st = Some backend ->
      ~ absent (r_style request) \/ config st <> None ->
      exists args, snd (handleTranslateRequest backendTranslate st request)
                   = [(backend, args)]).
Proof.
  unfold handleTranslateRequest, styleArgument. split.
  - intros backend args.
    destruct (activeBackendModule st) as [b|]; [|intros []].
    destruct (truthy (r_style request)) eqn:Hstyle.
    + destruct (backendTranslate b _); (intros [[= <- <-]|[]]); cbn;
        (split; [reflexivity|]); repeat split;
        auto using js_or_absent, js_or_present.
      all: intros H; apply truthy_false_iff in H; congruence.
    + destruct (config st) as [c|]; [|intros []].
      destruct (backendTranslate b _); (intros [[= <- <-]|[]]); cbn;
        (split; [reflexivity|]); repeat split;
        auto using js_or_absent, js_or_present.
      all: try (intros H; apply truthy_true_iff in H; congruence).
      all: intros _; exists c; auto using js_or_absent, js_or_present.
  - intros backend -> Hstyle.
    destruct (truthy (r_style request)) eqn:E.
    + destruct (backendTranslate backend _); eexists; reflexivity.
    + destruct (config st) as [c|].
      * destruct (backendTranslate backend _); eexists; reflexivity.
      * destruct Hstyle as [H|H]; [|congruence].
        apply truthy_true_iff in H. congruence.
Qed.

End TranslateRequests.

Section TranslateRequestExamples.
Import Background Spec.

(** A request without [sourceLang] and [style], against the state after a
    failed load. *)
Lemma handleTranslateRequest_arguments_witness :
  let request := {| r_text := JString (lit "Hello"); r_sourceLang := JUndefined;
                    r_targetLang := JString (lit "ja"); r_style := JString [] |} in
  let st := initialize (Ollama.Rejected (lit "Failed to fetch")) in
  exists args,
    snd (handleTranslateRequest (fun _ _ => Ollama.Fulfilled tt) st request)
    = [(OllamaBackend, args)].
Proof.
  cbv zeta.
  apply (proj2 (handleTranslateRequest_arguments
                  (fun _ _ => Ollama.Fulfilled tt)
                  (initialize (Ollama.Rejected (lit "Failed to fetch")))
                  {| r_text := JString (lit "Hello"); r_sourceLang := JUndefined;
                     r_targetLang := JString (lit "ja"); r_style := JString [] |})).
  - reflexivity.
  - right. discriminate.
Defined.

End TranslateRequestExamples.

Section GetConfig.
Import Background Spec.

Variable R : Type.

(** [loadAndProcessConfig] always leaves a configuration and its language
    list behind: the packaged file over the defaults, or the defaults. *)
Lemma loadAndProcessConfig_config load st :
  let c := match load with
           | Ollama.Fulfilled loadedConfig => mergeConfig defaultConfig loadedConfig
           | Ollama.Rejected _ => defaultConfig
           end in
  config (fst (loadAndProcessConfig load st)) = Some c
  /\ supportedLanguagesList (fst (loadAndProcessConfig load st)) = combineLanguages c
  /\ listening (fst (loadAndProcessConfig load st)) = listening st.
Proof. destruct load; simpl; auto. Qed.

(** Loading a backend changes neither the configuration nor the language
    list nor the listeners. *)
Lemma loadActiveBackend_frame st :
  config (fst (loadActiveBackend st)) = config st
  /\ supportedLanguagesList (fst (loadActiveBackend st)) = supportedLanguagesList st
  /\ listening (fst (loadActiveBackend st)) = listening st.
Proof.
  unfold loadActiveBackend.
  destruct (config st) as [c|] eqn:E; [|simpl; auto].
  destruct (negb _); [simpl; auto|].
  destruct (backendModules _) as [[|]|]; simpl; auto.
  destruct (Ollama.initialize _); simpl; auto.
Qed.

Lemma recover_frame st c :
  config st = Some c ->
  config (recover st) = Some c
  /\ supportedLanguagesList (recover st) = supportedLanguagesList st.
Proof.
  intros Hc. unfold recover. rewrite Hc.
  destruct (activeBackendModule st); [simpl; auto|].
  rewrite Hc. destruct (truthy _); [|auto].
  destruct (loadActiveBackend_frame st) as (H1 & H2 & _).
  destruct (loadActiveBackend st) as [st' [[]|e]]; simpl in *;
    rewrite H1, H2; auto.
Qed.

(** Every state of start-up but the first has the configuration and the
    language list that [loadAndProcessConfig] has left. *)
Lemma startup_state_config (load : Ollama.settled LoadedConfig) (st : State) :
  In st (initialize_states load) ->
  let c := match load with
           | Ollama.Fulfilled loadedConfig => mergeConfig defaultConfig loadedConfig
           | Ollama.Rejected _ => defaultConfig
           end in
  st = initialState
  \/ (config st = Some c /\ supportedLanguagesList st = combineLanguages c).
Proof.
  intros Hin. cbv zeta.
  unfold initialize_states in Hin.
  destruct (loadAndProcessConfig_config load initialState) as (Hc1 & Hs1 & Hl1).
  cbv zeta in Hc1, Hs1.
  destruct (loadAndProcessConfig load initialState) as [st1 r1].
  cbn [fst] in Hc1, Hs1, Hl1.
  destruct (loadActiveBackend_frame st1) as (Hc2 & Hs2 & Hl2).
  assert (forall l : list State,
             In st (initialState :: st1 :: l) ->
             (forall y, In y l -> config y = config st1
                                  /\ supportedLanguagesList y = supportedLanguagesList st1) ->
             st = initialState
             \/ (config st = config st1
                 /\ supportedLanguagesList st = supportedLanguagesList st1)) as Hframe.
  { intros l [<-|[<-|H]] Hall; auto. }
  rewrite <- Hc1, <- Hs1.
  destruct r1 as [[]|e1].
  - destruct (loadActiveBackend st1) as [st2 [[]|e2]]; cbn [fst] in Hc2, Hs2, Hl2.
    + apply (Hframe _ Hin).
      intros y [<-|[]]. simpl. auto.
    + apply (Hframe _ Hin).
      intros y [<-|[<-|[]]]; [auto|].
      destruct (@recover_frame st2 _ (eq_trans Hc2 Hc1)) as [H1 H2].
      rewrite H1, H2, Hs2. auto.
  - apply (Hframe _ Hin).
    intros y [<-|[]].
    destruct (@recover_frame st1 _ Hc1) as [H1 H2]. rewrite H1, H2. auto.
Qed.

(** C8.  A getConfig request is answered only where [onMessageReceived] is
    registered.  In the state the script starts in, before any load, it is
    not: [setupListeners] runs only after [loadAndProcessConfig] has
    finished.  In every other state that [initialize] goes through, and so
    wherever the listener is registered, the request is answered with a
    configuration that is not null and with the language list derived from
    it.  When no load has completed, because config.json could not be
    fetched or parsed, that configuration is the hardcoded default
    configuration, with every field present; when the load has completed,
    it is the loaded file merged over the defaults. *)
Theorem getConfig_during_startup (load : Ollama.settled LoadedConfig) (st : State) :
  In st (initialize_states load) ->
  let c := match load with
           | Ollama.Fulfilled loadedConfig => mergeConfig defaultConfig loadedConfig
           | Ollama.Rejected _ => defaultConfig
           end in
  ((st = initialState /\ listening st = false)
   \/ @onMessageReceived R st MsgGetConfig
      = Answered (ConfigReply (Some c) (combineLanguages c)))
  /\ (listening st = true ->
      @onMessageReceived R st MsgGetConfig
      = Answered (ConfigReply (Some c) (combineLanguages c)))
  /\ (forall error,
        load = Ollama.Rejected error -> c = defaultConfig /\ complete c).
Proof.
  intros Hin. cbv zeta.
  assert (forall error, load = Ollama.Rejected error ->
            match load with
            | Ollama.Fulfilled loadedConfig => mergeConfig defaultConfig loadedConfig
            | Ollama.Rejected _ => defaultConfig
            end = defaultConfig
            /\ complete match load with
                        | Ollama.Fulfilled loadedConfig =>
                            mergeConfig defaultConfig loadedConfig
                        | Ollama.Rejected _ => defaultConfig
                        end) as Hdefault.
  { intros error ->. split; [reflexivity|].
    unfold complete. cbn. repeat split; discriminate. }
  destruct (startup_state_config load st Hin) as [->|[Hc Hs]].
  - split; [left; split; reflexivity|]. split; [discriminate|exact Hdefault].
  - assert (@onMessageReceived R st MsgGetConfig
            = Answered (ConfigReply
                          (Some match load with
                                | Ollama.Fulfilled loadedConfig =>
                                    mergeConfig defaultConfig loadedConfig
                                | Ollama.Rejected _ => defaultConfig
                                end)
                          (combineLanguages
                             match load with
                             | Ollama.Fulfilled loadedConfig =>
                                 mergeConfig defaultConfig loadedConfig
                             | Ollama.Rejected _ => defaultConfig
                             end))) as Hreply.
    { unfold onMessageReceived. now rewrite Hc, Hs. }
    split; [right; exact Hreply|]. split; [intros _; exact Hreply|exact Hdefault].
Qed.

End GetConfig.

Section GetConfigExamples.
Import Background Spec.

(** [config.json] cannot be fetched: the default backend still comes up, the
    listeners are registered and getConfig answers with the defaults. *)
Lemma getConfig_during_startup_witness :
  listening (initialize (Ollama.Rejected (lit "Failed to fetch"))) = true
  /\ @onMessageReceived unit (initialize (Ollama.Rejected (lit "Failed to fetch")))
                        MsgGetConfig
     = Answered (ConfigReply (Some defaultConfig) (combineLanguages defaultConfig)).
Proof.
  split; [reflexivity|].
  destruct (@getConfig_during_startup
              unit (Ollama.Rejected (lit "Failed to fetch"))
              (initialize (Ollama.Rejected (lit "Failed to fetch"))))
    as (_ & H & _).
  - simpl. auto.
  - exact (H eq_refl).
Defined.

End GetConfigExamples.

(* ------------------------------------------------------------------ *)
(** ** Prompt formatting *)

Section PromptFormatting.
Import Ollama Spec.

Lemma prefixb_app (pat rest : jsstring) : prefixb pat (pat ++ rest) = true.
Proof.
  induction pat as [|c pat IH]; simpl; [reflexivity|].
  now rewrite N.eqb_refl.
Qed.

Lemma split_first_unfold (pat s : jsstring) :
  split_first pat s =
  if prefixb pat s then Some ([], skipn (List.length pat) s)
  else match s with
       | [] => None
       | c :: s' =>
           match split_first pat s' with
           | Some (before, after) => Some (c :: before, after)
           | None => None
           end
       end.
Proof. now destruct s. Qed.

Lemma includes_complete (s sub : jsstring) : contains s sub -> includes s sub = true.
Proof.
  intros (before & after & ->). unfold includes.
  induction before as [|c before IH]; rewrite split_first_unfold.
  - cbn [app]. now rewrite prefixb_app.
  - cbn [app]. destruct (prefixb sub (c :: before ++ sub ++ after)); [reflexivity|].
    destruct (split_first sub (before ++ sub ++ after)) as [[b a]|];
      [reflexivity|discriminate].
Qed.

(** *** Where the substitution is verbatim

    A value without a dollar sign is inserted as it is, and in a template
    whose literal text has no opening brace the first occurrence of a
    placeholder is the first hole for it. *)

Lemma getSubstitution_dollar_free (matched before after v : jsstring) :
  dollar_free v -> getSubstitution matched before after v = v.
Proof.
  induction 1 as [|c v Hc _ IH]; simpl; [reflexivity|].
  apply N.eqb_neq in Hc. now rewrite Hc, IH.
Qed.

Lemma replace_dollar_free (s pat v : jsstring) :
  dollar_free v ->
  replace s pat v =
  match split_first pat s with
  | Some (before, after) => before ++ v ++ after
  | None => s
  end.
Proof.
  intros Hv. unfold replace.
  destruct (split_first pat s) as [[b a]|]; [|reflexivity].
  now rewrite getSubstitution_dollar_free.
Qed.

Lemma split_first_skip (pat pre r : jsstring) :
  (forall i, (i < List.length pre)%nat -> prefixb pat (skipn i pre ++ r) = false) ->
  split_first pat (pre ++ r) =
  match split_first pat r with
  | Some (before, after) => Some (pre ++ before, after)
  | None => None
  end.
Proof.
  induction pre as [|c pre IH]; intros H.
  - cbn [app]. now destruct (split_first pat r) as [[b a]|].
  - rewrite split_first_unfold. cbn [app].
    assert (prefixb pat (c :: pre ++ r) = false) as H0
        by (apply (H 0%nat); simpl; lia).
    rewrite H0, IH.
    + now destruct (split_first pat r) as [[b a]|].
    + intros i Hi. apply (H (S i)). simpl. lia.
Qed.

Lemma placeholder_name_head (k : placeholder) :
  exists tl, placeholder_name k = 123 :: tl.
Proof. destruct k; eexists; reflexivity. Qed.

Lemma skip_literal (k : placeholder) (s r : jsstring) :
  brace_free s ->
  forall i, (i < List.length s)%nat ->
            prefixb (placeholder_name k) (skipn i s ++ r) = false.
Proof.
  intros Hs. destruct (placeholder_name_head k) as (tl & ->).
  induction Hs as [|c s Hc _ IH]; intros i Hi; [simpl in Hi; lia|].
  destruct i as [|i].
  - cbn [skipn app prefixb]. apply N.eqb_neq in Hc.
    rewrite N.eqb_sym, Hc. reflexivity.
  - cbn [skipn]. apply IH. simpl in Hi. lia.
Qed.

Lemma skip_other_hole (k k' : placeholder) (r : jsstring) :
  placeholder_eqb k k' = false ->
  forall i, (i < List.length (placeholder_name k'))%nat ->
            prefixb (placeholder_name k) (skipn i (placeholder_name k') ++ r) = false.
Proof.
  intros Hk i Hi.
  destruct k, k'; try discriminate Hk;
    repeat (destruct i as [|i]; [reflexivity|]);
    vm_compute in Hi; lia.
Qed.

Lemma split_first_hole (k : placeholder) (r : jsstring) :
  split_first (placeholder_name k) (placeholder_name k ++ r) = Some ([], r).
Proof.
  rewrite split_first_unfold, prefixb_app.
  now rewrite skipn_app, skipn_all, Nat.sub_diag.
Qed.

Lemma placeholder_eqb_refl (k : placeholder) : placeholder_eqb k k = true.
Proof. now destruct k. Qed.

(** One [replace] on a plain template fills the first hole. *)
Lemma replace_render (k : placeholder) (v : jsstring) (ps : list piece) :
  plain ps -> dollar_free v ->
  replace (render ps) (placeholder_name k) v = render (fill k v ps).
Proof.
  intros Hps Hv. rewrite replace_dollar_free by exact Hv.
  induction ps as [|[s|k'] ps IH]; cbn [render fill].
  - destruct (placeholder_name_head k) as (tl & ->). reflexivity.
  - destruct Hps as [Hs Hps]. specialize (IH Hps).
    rewrite split_first_skip by (now apply skip_literal).
    destruct (split_first (placeholder_name k) (render ps)) as [[b a]|].
    + now rewrite <- IH, <- app_assoc.
    + now rewrite <- IH.
  - simpl in Hps. specialize (IH Hps).
    destruct (placeholder_eqb k k') eqn:E.
    + assert (k' = k) as -> by (now destruct k, k').
      rewrite split_first_hole. reflexivity.
    + rewrite split_first_skip by (now apply skip_other_hole).
      cbn [render].
      destruct (split_first (placeholder_name k) (render ps)) as [[b a]|].
      * now rewrite <- IH, <- app_assoc.
      * now rewrite <- IH.
Qed.

Lemma fill_plain (k : placeholder) (v : jsstring) (ps : list piece) :
  plain ps -> brace_free v -> plain (fill k v ps).
Proof.
  intros Hps Hv. induction ps as [|[s|k'] ps IH]; cbn [fill plain] in *.
  - exact I.
  - destruct Hps. auto.
  - destruct (placeholder_eqb k k'); cbn [plain]; auto.
Qed.

(** With each hole at most once, filling the three is substituting. *)
Lemma fill_all_substitute (value : placeholder -> jsstring) (ps : list piece) :
  NoDup (holes ps) ->
  render (fill PText (value PText)
            (fill PTarget (value PTarget) (fill PSource (value PSource) ps)))
  = substitute value ps.
Proof.
  enough (forall todo,
             NoDup (holes ps) ->
             (forall k, In k (holes ps) -> In k todo) ->
             NoDup todo ->
             render (fold_left (fun acc k => fill k (value k) acc) todo ps)
             = substitute value ps) as H.
  { intros Hnd. apply (H [PSource; PTarget; PText] Hnd).
    - intros [] _; simpl; auto.
    - repeat constructor; simpl; intuition discriminate. }
  assert (forall k v qs, ~ In k (holes qs) -> fill k v qs = qs) as Hid.
  { intros k v qs. induction qs as [|[s|k'] qs IH]; cbn [fill holes]; intros H.
    - reflexivity.
    - now rewrite IH.
    - destruct (placeholder_eqb k k') eqn:E.
      + exfalso. apply H. left. now destruct k, k'.
      + rewrite IH; [reflexivity|]. intros Hin. apply H. now right. }
  induction ps as [|[s|k] ps IH]; intros todo Hnd Hcov Htodo.
  - clear. induction todo as [|k todo IH]; [reflexivity|exact IH].
  - cbn [holes] in Hnd, Hcov. cbn [substitute]. rewrite <- (IH todo Hnd Hcov Htodo).
    clear. revert ps. induction todo as [|k todo IH]; intros ps; [reflexivity|].
    cbn [fold_left fill]. apply IH.
  - cbn [holes] in Hnd, Hcov. cbn [substitute].
    inversion Hnd as [|? ? Hk Hnd']; subst.
    assert (In k todo) as Hin by (apply Hcov; now left).
    apply in_split in Hin as (t1 & t2 & ->).
    apply NoDup_remove in Htodo as [Htodo Hnotin].
    rewrite fold_left_app. cbn [fold_left].
    assert (forall t qs, ~ In k t ->
              fold_left (fun acc k0 => fill k0 (value k0) acc) t (Hole k :: qs)
              = Hole k :: fold_left (fun acc k0 => fill k0 (value k0) acc) t qs) as Hpass.
    { intros t. induction t as [|k0 t IHt]; intros qs Hn; [reflexivity|].
      cbn [fold_left fill].
      destruct (placeholder_eqb k0 k) eqn:E.
      - exfalso. apply Hn. left. now destruct k0, k.
      - apply IHt. intros H. apply Hn. now right. }
    assert (forall t qs,
              fold_left (fun acc k0 => fill k0 (value k0) acc) t (Lit (value k) :: qs)
              = Lit (value k) :: fold_left (fun acc k0 => fill k0 (value k0) acc) t qs)
      as Hlit.
    { intros t. induction t as [|k0 t IHt]; intros qs; [reflexivity|].
      cbn [fold_left fill]. apply IHt. }
    rewrite Hpass by (intros H; apply Hnotin; apply in_or_app; now left).
    cbn [fill]. rewrite placeholder_eqb_refl, Hlit. cbn [render]. f_equal.
    rewrite <- fold_left_app.
    apply IH; [exact Hnd'| |exact Htodo].
    intros k0 Hk0. specialize (Hcov k0 (or_intror Hk0)).
    apply in_app_or in Hcov as [H|[->|H]]; apply in_or_app; auto.
    contradiction.
Qed.

(** X1.  On a template whose literal text has no opening brace and that has
    each placeholder at most once, with values free of dollar signs (and,
    for the two languages, of opening braces), the prompt is the template
    with every placeholder replaced by its value and the rest unchanged. *)
Theorem formatPrompt_verbatim_on_plain_template
    (model : Model) (sourceLanguage targetLanguage text style : jsval)
    (ps : list piece) :
  let displaySourceLang :=
    if strict_eq sourceLanguage (JString (lit "Auto-detect"))
       || strict_eq sourceLanguage (JString (lit "auto"))
    then JString (lit "the source language") else sourceLanguage in
  let value := fun k =>
    match k with
    | PSource => to_string displaySourceLang
    | PTarget => to_string targetLanguage
    | PText => to_string text
    end in
  plainName style = true ->
  chooseTemplate model style = Own (JString (render ps)) ->
  plain ps ->
  NoDup (holes ps) ->
  dollar_free (value PSource) -> brace_free (value PSource) ->
  dollar_free (value PTarget) -> brace_free (value PTarget) ->
  dollar_free (value PText) ->
  formatPrompt model sourceLanguage targetLanguage text style
  = Fulfilled (substitute value ps).
Proof.
  cbv zeta beta iota. intros _ Ht Hps Hnd Hs1 Hs2 Ht1 Ht2 Hx.
  unfold formatPrompt. rewrite Ht. cbn [to_string]. f_equal.
  change (lit "{sourceLanguage}") with (placeholder_name PSource).
  change (lit "{targetLanguage}") with (placeholder_name PTarget).
  change (lit "{text}") with (placeholder_name PText).
  rewrite replace_render by assumption.
  rewrite replace_render by (try apply fill_plain; assumption).
  rewrite replace_render by (repeat apply fill_plain; assumption).
  now rewrite <- (@fill_all_substitute _ ps Hnd).
Qed.

(** C7 fails on the code.  The built-in template has each placeholder once;
    with the text "Save $$ now" the prompt carries "Save $ now": the text is
    passed to [replace] as a replacement pattern, in which [$$] stands for
    one dollar sign, so the value substituted is not the value given. *)
Lemma formatPrompt_rewrites_dollar_text :
  let text := lit "Save $$ now" in
  exists template prompt,
    chooseTemplate Sample.gemma Sample.natural = Own (JString template)
    /\ formatPrompt Sample.gemma Sample.en Sample.ja (JString text) Sample.natural
       = Fulfilled prompt
    /\ occurrences (lit "{sourceLanguage}") template = 1%nat
    /\ occurrences (lit "{targetLanguage}") template = 1%nat
    /\ occurrences (lit "{text}") template = 1%nat
    /\ prompt = lit "Translate from en to ja: " ++ [dquote] ++ lit "Save $ now" ++ [dquote]
    /\ ~ contains prompt text.
Proof.
  cbv zeta. eexists. eexists.
  split; [reflexivity|]. split; [reflexivity|]. repeat split.
  intros H. apply includes_complete in H. vm_compute in H. discriminate.
Qed.

(** The built-in template with "en", "ja" and "Hello". *)
Lemma formatPrompt_verbatim_on_plain_template_witness :
  formatPrompt Sample.gemma Sample.en Sample.ja Sample.helloText Sample.natural
  = Fulfilled (lit "Translate from en to ja: " ++ [dquote] ++ lit "Hello" ++ [dquote]).
Proof.
  apply (@formatPrompt_verbatim_on_plain_template
           Sample.gemma Sample.en Sample.ja Sample.helloText Sample.natural
           [Lit (lit "Translate from "); Hole PSource; Lit (lit " to ");
            Hole PTarget; Lit (lit ": " ++ [dquote]); Hole PText; Lit [dquote]]).
  - reflexivity.
  - reflexivity.
  - cbn [plain]. repeat split; repeat (constructor; [discriminate|]); constructor.
  - repeat constructor; simpl; intuition discriminate.
  - repeat (constructor; [discriminate|]); constructor.
  - repeat (constructor; [discriminate|]); constructor.
  - repeat (constructor; [discriminate|]); constructor.
  - repeat (constructor; [discriminate|]); constructor.
  - repeat (constructor; [discriminate|]); constructor.
Defined.

End PromptFormatting.

(* ================================================================== *)
(** * Further properties of the backend modules and the coordinator *)

(* ------------------------------------------------------------------ *)
(** ** Model selection: the fallback model and dangling references *)

Section SelectionMore.
Import Ollama Spec.

Lemma find_none_by_id (ms : list Model) (v : jsval) :
  (forall m, In m ms -> JString (id m) <> v) ->
  find (fun m => strict_eq (JString (id m)) v) ms = None.
Proof.
  intros H. apply find_none_iff. intros m Hm.
  destruct (strict_eq (JString (id m)) v) eqn:E; [|reflexivity].
  apply strict_eq_eq in E. now apply H in Hm.
Qed.

(** X2.  [getFallbackModel] returns the first model whose id is the
    configured [fallbackModelId]; when that id is missing or empty, or no
    configured model has it, it returns the default model. *)
Theorem getFallbackModel_resolution (cfg : OllamaConfig) :
  (forall fid ms m,
      fallbackModelId cfg = JString fid -> fid <> [] ->
      models cfg = Some ms ->
      first_such (fun m => id m = fid) ms m ->
      getFallbackModel cfg = Some m)
  /\ (absent (fallbackModelId cfg) -> getFallbackModel cfg = getDefaultModel cfg)
  /\ ((forall ms m, models cfg = Some ms -> In m ms ->
                    JString (id m) <> fallbackModelId cfg) ->
      getFallbackModel cfg = getDefaultModel cfg).
Proof.
  unfold getFallbackModel. repeat split.
  - intros fid ms m Hf Hne Hms Hm. rewrite Hf, Hms.
    assert (truthy (JString fid) = true) as -> by (destruct fid; simpl; congruence).
    cbn [negb opt_find].
    now rewrite (find_first_such _ (id_test_iff fid) Hm).
  - intros H. apply truthy_false_iff in H. now rewrite H.
  - intros H. destruct (negb _); [reflexivity|].
    destruct (models cfg) as [ms|]; [|reflexivity].
    cbn [opt_find]. rewrite find_none_by_id; [reflexivity|].
    intros m Hm. now apply (H ms).
Qed.

(** The fallback of the sample settings resolves; a fallback id that no
    model has gives the default model. *)
Lemma getFallbackModel_resolution_witness :
  getFallbackModel Sample.settings_same_fallback = Some Sample.jpn
  /\ getFallbackModel
       {| models := Some [Sample.gemma; Sample.jpn]; languagePairs := None;
          fallbackModelId := JString (lit "ghost") |}
     = Some Sample.gemma.
Proof.
  split.
  - apply (proj1 (getFallbackModel_resolution Sample.settings_same_fallback))
      with (fid := lit "gemma-2-jpn") (ms := [Sample.gemma; Sample.jpn]).
    + reflexivity.
    + discriminate.
    + reflexivity.
    + exists [Sample.gemma], []. repeat split. intros y [<-|[]]. discriminate.
  - rewrite (proj2 (proj2 (getFallbackModel_resolution _))); [reflexivity|].
    intros ms m [= <-] [<-|[<-|[]]]; discriminate.
Defined.

(** X3.  Whatever the configuration and the language pair, a model returned
    by [getPreferredModel], [getFallbackModel] or [getDefaultModel] is one of
    the configured models; and with at least one model configured each of
    the three returns a model. *)
Theorem selectors_return_configured_models
    (cfg : OllamaConfig) (sourceLangCode targetLangCode : jsval) :
  (forall m,
      getPreferredModel cfg sourceLangCode targetLangCode = Some m
      \/ getFallbackModel cfg = Some m
      \/ getDefaultModel cfg = Some m ->
      exists ms, models cfg = Some ms /\ In m ms)
  /\ (forall m0 ms,
      models cfg = Some (m0 :: ms) ->
      (exists m, getPreferredModel cfg sourceLangCode targetLangCode = Some m)
      /\ (exists m, getFallbackModel cfg = Some m)
      /\ (exists m, getDefaultModel cfg = Some m)).
Proof.
  split.
  - intros m [H|[H|H]].
    + eapply getPreferredModel_In; eauto.
    + now apply getFallbackModel_In.
    + now apply getDefaultModel_In.
  - intros m0 ms Hms.
    assert (exists m, getDefaultModel cfg = Some m) as Hd.
    { destruct (getDefaultModel cfg) eqn:E; [eauto|].
      apply getDefaultModel_None in E. unfold modelsMissing in E.
      rewrite Hms in E. discriminate. }
    repeat split; [| |exact Hd].
    + unfold getPreferredModel.
      destruct (_ || _); [exact Hd|].
      destruct (opt_find _ (languagePairs cfg)) as [p|]; [|exact Hd].
      destruct (truthy _); [|exact Hd].
      destruct (opt_find _ (models cfg)); eauto.
    + unfold getFallbackModel.
      destruct (negb _); [exact Hd|].
      destruct (opt_find _ (models cfg)); eauto.
Qed.

(** X4.  A preference that cannot be used never fails the selection: when no
    entry of the preference list is for the pair, or the first entry for it
    has no (or an empty) [preferredModel], or names a model that is not
    configured, [getPreferredModel] returns the default model. *)
Theorem getPreferredModel_falls_back_to_default
    (cfg : OllamaConfig) (sourceLangCode targetLangCode : jsval) :
  (languagePairs cfg = None ->
   getPreferredModel cfg sourceLangCode targetLangCode = getDefaultModel cfg)
  /\ (forall pairs,
      languagePairs cfg = Some pairs ->
      (forall p, In p pairs -> ~ pair_for sourceLangCode targetLangCode p) ->
      getPreferredModel cfg sourceLangCode targetLangCode = getDefaultModel cfg)
  /\ (forall pairs p,
      languagePairs cfg = Some pairs ->
      first_such (pair_for sourceLangCode targetLangCode) pairs p ->
      absent (preferredModel p)
      \/ (forall ms m, models cfg = Some ms -> In m ms ->
                       JString (id m) <> preferredModel p) ->
      getPreferredModel cfg sourceLangCode targetLangCode = getDefaultModel cfg).
Proof.
  unfold getPreferredModel. repeat split.
  - intros ->. destruct (_ || _); reflexivity.
  - intros pairs -> Hnone. destruct (_ || _); [reflexivity|].
    cbn [opt_find].
    rewrite (proj2 (find_none_iff _ pairs)); [reflexivity|].
    intros p Hp.
    destruct (strict_eq (source p) sourceLangCode
              && strict_eq (target p) targetLangCode) eqn:E; [|reflexivity].
    apply pair_test_iff in E. now apply Hnone in Hp.
  - intros pairs p -> Hp Hbad. destruct (_ || _); [reflexivity|].
    cbn [opt_find].
    rewrite (find_first_such _ (pair_test_iff sourceLangCode targetLangCode) Hp).
    destruct Hbad as [Habs|Hdang].
    + apply truthy_false_iff in Habs. now rewrite Habs.
    + destruct (truthy _); [|reflexivity].
      destruct (models cfg) as [ms|]; [|reflexivity].
      cbn [opt_find]. rewrite find_none_by_id; [reflexivity|].
      intros m Hm. now apply (Hdang ms).
Qed.

(** en -> ja names a model that is not configured: the default model. *)
Lemma getPreferredModel_falls_back_to_default_witness :
  getPreferredModel
    {| models := Some [Sample.gemma; Sample.jpn];
       languagePairs := Some [Sample.pair Sample.en Sample.ja "ghost"];
       fallbackModelId := JNull |}
    Sample.en Sample.ja
  = Some Sample.gemma.
Proof.
  rewrite (proj2 (proj2 (getPreferredModel_falls_back_to_default _ Sample.en Sample.ja))
             [Sample.pair Sample.en Sample.ja "ghost"]
             (Sample.pair Sample.en Sample.ja "ghost")).
  - reflexivity.
  - reflexivity.
  - exists [], []. repeat split. intros y [].
  - right. intros ms m [= <-] [<-|[<-|[]]]; discriminate.
Defined.

End SelectionMore.

(* ------------------------------------------------------------------ *)
(** ** [translate]: bounds and transparency *)

Section TranslateMore.
Import Ollama Spec.

Variable net : Network.
Variable cfg : OllamaConfig.
Variables text src tgt style : jsval.
Variable log : list Request.

(** The shape of every run with a style whose template is a text: the
    requests added to the log and the result. *)
Lemma translate_shape :
  plainName style = true ->
  (exists error,
      translate net cfg text src tgt style log = (Fulfilled (Failure error), log)
      /\ getPreferredModel cfg src tgt = None)
  \/ (exists preferred first,
      getPreferredModel cfg src tgt = Some preferred
      /\ attempt preferred src tgt text style = Fulfilled first
      /\ ((exists result,
              translate net cfg text src tgt style log = (Fulfilled result, log ++ [first])
              /\ ((exists translation,
                      fst (call net first log) = Fulfilled translation
                      /\ result = Success translation false (id preferred))
                  \/ (exists error e,
                         fst (call net first log) = Rejected e
                         /\ result = Failure error)))
          \/ (exists fallback retry result e,
                 getFallbackModel cfg = Some fallback
                 /\ id fallback <> id preferred
                 /\ attempt fallback src tgt text style = Fulfilled retry
                 /\ fst (call net first log) = Rejected e
                 /\ translate net cfg text src tgt style log
                    = (Fulfilled result, log ++ [first; retry])
                 /\ ((exists translation,
                         fst (call net retry (log ++ [first])) = Fulfilled translation
                         /\ result = Success translation true (id fallback))
                     \/ exists error, result = Failure error)))).
Proof.
  intros Hplain.
  destruct (getPreferredModel cfg src tgt) as [preferred|] eqn:Hp.
  - right. destruct (attempt_plain preferred src tgt text style Hplain) as [first Ha].
    exists preferred, first. split; [reflexivity|]. split; [exact Ha|].
    rewrite (translate_run net cfg text src tgt style log Hp), Ha.
    pose proof (call_split net first log) as S1.
    destruct (call net first log) as [r1 log1].
    cbn [fst] in S1 |- *. injection S1 as ->.
    destruct r1 as [t|e].
    + left. eexists. split; [reflexivity|]. left. eauto.
    + rewrite onPreferredError_run. cbv zeta.
      destruct (getFallbackModel cfg) as [fallback|] eqn:Hf.
      * destruct (jsstring_eqb (id fallback) (id preferred)) eqn:Hid.
        -- left. eexists. split; [reflexivity|]. right. eauto.
        -- right. apply jsstring_eqb_neq in Hid.
           destruct (attempt_plain fallback src tgt text style Hplain) as [retry Ha2].
           rewrite Ha2. exists fallback, retry.
           pose proof (call_split net retry (log ++ [first])) as S2.
           destruct (call net retry (log ++ [first])) as [r2 log2].
           cbn [fst] in S2 |- *. injection S2 as ->.
           rewrite <- app_assoc. cbn [app].
           destruct r2 as [t|e'];
             eexists; exists e;
             (split; [reflexivity|]); (split; [exact Hid|]);
             (split; [exact Ha2|]); (split; [reflexivity|]);
             (split; [reflexivity|]); [left|right]; eauto.
      * left. eexists. split; [reflexivity|]. right. eauto.
  - left. unfold translate. rewrite Hp.
    destruct (modelsMissing cfg); eexists; split; reflexivity.
Qed.

(** X5.  [translate] never throws and never loops: it resolves with a
    result, leaves the requests issued before untouched and adds at most
    two, each of them the attempt of a configured model; with no model
    configured it issues none. *)
Theorem translate_at_most_two_requests :
  plainName style = true ->
  exists result requests,
    translate net cfg text src tgt style log = (Fulfilled result, log ++ requests)
    /\ (List.length requests <= 2)%nat
    /\ (modelsMissing cfg = true -> requests = [])
    /\ (forall r, In r requests ->
                  exists ms m, models cfg = Some ms /\ In m ms
                               /\ attempt m src tgt text style = Fulfilled r).
Proof.
  intros Hplain.
  destruct (translate_shape Hplain)
    as [(error & Hrun & Hp)|(preferred & first & Hp & Ha & H)].
  - exists (Failure error), []. rewrite app_nil_r.
    repeat split; auto. intros r [].
  - destruct (getPreferredModel_In _ _ _ Hp) as (ms & Hms & Hin).
    assert (modelsMissing cfg = false) as Hmiss
        by (exact (@In_models_not_missing cfg ms preferred Hms Hin)).
    destruct H as [(result & Hrun & _)
                  |(fallback & retry & result & e & Hf & _ & Ha2 & _ & Hrun & _)].
    + exists result, [first].
      repeat split; auto; [congruence|].
      intros r [<-|[]]. eauto.
    + exists result, [first; retry].
      repeat split; auto; [congruence|].
      destruct (getFallbackModel_In _ Hf) as (ms' & Hms' & Hin').
      intros r [<-|[<-|[]]]; eauto.
Qed.

(** X6.  A success tells which model produced it: the translation is what
    the last request issued returned, [modelUsed] is the model of that
    request, and [usedFallback] is true exactly when a first request, to
    another model, was issued and failed before it. *)
Theorem translate_success_names_last_request
    (translation : jsstring) (usedFallback : bool) (modelUsed : jsstring) :
  plainName style = true ->
  fst (translate net cfg text src tgt style log)
  = Fulfilled (Success translation usedFallback modelUsed) ->
  exists earlier final,
    snd (translate net cfg text src tgt style log) = log ++ earlier ++ [final]
    /\ req_model final = modelUsed
    /\ fst (call net final (log ++ earlier)) = Fulfilled translation
    /\ (usedFallback = false -> earlier = [])
    /\ (usedFallback = true ->
        exists first e, earlier = [first] /\ req_model first <> modelUsed
                        /\ fst (call net first log) = Rejected e).
Proof.
  intros Hplain Hs.
  destruct (translate_shape Hplain)
    as [(error & Hrun & _)|(preferred & first & Hp & Ha & H)].
  - rewrite Hrun in Hs. discriminate.
  - destruct (attempt_request _ _ _ _ _ Ha) as (Hm1 & _ & _).
    destruct H as [(result & Hrun & Hres)
                  |(fallback & retry & result & e & Hf & Hid & Ha2 & E1 & Hrun & Hres)];
      rewrite Hrun in Hs |- *; cbn [fst snd] in *; injection Hs as ->.
    + destruct Hres as [(t & Hcall & [= -> -> ->])|(error & e & _ & [=])].
      exists [], first.
      rewrite app_nil_r. repeat split; auto. discriminate.
    + destruct (attempt_request _ _ _ _ _ Ha2) as (Hm2 & _ & _).
      destruct Hres as [(t & Hcall & [= -> -> ->])|(error & [=])].
      exists [first], retry.
      repeat split; auto; [discriminate|].
      intros _. exists first, e.
      repeat split; [congruence|exact E1].
Qed.

(** X7.  With exactly one model configured there is no retry: every
    [translate] issues exactly one request, to that model. *)
Theorem translate_single_model_no_retry (m : Model) :
  plainName style = true ->
  models cfg = Some [m] ->
  exists first,
    attempt m src tgt text style = Fulfilled first
    /\ snd (translate net cfg text src tgt style log) = log ++ [first].
Proof.
  intros Hplain Hms.
  assert (forall x, (exists ms, models cfg = Some ms /\ In x ms) -> x = m) as Hone.
  { intros x (ms & Hms' & Hin). rewrite Hms in Hms'. injection Hms' as <-.
    destruct Hin as [<-|[]]. reflexivity. }
  destruct (translate_shape Hplain)
    as [(error & Hrun & Hp)|(preferred & first & Hp & Ha & H)].
  - exfalso. unfold getPreferredModel in Hp.
    assert (getDefaultModel cfg <> None) as Hd.
    { intros E. apply getDefaultModel_None in E. unfold modelsMissing in E.
      rewrite Hms in E. discriminate. }
    destruct (_ || _); [contradiction|].
    destruct (opt_find _ (languagePairs cfg)) as [p|]; [|contradiction].
    destruct (truthy _); [|contradiction].
    destruct (opt_find _ (models cfg)); [discriminate|contradiction].
  - assert (preferred = m) as -> by (apply Hone; eapply getPreferredModel_In; eauto).
    exists first. split; [exact Ha|].
    destruct H as [(result & Hrun & _)
                  |(fallback & retry & result & e & Hf & Hid & _)].
    + now rewrite Hrun.
    + exfalso. apply Hid. f_equal. apply Hone. now apply getFallbackModel_In.
Qed.



End TranslateMore.

Section TranslateMoreExamples.
Import Ollama Spec.

(** The retry of the sample run: the result names the fallback model, the
    model of the last of the two requests. *)
Lemma translate_success_names_last_request_witness :
  exists earlier final,
    snd (translate Sample.net_first_down Sample.settings
                   Sample.helloText Sample.en Sample.ja Sample.natural [])
    = [] ++ earlier ++ [final]
    /\ req_model final = lit "gemma3:1b"
    /\ fst (call Sample.net_first_down final ([] ++ earlier))
       = Fulfilled (lit "konnichiwa")
    /\ (true = false -> earlier = [])
    /\ (true = true ->
        exists first e, earlier = [first] /\ req_model first <> lit "gemma3:1b"
                        /\ fst (call Sample.net_first_down first []) = Rejected e).
Proof.
  apply (@translate_success_names_last_request
           Sample.net_first_down Sample.settings
           Sample.helloText Sample.en Sample.ja Sample.natural []
           (lit "konnichiwa") true (lit "gemma3:1b")).
  - reflexivity.
  - reflexivity.
Defined.

(** One model, and the endpoint is down: one request. *)
Lemma translate_single_model_no_retry_witness :
  exists first,
    attempt Sample.gemma Sample.en Sample.ja Sample.helloText Sample.natural
    = Fulfilled first
    /\ snd (translate Sample.net_down
                      {| models := Some [Sample.gemma]; languagePairs := None;
                         fallbackModelId := JNull |}
                      Sample.helloText Sample.en Sample.ja Sample.natural [])
       = [] ++ [first].
Proof.
  apply (@translate_single_model_no_retry
           Sample.net_down
           {| models := Some [Sample.gemma]; languagePairs := None;
              fallbackModelId := JNull |}
           Sample.helloText Sample.en Sample.ja Sample.natural [] Sample.gemma).
  - reflexivity.
  - reflexivity.
Defined.

(** Both sample models are down: two requests, no more. *)
Lemma translate_at_most_two_requests_witness :
  exists result requests,
    translate Sample.net_down Sample.settings
              Sample.helloText Sample.en Sample.ja Sample.natural []
    = (Fulfilled result, [] ++ requests)
    /\ (List.length requests <= 2)%nat
    /\ (modelsMissing Sample.settings = true -> requests = [])
    /\ (forall r, In r requests ->
                  exists ms m, models Sample.settings = Some ms /\ In m ms
                               /\ attempt m Sample.en Sample.ja
                                          Sample.helloText Sample.natural
                                  = Fulfilled r).
Proof.
  apply (@translate_at_most_two_requests
           Sample.net_down Sample.settings
           Sample.helloText Sample.en Sample.ja Sample.natural []).
  reflexivity.
Defined.

End TranslateMoreExamples.

(* ------------------------------------------------------------------ *)
(** ** Prompt styles *)

Section Styles.
Import Ollama Spec.

Lemma chooseTemplate_natural (model : Model) :
  chooseTemplate model (JString (lit "natural"))
  = Own (JString
      (match promptTemplates model with
       | Some t =>
           if truthy (lookup_template (lit "natural") t)
           then to_string (lookup_template (lit "natural") t)
           else basic_template
       | None => basic_template
       end)).
Proof.
  rewrite chooseTemplate_plain by reflexivity.
  change (js_or (JString (lit "natural")) _) with (JString (lit "natural")).
  cbn [to_string]. cbv zeta.
  destruct (promptTemplates model) as [t|]; [|reflexivity].
  destruct (truthy (lookup_template (lit "natural") t)) eqn:E; reflexivity.
Qed.

(** X8.  A style the model has no (non-empty) template for, a missing style
    and an empty style all give the prompt of the style "natural". *)
Theorem formatPrompt_unknown_style_is_natural
    (model : Model) (sourceLanguage targetLanguage text style : jsval) :
  plainName style = true ->
  absent style
  \/ (forall templates,
         promptTemplates model = Some templates ->
         absent (lookup_template (to_string style) templates)) ->
  formatPrompt model sourceLanguage targetLanguage text style
  = formatPrompt model sourceLanguage targetLanguage text (JString (lit "natural")).
Proof.
  intros Hplain H. unfold formatPrompt.
  enough (chooseTemplate model style = chooseTemplate model (JString (lit "natural")))
    as -> by reflexivity.
  rewrite chooseTemplate_natural, (chooseTemplate_plain model style Hplain).
  cbv zeta. do 2 f_equal.
  destruct H as [H|H].
  - rewrite (js_or_absent _ H). cbn [to_string].
    destruct (promptTemplates model) as [t|]; [|reflexivity].
    destruct (truthy (lookup_template (lit "natural") t)) eqn:E; reflexivity.
  - destruct (truthy style) eqn:Hs.
    + unfold js_or. rewrite Hs.
      destruct (promptTemplates model) as [t|]; [|reflexivity].
      specialize (H t eq_refl). apply truthy_false_iff in H. now rewrite H.
    + apply truthy_false_iff in Hs. rewrite (js_or_absent _ Hs). cbn [to_string].
      destruct (promptTemplates model) as [t|]; [|reflexivity].
      destruct (truthy (lookup_template (lit "natural") t)) eqn:E; reflexivity.
Qed.

(** The second sample model has a "natural" template only: "literal" falls
    back to it. *)
Lemma formatPrompt_unknown_style_is_natural_witness :
  formatPrompt Sample.jpn Sample.en Sample.ja Sample.helloText (JString (lit "literal"))
  = Fulfilled (lit "Translate this text from en to ja: Hello").
Proof.
  rewrite (@formatPrompt_unknown_style_is_natural
             Sample.jpn Sample.en Sample.ja Sample.helloText (JString (lit "literal"))).
  - reflexivity.
  - reflexivity.
  - right. intros templates [= <-]. left. reflexivity.
Defined.

(** [templates[key]] is an inherited member exactly when the name is
    inherited and the object has no key of its own with that name. *)
Lemma getTemplate_cases (templates : list (jsstring * jsstring)) (key : jsstring) :
  (inherited key = true /\ lookup_template key templates = JUndefined
   /\ getTemplate templates key = Inherited)
  \/ ((inherited key = false \/ lookup_template key templates <> JUndefined)
      /\ getTemplate templates key = Own (lookup_template key templates)).
Proof.
  unfold getTemplate.
  destruct (lookup_template key templates) as [| |v]; destruct (inherited key);
    try (right; split; [right; discriminate|reflexivity]).
  - left. auto.
  - right. auto.
Qed.

(** X24.  [formatPrompt] throws in one case only, and then with the
    TypeError of calling a missing [replace]: the model has a templates
    object, the style is a non-empty name that every object inherits from
    [Object.prototype], and the templates object has no key of its own with
    that name.  In every other case it returns a prompt. *)
Theorem formatPrompt_throws_iff
    (model : Model) (sourceLanguage targetLanguage text style : jsval) :
  (forall error,
      formatPrompt model sourceLanguage targetLanguage text style = Rejected error ->
      error = lit "template.replace is not a function")
  /\ ((exists error,
         formatPrompt model sourceLanguage targetLanguage text style = Rejected error)
      <-> (exists templates,
              promptTemplates model = Some templates
              /\ truthy style = true
              /\ inherited (to_string style) = true
              /\ lookup_template (to_string style) templates = JUndefined)).
Proof.
  unfold formatPrompt.
  assert ((chooseTemplate model style = Inherited
           /\ exists templates,
               promptTemplates model = Some templates
               /\ truthy style = true
               /\ inherited (to_string style) = true
               /\ lookup_template (to_string style) templates = JUndefined)
          \/ ((exists v, chooseTemplate model style = Own v)
              /\ ~ exists templates,
                  promptTemplates model = Some templates
                  /\ truthy style = true
                  /\ inherited (to_string style) = true
                  /\ lookup_template (to_string style) templates = JUndefined))
    as [[-> H]|[[v ->] H]].
  { unfold chooseTemplate. cbv zeta.
    destruct (promptTemplates model) as [t|].
    - destruct (getTemplate_cases t (to_string (js_or style (JString (lit "natural")))))
        as [(Hi & Hl & ->)|(Hno & ->)]; cbn [hasTemplate].
      + left. split; [reflexivity|]. exists t. unfold js_or in Hi, Hl.
        destruct (truthy style); [auto|discriminate].
      + right. split.
        * rewrite (getTemplate_own t (lit "natural") eq_refl). cbn [hasTemplate].
          destruct (truthy (lookup_template _ t)) eqn:E1; cbn [hasTemplate].
          -- rewrite E1. eauto.
          -- destruct (truthy (lookup_template (lit "natural") t)); eauto.
        * intros (t' & [= <-] & Hs & Hi & Hl). unfold js_or in Hno. rewrite Hs in Hno.
          destruct Hno as [Hno|Hno]; congruence.
    - right. split; [cbn [hasTemplate truthy]; eauto|].
      intros (t' & H & _). discriminate. }
  - split; [now intros error [= <-]|]. split; [intros _; exact H|eauto].
  - split; [discriminate|]. split; [intros [error E]; discriminate|].
    intros H'. contradiction.
Qed.

End Styles.

(* ------------------------------------------------------------------ *)
(** ** backends/ollama.js: status checks and initialization *)

Section StatusChecks.
Import Ollama OllamaStatus Spec.

Variable net : Network.
Variable cfg : OllamaConfig.
Variable log : list Request.

(** X9.  [checkStatus] never throws.  Without a configured model it answers
    an error and issues no request; otherwise it issues exactly one request,
    the prompt "Ping" to the default model, and answers "running" exactly
    when that call returns a non-empty cleaned response. *)
Theorem checkStatus_pings_default_model :
  (modelsMissing cfg = true ->
   exists message, checkStatus net cfg log = (Fulfilled (StatusError message), log))
  /\ (forall m,
      getDefaultModel cfg = Some m ->
      let request := {| req_endpoint := endpoint m; req_model := id m;
                        req_prompt := ping |} in
      exists status,
        checkStatus net cfg log = (Fulfilled status, log ++ [request])
        /\ ((exists message, status = Running message)
            <-> exists answer, fst (call net request log) = Fulfilled answer)).
Proof.
  unfold checkStatus. split.
  - intros ->. eexists. reflexivity.
  - intros m Hm. cbv zeta.
    destruct (getDefaultModel_In _ Hm) as (ms & Hms & Hin).
    rewrite (@In_models_not_missing cfg ms m Hms Hin), Hm.
    unfold try_catch, bind, call. cbn [req_model req_endpoint req_prompt].
    pose proof (callOllamaApi_log net (id m) (endpoint m) ping log) as Hlog.
    destruct (callOllamaApi net (id m) (endpoint m) ping log) as [[answer|e] log1];
      cbn [snd fst] in *; subst log1; eexists; (split; [reflexivity|]); split.
    + eauto.
    + eauto.
    + intros (message & [=]).
    + intros (answer & [=]).
Qed.

(** X10.  [checkModelStatus] with an id that no configured model has answers
    an error naming the id and issues no request; with the id of a
    configured model it issues exactly one request, the prompt "Ping" to the
    first model with that id, at its endpoint or, when that is empty, at the
    local default endpoint, and it never throws. *)
Theorem checkModelStatus_known_and_unknown (modelId : jsval) :
  ((forall ms m, models cfg = Some ms -> In m ms -> JString (id m) <> modelId) ->
   checkModelStatus net cfg modelId log
   = (Fulfilled (StatusError (lit "Model " ++ to_string modelId
                              ++ lit " not found in configuration.")), log))
  /\ (forall ms m,
      models cfg = Some ms ->
      first_such (fun m => JString (id m) = modelId) ms m ->
      exists status,
        checkModelStatus net cfg modelId log
        = (Fulfilled status,
           log ++ [{| req_endpoint := match endpoint m with
                                      | [] => defaultEndpoint
                                      | _ :: _ => endpoint m
                                      end;
                      req_model := id m; req_prompt := ping |}])).
Proof.
  unfold checkModelStatus. split.
  - intros H. destruct (models cfg) as [ms|]; [|reflexivity].
    cbn [opt_find]. rewrite find_none_by_id; [reflexivity|].
    intros m Hm. now apply (H ms).
  - intros ms m -> Hm. cbn [opt_find].
    rewrite (find_first_such (fun m => strict_eq (JString (id m)) modelId)
               (P := fun m => JString (id m) = modelId)
               (fun y => strict_eq_eq (JString (id y)) modelId) Hm).
    destruct Hm as (_ & _ & _ & <- & _). cbn [to_string].
    assert (to_string (js_or (JString (endpoint m)) (JString defaultEndpoint))
            = match endpoint m with [] => defaultEndpoint | _ :: _ => endpoint m end)
      as -> by (now destruct (endpoint m)).
    unfold try_catch, bind.
    pose proof (callOllamaApi_log net (id m)
                  (match endpoint m with [] => defaultEndpoint | _ :: _ => endpoint m end)
                  ping log) as Hlog.
    destruct (callOllamaApi net (id m) _ ping log) as [[answer|e] log1];
      cbn [snd] in Hlog; subst log1; eexists; reflexivity.
Qed.

End StatusChecks.

Section StatusCheckExamples.
Import Ollama OllamaStatus Spec.

(** The default model of the sample settings is pinged once; the endpoint is
    down, so the status is an error. *)
Lemma checkStatus_pings_default_model_witness :
  exists status,
    checkStatus Sample.net_down Sample.settings []
    = (Fulfilled status,
       [{| req_endpoint := Sample.generateUrl; req_model := lit "gemma3:1b";
           req_prompt := ping |}])
    /\ ((exists message, status = Running message)
        <-> exists answer,
            fst (call Sample.net_down
                      {| req_endpoint := Sample.generateUrl; req_model := lit "gemma3:1b";
                         req_prompt := ping |} []) = Fulfilled answer).
Proof.
  apply (proj2 (checkStatus_pings_default_model Sample.net_down Sample.settings [])
               Sample.gemma).
  reflexivity.
Defined.

(** An id that is not configured: no request. *)
Lemma checkModelStatus_known_and_unknown_witness :
  checkModelStatus Sample.net_down Sample.settings (JString (lit "ghost")) []
  = (Fulfilled (StatusError (lit "Model ghost not found in configuration.")), []).
Proof.
  apply (proj1 (checkModelStatus_known_and_unknown
                  Sample.net_down Sample.settings [] (JString (lit "ghost")))).
  intros ms m [= <-] [<-|[<-|[]]]; discriminate.
Defined.

End StatusCheckExamples.

Section Initialization.
Import Ollama Spec.

(** X11.  [initialize] throws exactly when the global configuration has
    Ollama settings without a [models] list.  Without Ollama settings it
    installs an empty configuration, and every later [translate] answers a
    failure without issuing a request. *)
Theorem initialize_without_settings (settings : option OllamaConfig) :
  ((exists message, snd (initialize settings) = Rejected message)
   <-> exists c, settings = Some c /\ models c = None)
  /\ (settings = None ->
      snd (initialize settings) = Fulfilled tt
      /\ forall net text src tgt style log,
          exists error,
            translate net (fst (initialize settings)) text src tgt style log
            = (Fulfilled (Failure error), log)).
Proof.
  split.
  - unfold initialize. destruct settings as [c|]; cbn.
    + destruct (models c) eqn:E; cbn; split.
      * intros (message & [=]).
      * intros (c' & [= <-] & H). congruence.
      * eauto.
      * eauto.
    + split; [intros (message & [=])|intros (c & [=] & _)].
  - intros ->. split; [reflexivity|]. intros. eexists. reflexivity.
Qed.

(** No Ollama settings: the call returns and a translation request fails at
    once. *)
Lemma initialize_without_settings_witness :
  snd (initialize None) = Fulfilled tt
  /\ exists error,
      translate Sample.net_first_down (fst (initialize None))
                Sample.helloText Sample.en Sample.ja Sample.natural []
      = (Fulfilled (Failure error), []).
Proof.
  destruct (proj2 (initialize_without_settings None) eq_refl) as [H1 H2].
  split; [exact H1|]. apply H2.
Defined.

End Initialization.

(* ------------------------------------------------------------------ *)
(** ** backends/chromeApi.js *)

Section Detection.
Import ChromeApi Spec.

(** [e] has the highest percentage of [l]. *)
Let highest (l : list DetectedLanguage) (e : DetectedLanguage) : Prop :=
  forall e', In e' l -> percentage e' <= percentage e.

Lemma insertByPercentage_hd (x d : DetectedLanguage) (sorted : list DetectedLanguage) :
  hd d (insertByPercentage x sorted)
  = match sorted with
    | [] => x
    | y :: _ => if percentage x <? percentage y then y else x
    end.
Proof.
  destruct sorted as [|y rest]; [reflexivity|]. simpl.
  now destruct (percentage x <? percentage y).
Qed.

Lemma sortByPercentage_nonempty (x : DetectedLanguage) (l : list DetectedLanguage) :
  sortByPercentage (x :: l) <> [].
Proof.
  cbn [sortByPercentage]. destruct (sortByPercentage l) as [|y rest]; simpl.
  - discriminate.
  - destruct (percentage x <? percentage y); discriminate.
Qed.

(** The head of the sorted list is the first entry with the highest
    percentage. *)
Lemma sortByPercentage_hd (l : list DetectedLanguage) :
  forall d, l <> [] -> first_such (highest l) l (hd d (sortByPercentage l)).
Proof.
  induction l as [|x rest IH]; intros d Hne; [congruence|].
  cbn [sortByPercentage]. rewrite insertByPercentage_hd.
  destruct rest as [|r rest'].
  - cbn. exists [], []. repeat split; [|intros y []].
    intros e' [<-|[]]. apply N.le_refl.
  - specialize (IH d ltac:(discriminate)).
    pose proof (@sortByPercentage_nonempty r rest') as Hs.
    destruct (sortByPercentage (r :: rest')) as [|y tl]; [congruence|].
    cbn [hd] in IH. destruct IH as (l1 & l2 & Hl & Hy & Hfirst).
    destruct (percentage x <? percentage y) eqn:E.
    + apply N.ltb_lt in E. exists (x :: l1), l2. repeat split.
      * cbn [app]. now rewrite Hl.
      * intros e' [<-|He']; [now apply N.lt_le_incl|now apply Hy].
      * intros z [<-|Hz] Hmax.
        -- assert (In y (x :: r :: rest')) as Hin
             by (right; rewrite Hl; apply in_or_app; right; now left).
           specialize (Hmax y Hin). now apply N.lt_nge in E.
        -- apply (Hfirst z Hz). intros e' He'. apply Hmax. now right.
    + apply N.ltb_ge in E. exists [], (r :: rest'). repeat split; [|intros z []].
      intros e' [<-|He']; [apply N.le_refl|].
      eapply N.le_trans; [now apply Hy|exact E].
Qed.

(** X12.  Language detection rejects when Chrome reports an error, answers
    "en" with confidence 0 when no language is reported, and otherwise
    answers the reported language with the highest percentage, the first of
    them in the reported order when several share it. *)
Theorem detectLanguage_picks_first_highest (outcome : DetectOutcome) :
  match outcome with
  | LastError message => detectLanguage outcome = Ollama.Rejected message
  | Detected None | Detected (Some []) =>
      detectLanguage outcome = Ollama.Fulfilled (lit "en", 0)
  | Detected (Some (l0 :: ls)) =>
      exists top,
        detectLanguage outcome = Ollama.Fulfilled (language top, percentage top)
        /\ first_such (fun e => forall e', In e' (l0 :: ls) ->
                                           percentage e' <= percentage e)
                      (l0 :: ls) top
  end.
Proof.
  destruct outcome as [message|[[|l0 ls]|]]; try reflexivity.
  exists (hd l0 (sortByPercentage (l0 :: ls))). split; [reflexivity|].
  apply (sortByPercentage_hd (l:=l0 :: ls)). discriminate.
Qed.

(** Two languages share the highest percentage: the first reported wins. *)
Lemma detectLanguage_tie_example :
  detectLanguage
    (Detected (Some [ {| language := lit "fr"; percentage := 20 |};
                      {| language := lit "es"; percentage := 40 |};
                      {| language := lit "pt"; percentage := 40 |} ]))
  = Ollama.Fulfilled (lit "es", 40).
Proof. reflexivity. Qed.

(** X13.  The Chrome backend's [translate] fails exactly when the source is
    "auto" and the detection reports an error; with any other source the
    detector is never consulted.  In detect-only mode a success returns the
    text as it was given; otherwise a success carries a translation that
    contains the text, and its detected source language is never "auto". *)
Theorem chrome_translate_detection
    (cfg : Background.ChromeApiConfig) (detect : jsval -> DetectOutcome)
    (text sourceLangCode targetLangCode style : jsval) :
  ((exists error,
       translate cfg detect text sourceLangCode targetLangCode style = Failed error)
   <-> sourceLangCode = JString (lit "auto")
       /\ exists message, detect text = LastError message)
  /\ (sourceLangCode <> JString (lit "auto") ->
      forall detect',
        translate cfg detect' text sourceLangCode targetLangCode style
        = translate cfg detect text sourceLangCode targetLangCode style)
  /\ (forall translation detected message,
      translate cfg detect text sourceLangCode targetLangCode style
      = DetectOnly translation detected message ->
      Background.detectOnly cfg = true /\ translation = text)
  /\ (forall translation detected modelUsed,
      translate cfg detect text sourceLangCode targetLangCode style
      = Translated translation detected modelUsed ->
      Background.detectOnly cfg = false
      /\ contains translation (to_string text)
      /\ detected <> JString (lit "auto")).
Proof.
  assert (forall t s g, contains (translateText t s g) (to_string t)) as Hcontains.
  { intros t s g. unfold translateText.
    repeat match goal with |- context [if ?b then _ else _] => destruct b end;
      eexists (lit "[Chrome API] "), _; reflexivity. }
  unfold translate.
  destruct (strict_eq sourceLangCode (JString (lit "auto"))) eqn:Hauto.
  - apply strict_eq_eq in Hauto. subst sourceLangCode.
    split; [|split; [congruence|]].
    + split.
      * intros (error & H). split; [reflexivity|].
        destruct (detect text) as [message|languages]; [eauto|].
        exfalso. destruct languages as [[|l0 ls]|]; cbn in H;
          destruct (Background.detectOnly cfg); discriminate.
      * intros (_ & message & ->). cbn. eauto.
    + destruct (detectLanguage (detect text)) as [[l p]|]; [|split; intros; discriminate].
      destruct (Background.detectOnly cfg); split; try (intros; discriminate).
      * intros ? ? ? [= <- _ _]. auto.
      * intros ? ? ? [= <- <- _]. repeat split; [apply Hcontains|].
        destruct (jsstring_eqb l (lit "auto")) eqn:E;
          cbn [negb]; cbv iota; intros H; [discriminate H|].
        injection H as ->. rewrite jsstring_eqb_refl in E. discriminate E.
  - assert (sourceLangCode <> JString (lit "auto")) as Hne.
    { intros ->. cbn in Hauto. discriminate. }
    split; [|split; [reflexivity|]].
    + split.
      * intros (error & H). destruct (Background.detectOnly cfg); discriminate.
      * intros (H & _). contradiction.
    + destruct (Background.detectOnly cfg); split; try (intros; discriminate).
      * intros ? ? ? [= <- _ _]. auto.
      * intros ? ? ? [= <- <- _]. repeat split; [apply Hcontains|].
        rewrite Hauto. exact Hne.
Qed.

End Detection.

(* ------------------------------------------------------------------ *)
(** ** The coordinator: start-up, switching and updating *)

Section CoordinatorState.
Import Background Handlers Spec.

Lemma backendModules_truthy (v : jsval) (b : BackendModule) :
  backendModules v = Some b -> truthy v = true.
Proof. destruct v as [| |[|c s]]; try discriminate. reflexivity. Qed.

(** What [loadActiveBackend] does to a state with a configuration. *)
Lemma loadActiveBackend_cases (st : State) (c : Config) :
  config st = Some c ->
  match backendModules (activeBackend c) with
  | None =>
      fst (loadActiveBackend st) = st
      /\ exists e, snd (loadActiveBackend st) = Ollama.Rejected e
  | Some b =>
      config (fst (loadActiveBackend st)) = Some c
      /\ activeBackendModule (fst (loadActiveBackend st)) = Some b
      /\ supportedLanguagesList (fst (loadActiveBackend st)) = supportedLanguagesList st
      /\ listening (fst (loadActiveBackend st)) = listening st
  end.
Proof.
  intros Hc. unfold loadActiveBackend. rewrite Hc.
  destruct (backendModules (activeBackend c)) as [b|] eqn:Hb.
  - rewrite (backendModules_truthy _ Hb). cbn [negb].
    destruct b.
    + destruct (Ollama.initialize (ollamaSettings c)) as [oc r]. cbn. auto.
    + cbn. auto.
  - destruct (negb (truthy (activeBackend c))); cbn; eauto.
Qed.

Lemma setupListeners_ready (st : State) : ready st -> ready (setupListeners st).
Proof. intros (c & b & H). exists c, b. exact H. Qed.

(** X14.  Start-up registers the message listener exactly when the
    configuration left by the load (the packaged file over the defaults, or
    the defaults when the load failed) names a registered backend; when it
    does, the loaded configuration, the active module and the language list
    agree with each other, even if the module's own initialization threw. *)
Theorem initialize_listens_iff_backend_registered (load : Ollama.settled LoadedConfig) :
  plainName (activeBackend (loadedOrDefault load)) = true ->
  (listening (initialize load) = true
   <-> exists b, backendModules (activeBackend (loadedOrDefault load)) = Some b)
  /\ (listening (initialize load) = true ->
      ready (initialize load)
      /\ config (initialize load) = Some (loadedOrDefault load)).
Proof.
  intros _. destruct load as [loaded|error].
  - change (loadedOrDefault (Ollama.Fulfilled loaded))
      with (mergeConfig defaultConfig loaded).
    unfold initialize, initialize_states. cbn [loadAndProcessConfig].
    set (c := mergeConfig defaultConfig loaded).
    set (st1 := with_config initialState c (combineLanguages c)).
    pose proof (@loadActiveBackend_cases st1 c eq_refl) as H.
    destruct (backendModules (activeBackend c)) as [b|] eqn:Hb.
    + destruct H as (Hc & Hm & Hs & Hl).
      assert (ready (fst (loadActiveBackend st1))) as Hready
          by (exists c, b; rewrite Hs; auto).
      destruct (loadActiveBackend st1) as [st2 [[]|e]]; cbn [fst last] in *.
      * split; [split; eauto|]. intros _. split; [now apply setupListeners_ready|].
        exact Hc.
      * assert (recover st2 = setupListeners st2) as ->
            by (unfold recover; now rewrite Hc, Hm).
        split; [split; eauto|]. intros _. split; [now apply setupListeners_ready|].
        exact Hc.
    + destruct H as (Hst & e & Hr).
      destruct (loadActiveBackend st1) as [st2 r] eqn:E2. cbn [fst snd] in *.
      subst st2 r. cbn [last].
      assert (recover st1 = st1) as ->.
      { unfold recover. cbn [config st1 with_config activeBackendModule initialState].
        destruct (truthy (activeBackend c)); [|reflexivity]. now rewrite E2. }
      cbn. split; [split; [discriminate|intros (b & [=])]|discriminate].
  - cbn. split; [split; eauto|]. intros _. split; [|reflexivity].
    eexists _, _. repeat split.
Qed.

(** X15.  Once the globals agree with each other, every request that is
    answered with success leaves them so: after a successful switchBackend
    the active module is the one registered under the requested name, after
    a successful updateConfig the configuration is the one of the request
    with its language list rebuilt, and after a successful resetConfig
    (whatever the state before) the configuration is the bundled one over
    the defaults. *)
Theorem successful_requests_keep_ready (st : State) :
  ready st ->
  (forall storageSet newBackend st' message,
      plainName newBackend = true ->
      handleBackendSwitch storageSet newBackend st = (st', Done message) ->
      ready st'
      /\ activeBackendModule st' = backendModules newBackend
      /\ option_map activeBackend (config st') = Some newBackend)
  /\ (forall storageSet newConfig st' message,
      (forall c, newConfig = Some c -> plainName (activeBackend c) = true) ->
      handleConfigUpdate storageSet newConfig st = (st', Done message) ->
      ready st'
      /\ config st' = newConfig
      /\ exists c, newConfig = Some c /\ supportedLanguagesList st' = combineLanguages c)
  /\ (forall load st0 st' message,
      plainName (activeBackend (loadedOrDefault load)) = true ->
      handleConfigReset load st0 = (st', Done message) ->
      ready st'
      /\ exists loaded, load = Ollama.Fulfilled loaded
                        /\ config st' = Some (mergeConfig defaultConfig loaded)).
Proof.
  intros (c & b & Hc & Hm & Hb & Hs). split; [|split].
  - intros storageSet newBackend st' message _. unfold handleBackendSwitch.
    destruct (backendModules newBackend) as [nb|] eqn:Hnb; [|discriminate].
    rewrite Hc. destruct storageSet as [[]|e]; [|discriminate].
    set (st1 := set_config st (Some (set_activeBackend c newBackend))).
    pose proof (@loadActiveBackend_cases st1 _ eq_refl) as H.
    cbn [activeBackend set_activeBackend] in H. rewrite Hnb in H.
    destruct H as (Hc2 & Hm2 & Hs2 & _).
    destruct (loadActiveBackend st1) as [st2 [[]|e]]; [|discriminate].
    intros [= <- _]. cbn [fst] in *. repeat split.
    + exists (set_activeBackend c newBackend), nb. repeat split; auto.
      rewrite Hs2. exact Hs.
    + exact Hm2.
    + now rewrite Hc2.
  - intros storageSet newConfig st' message _. unfold handleConfigUpdate.
    rewrite Hc. destruct storageSet as [[]|e]; [|discriminate].
    destruct newConfig as [c'|]; [|discriminate].
    set (st1 := set_config st (Some c')).
    destruct (strict_eq (activeBackend c) (activeBackend c')) eqn:Hsame; cbn [negb].
    + apply strict_eq_eq in Hsame.
      unfold reinitialize. cbn [activeBackendModule st1 set_config]. rewrite Hm.
      assert (forall st2, config st2 = Some c' -> activeBackendModule st2 = Some b ->
                          let st3 := set_languages st2 (combineLanguages c') in
                          ready st3 /\ config st3 = Some c'
                          /\ exists c0, Some c' = Some c0
                                        /\ supportedLanguagesList st3 = combineLanguages c0)
        as Hdone.
      { intros st2 H1 H2. cbv zeta. repeat split; auto.
        - exists c', b. repeat split; auto. congruence.
        - eauto. }
      destruct b.
      * destruct (Ollama.initialize (ollamaSettings c')) as [oc [[]|e]]; [|discriminate].
        intros [= <- _]. now apply Hdone.
      * intros [= <- _]. now apply Hdone.
    + pose proof (@loadActiveBackend_cases st1 c' eq_refl) as H.
      destruct (backendModules (activeBackend c')) as [nb|] eqn:Hnb.
      * destruct H as (Hc2 & Hm2 & _).
        destruct (loadActiveBackend st1) as [st2 [[]|e]]; [|discriminate].
        intros [= <- _]. cbn [fst] in *. repeat split; auto.
        -- exists c', nb. repeat split; auto.
        -- eauto.
      * destruct H as (_ & e & Hr).
        destruct (loadActiveBackend st1) as [st2 r]. cbn [snd] in Hr. subst r.
        discriminate.
  - intros load st0 st' message _. unfold handleConfigReset.
    destruct load as [loaded|e]; [|discriminate]. cbn [loadAndProcessConfig].
    set (c' := mergeConfig defaultConfig loaded).
    set (st1 := with_config st0 c' (combineLanguages c')).
    pose proof (@loadActiveBackend_cases st1 c' eq_refl) as H.
    destruct (backendModules (activeBackend c')) as [nb|] eqn:Hnb.
    + destruct H as (Hc2 & Hm2 & Hs2 & _).
      destruct (loadActiveBackend st1) as [st2 [[]|e]]; [|discriminate].
      intros [= <- _]. cbn [fst] in *. split; [|eauto].
      exists c', nb. repeat split; auto.
    + destruct H as (_ & e & Hr).
      destruct (loadActiveBackend st1) as [st2 r]. cbn [snd] in Hr. subst r.
      discriminate.
Qed.

End CoordinatorState.

Section CoordinatorRequests.
Import Background Handlers Spec.

(** The state after a start-up whose load failed: the defaults, with the
    Ollama module active. *)
Lemma ready_after_failed_load :
  ready (initialize (Ollama.Rejected (lit "Failed to fetch"))).
Proof. eexists _, _. repeat split. Defined.

(** From the start-up state, a switch to the Chrome backend. *)
Lemma successful_requests_keep_ready_witness :
  ready (fst (handleBackendSwitch (Ollama.Fulfilled tt) (JString (lit "chromeApi"))
                (initialize (Ollama.Rejected (lit "Failed to fetch"))))).
Proof.
  refine (proj1 (proj1 (successful_requests_keep_ready ready_after_failed_load)
                       (Ollama.Fulfilled tt) (JString (lit "chromeApi")) _ _ _ _)).
  - reflexivity.
  - reflexivity.
Defined.

(** The load fails: the defaults name the Ollama backend, which is
    registered, and the listener is there. *)
Lemma initialize_listens_iff_backend_registered_witness :
  listening (initialize (Ollama.Rejected (lit "Failed to fetch"))) = true
  <-> exists b, backendModules (activeBackend defaultConfig) = Some b.
Proof.
  apply (proj1 (@initialize_listens_iff_backend_registered
                  (Ollama.Rejected (lit "Failed to fetch")) eq_refl)).
Defined.

(** X16.  A switchBackend request that names no registered backend is
    refused with a message naming it and changes nothing.  One that names a
    registered backend writes the name into the configuration first: when
    the write to storage then fails the request is refused, yet the
    configuration already names the new backend while the active module is
    still the old one. *)
Theorem handleBackendSwitch_refusals
    (storageSet : Ollama.settled unit) (newBackend : jsval) (st : State) :
  (plainName newBackend = true ->
   backendModules newBackend = None ->
   handleBackendSwitch storageSet newBackend st
   = (st, Refused (lit "Backend " ++ [dquote] ++ to_string newBackend ++ [dquote]
                   ++ lit " not found")))
  /\ (forall b c error,
      backendModules newBackend = Some b ->
      config st = Some c ->
      storageSet = Ollama.Rejected error ->
      exists st',
        handleBackendSwitch storageSet newBackend st = (st', Refused error)
        /\ option_map activeBackend (config st') = Some newBackend
        /\ activeBackendModule st' = activeBackendModule st).
Proof.
  unfold handleBackendSwitch. split.
  - now intros _ ->.
  - intros b c error -> -> ->. eexists. repeat split.
Qed.

(** The Ollama module is active; the storage write of a switch to the Chrome
    backend fails. *)
Lemma handleBackendSwitch_refusals_witness :
  exists st',
    handleBackendSwitch (Ollama.Rejected (lit "QUOTA_BYTES exceeded"))
                        (JString (lit "chromeApi"))
                        (initialize (Ollama.Rejected (lit "Failed to fetch")))
    = (st', Refused (lit "QUOTA_BYTES exceeded"))
    /\ option_map activeBackend (config st') = Some (JString (lit "chromeApi"))
    /\ activeBackendModule st' = Some OllamaBackend.
Proof.
  apply (proj2 (handleBackendSwitch_refusals
                  (Ollama.Rejected (lit "QUOTA_BYTES exceeded"))
                  (JString (lit "chromeApi"))
                  (initialize (Ollama.Rejected (lit "Failed to fetch"))))
               ChromeApiBackend defaultConfig (lit "QUOTA_BYTES exceeded"));
    reflexivity.
Defined.

(** The state after a successful switch to the Chrome backend. *)
Lemma switch_to_chromeApi_state
    (storageSet : Ollama.settled unit) (st st' : State) (message : option jsstring) :
  handleBackendSwitch storageSet (JString (lit "chromeApi")) st = (st', Done message) ->
  activeBackendModule st' = Some ChromeApiBackend /\ exists c, config st' = Some c.
Proof.
  unfold handleBackendSwitch.
  change (backendModules (JString (lit "chromeApi"))) with (Some ChromeApiBackend).
  destruct (config st) as [c|] eqn:Hc; [|discriminate].
  destruct storageSet as [[]|e]; [|discriminate].
  set (st1 := set_config st (Some (set_activeBackend c (JString (lit "chromeApi"))))).
  pose proof (@loadActiveBackend_cases st1 _ eq_refl) as H.
  cbn [activeBackend set_activeBackend] in H.
  change (backendModules (JString (lit "chromeApi"))) with (Some ChromeApiBackend) in H.
  destruct H as (Hc2 & Hm2 & _).
  destruct (loadActiveBackend st1) as [st2 [[]|e]]; [|discriminate].
  intros [= <- _]. cbn [fst] in *. eauto.
Qed.

(** X17.  After a switchBackend to "chromeApi" that is answered with
    success, every translate request, with or without a style, makes
    exactly one call, and that call goes to the Chrome module. *)
Theorem switch_to_chromeApi_then_dispatch
    (storageSet : Ollama.settled unit) (st st' : State) (message : option jsstring) :
  handleBackendSwitch storageSet (JString (lit "chromeApi")) st = (st', Done message) ->
  forall (R : Type) (backendTranslate : BackendModule -> TranslateArgs -> Ollama.settled R)
         (request : TranslateRequest),
    exists args,
      snd (handleTranslateRequest backendTranslate st' request)
      = [(ChromeApiBackend, args)].
Proof.
  intros H R backendTranslate request.
  destruct (switch_to_chromeApi_state _ _ H) as (Hm & c & Hc).
  unfold handleTranslateRequest, styleArgument. rewrite Hm, Hc.
  destruct (truthy (r_style request));
    destruct (backendTranslate ChromeApiBackend _); eexists; reflexivity.
Qed.

(** X21.  A checkModelStatus request never makes the coordinator throw and
    issues at most one network request: none when no backend module is
    active (an error is answered), none after a successful switch to
    "chromeApi" (the answer is "running" for every model id), and with the
    Ollama module active it is that module's check of the model. *)
Theorem handleModelStatusCheck_requests
    (net : Ollama.Network) (st : State) (modelId : jsval) (log : list Ollama.Request) :
  (exists status requests,
      handleModelStatusCheck net st modelId log = (Ollama.Fulfilled status, log ++ requests)
      /\ (List.length requests <= 1)%nat)
  /\ (activeBackendModule st = None ->
      exists message,
        handleModelStatusCheck net st modelId log
        = (Ollama.Fulfilled (OllamaStatus.StatusError message), log))
  /\ (forall storageSet st0 message,
      handleBackendSwitch storageSet (JString (lit "chromeApi")) st0 = (st, Done message) ->
      handleModelStatusCheck net st modelId log
      = (Ollama.Fulfilled (OllamaStatus.Running (lit "Chrome Translation API is available")),
         log)).
Proof.
  split; [|split].
  - unfold handleModelStatusCheck.
    destruct (activeBackendModule st) as [[|]|].
    + unfold OllamaStatus.checkModelStatus.
      destruct (Ollama.opt_find _ _) as [model|].
      * unfold Ollama.try_catch, Ollama.bind.
        pose proof (callOllamaApi_log net (to_string modelId)
                      (to_string (js_or (JString (Ollama.endpoint model))
                                        (JString OllamaStatus.defaultEndpoint)))
                      OllamaStatus.ping log) as Hlog.
        destruct (Ollama.callOllamaApi net _ _ _ log) as [[answer|e] log1];
          cbn [snd] in Hlog; subst log1; eexists _, [_]; split; (reflexivity || auto).
      * eexists _, []. rewrite app_nil_r. split; [reflexivity|auto].
    + eexists _, []. rewrite app_nil_r. split; [reflexivity|auto].
    + eexists _, []. rewrite app_nil_r. split; [reflexivity|auto].
  - intros H. unfold handleModelStatusCheck. rewrite H. eexists. reflexivity.
  - intros storageSet st0 message H.
    destruct (switch_to_chromeApi_state _ _ H) as (Hm & _).
    unfold handleModelStatusCheck. now rewrite Hm.
Qed.

(** The switch from the start-up state, then a request without style. *)
Lemma switch_to_chromeApi_then_dispatch_witness :
  let st' := fst (handleBackendSwitch (Ollama.Fulfilled tt) (JString (lit "chromeApi"))
                    (initialize (Ollama.Rejected (lit "Failed to fetch")))) in
  exists args,
    snd (handleTranslateRequest (fun _ _ => Ollama.Fulfilled tt) st'
           {| r_text := JString (lit "Hello"); r_sourceLang := JUndefined;
              r_targetLang := JString (lit "ja"); r_style := JUndefined |})
    = [(ChromeApiBackend, args)].
Proof.
  cbv zeta.
  eapply (@switch_to_chromeApi_then_dispatch
            (Ollama.Fulfilled tt)
            (initialize (Ollama.Rejected (lit "Failed to fetch")))).
  reflexivity.
Defined.

(** X18.  An updateConfig request that carries no configuration is refused
    but leaves the coordinator without one: from then on getConfig answers
    success with a null configuration, every updateConfig and switchBackend
    request is refused without effect, a translate request without style
    reaches no backend, and only resetConfig brings a configuration back
    (the bundled file over the defaults, or the defaults). *)
Theorem updateConfig_without_config_loses_config
    (storageSet : Ollama.settled unit) (st : State) (c : Config) :
  config st = Some c ->
  let st' := fst (handleConfigUpdate storageSet None st) in
  (exists error, snd (handleConfigUpdate storageSet None st) = Refused error)
  /\ config st' = None
  /\ (forall R : Type,
      @onMessageReceived R st' MsgGetConfig
      = Answered (ConfigReply None (supportedLanguagesList st)))
  /\ (forall storageSet2 newConfig,
      exists error, handleConfigUpdate storageSet2 newConfig st' = (st', Refused error))
  /\ (forall storageSet2 newBackend,
      exists error, handleBackendSwitch storageSet2 newBackend st' = (st', Refused error))
  /\ (forall (R : Type) (backendTranslate : BackendModule -> TranslateArgs -> Ollama.settled R)
             (request : TranslateRequest),
      absent (r_style request) ->
      snd (handleTranslateRequest backendTranslate st' request) = [])
  /\ (forall load,
      config (fst (handleConfigReset load st')) = Some (loadedOrDefault load)).
Proof.
  intros Hc. cbv zeta.
  assert (fst (handleConfigUpdate storageSet None st) = set_config st None
          /\ exists error, snd (handleConfigUpdate storageSet None st) = Refused error)
    as [-> Hrefused].
  { unfold handleConfigUpdate. rewrite Hc.
    destruct storageSet as [[]|e]; cbn; eauto. }
  split; [exact Hrefused|]. split; [reflexivity|]. split; [reflexivity|].
  split; [|split; [|split]].
  - intros storageSet2 newConfig. unfold handleConfigUpdate. cbn. eauto.
  - intros storageSet2 newBackend. unfold handleBackendSwitch.
    destruct (backendModules newBackend); cbn; eauto.
  - intros R backendTranslate request Habs.
    unfold handleTranslateRequest, styleArgument.
    apply truthy_false_iff in Habs. rewrite Habs. cbn [config set_config].
    now destruct (activeBackendModule (set_config st None)).
  - intros load. unfold handleConfigReset.
    destruct (loadAndProcessConfig_config load (set_config st None)) as (H1 & _).
    cbv zeta in H1. fold (loadedOrDefault load) in H1.
    destruct (loadAndProcessConfig load (set_config st None)) as [st1 [[]|e]];
      cbn [fst] in *; [|exact H1].
    destruct (loadActiveBackend_frame st1) as (H2 & _).
    destruct (loadActiveBackend st1) as [st2 [[]|e]]; cbn [fst] in *; congruence.
Qed.

(** After start-up, an updateConfig request without configuration. *)
Lemma updateConfig_without_config_loses_config_witness :
  @onMessageReceived unit
    (fst (handleConfigUpdate (Ollama.Fulfilled tt) None
            (initialize (Ollama.Rejected (lit "Failed to fetch")))))
    MsgGetConfig
  = Answered (ConfigReply None (combineLanguages defaultConfig)).
Proof.
  apply (proj1 (proj2 (proj2 (@updateConfig_without_config_loses_config
                                (Ollama.Fulfilled tt)
                                (initialize (Ollama.Rejected (lit "Failed to fetch")))
                                defaultConfig eq_refl)))).
Defined.

End CoordinatorRequests.

(* ------------------------------------------------------------------ *)
(** ** The context menu *)

Section ContextMenu.
Import Background Handlers Spec.

Lemma clickedTarget_prefix (s : jsstring) : clickedTarget (menuPrefix ++ s) = Some s.
Proof.
  unfold clickedTarget, replace.
  rewrite split_first_unfold, !prefixb_app.
  now rewrite skipn_app, skipn_all, Nat.sub_diag.
Qed.

(** X19.  The context menu has one item for each enabled language other
    than "auto", in the order of the language list, under the parent item;
    a click on the item of a language sends exactly the code of that
    language as the target, whatever the code contains, and a click on the
    parent item sends nothing. *)
Theorem context_menu_round_trip (langs : list Language) :
  (forall lang,
      In lang langs -> enabled lang = Some true ->
      code lang <> JString (lit "auto") ->
      In (languageItem lang) (setupContextMenu langs)
      /\ clickedTarget (item_id (languageItem lang)) = Some (to_string (code lang)))
  /\ (exists parent,
      setupContextMenu langs = parent :: map languageItem (filter inMenu langs)
      /\ clickedTarget (item_id parent) = None)
  /\ (forall lang,
      In lang (filter inMenu langs) <->
      In lang langs /\ enabled lang = Some true /\ code lang <> JString (lit "auto")).
Proof.
  assert (forall lang, inMenu lang = true
                       <-> enabled lang = Some true /\ code lang <> JString (lit "auto"))
    as HinMenu.
  { intros lang. unfold inMenu.
    destruct (enabled lang) as [[|]|]; try (split; [discriminate|intros [[=] _]]).
    rewrite negb_true_iff. split.
    - intros E. split; [reflexivity|]. intros H. rewrite H, strict_eq_refl in E.
      discriminate.
    - intros [_ H]. destruct (strict_eq _ _) eqn:E; [|reflexivity].
      apply strict_eq_eq in E. contradiction. }
  split; [|split].
  - intros lang Hin Hen Hcode. split.
    + right. apply in_map. apply filter_In. split; [exact Hin|].
      now apply HinMenu.
    + apply clickedTarget_prefix.
  - eexists. split; reflexivity.
  - intros lang. rewrite filter_In, HinMenu. tauto.
Qed.

(** The default language list: three items under the parent, and the item
    of Japanese sends "ja". *)
Lemma context_menu_round_trip_witness :
  In (languageItem (language "ja" "Japanese"))
     (setupContextMenu (combineLanguages defaultConfig))
  /\ clickedTarget (item_id (languageItem (language "ja" "Japanese"))) = Some (lit "ja").
Proof.
  apply (proj1 (context_menu_round_trip (combineLanguages defaultConfig))).
  - simpl. auto.
  - reflexivity.
  - discriminate.
Defined.

(** X20.  No item that [setupContextMenu] creates has the id that
    [onContextMenuClicked] waits for: that handler never sends its message
    for a click on the extension's own menu. *)
Theorem onContextMenuClicked_never_fires (langs : list Language) (item : MenuItem) :
  In item (setupContextMenu langs) ->
  onContextMenuClicked (item_id item) = false.
Proof.
  intros [<-|H]; [reflexivity|].
  apply in_map_iff in H as (lang & <- & _).
  unfold onContextMenuClicked. apply jsstring_eqb_neq.
  cbn [item_id languageItem]. intros H. vm_compute in H. discriminate H.
Qed.

(** The item of Japanese in the default menu. *)
Lemma onContextMenuClicked_never_fires_witness :
  onContextMenuClicked (item_id (languageItem (language "ja" "Japanese"))) = false.
Proof.
  apply (@onContextMenuClicked_never_fires (combineLanguages defaultConfig)).
  simpl. auto.
Defined.

End ContextMenu.
